(** * tgen/rank.py: the perceptron ranker, embedded and verified

    A shallow embedding of [PerceptronRanker] (src/tgen/rank.py) and of the
    configuration table src/bagel-data/config/percrank.py.

    Conventions of the embedding:
    - a Python float and a numpy float64 are IEEE 754 binary64 numbers:
      Rocq's primitive [float], whose [+], [-], [*], [<?] and [=?] are the
      operations of the hardware that numpy applies item by item; signed
      zeros, infinities and NaN are there;
    - a 1-D numpy array is a [list float]; shape mismatches raise
      [ValueError] as numpy does, and length-1 operands broadcast. In which
      order [np.dot] adds up the products is left to the BLAS numpy is
      linked with, so that sum is a parameter ([np_dot_sum]);
    - the accuracy of a pass, which the source only logs, is returned as the
      fraction [1 - iter_errs / n] itself, a [Q], of which the logged float
      is the rounding;
    - Python exceptions are values of [exn]; a computation ends in [Ok],
      [Raise] or [Diverge]: the [while] loops of the source run on fuel and
      [Diverge] says that the fuel was used up (the loop of the [random]
      strategy has no bound in the source; the one of [gen_cur_weights] is
      given the fuel it provably needs);
    - the ranker object is a record threaded through a state monad; the
      state reached when an exception is raised is kept, so that one can say
      what an aborted call left behind;
    - logging ([log_info], [log_debug]) and the wall clock have no influence
      on the ranker and are left out. *)

From Stdlib Require Import ZArith QArith Lia Floats.
From Stdlib Require Uint63.
From stdpp Require Import base option list strings gmap.

#[local] Set Warnings "-inexact-float".

Local Open Scope Q_scope.
Local Open Scope nat_scope.

(** ** Python exceptions and outcomes *)

Inductive exn : Set :=
  | ValueError
  | IndexError
  | TypeError
  | ZeroDivisionError
  | AttributeError
  | AssertionError
  | OverflowError
  | IOError.

Inductive outcome (A : Type) : Type :=
  | Ok (a : A)
  | Raise (e : exn)
  | Diverge.
Arguments Ok {A} a.
Arguments Raise {A} e.
Arguments Diverge {A}.

#[global] Instance outcome_ret : MRet outcome := fun _ a => Ok a.
#[global] Instance outcome_bind : MBind outcome := fun _ _ f m =>
  match m with
  | Ok a => f a
  | Raise e => Raise e
  | Diverge => Diverge
  end.

Definition is_Ok {A} (m : outcome A) : Prop := exists a, m = Ok a.

(** ** Python built-ins on lists *)

(** [l[i]] for a non-negative index. *)
Definition py_getitem {A} (l : list A) (i : nat) : outcome A :=
  match l !! i with
  | Some x => Ok x
  | None => Raise IndexError
  end.

(** [l[:n]]; a negative [n] counts from the end. *)
Definition py_slice_to {A} (l : list A) (n : Z) : list A :=
  if (0 <=? n)%Z then take (Z.to_nat n) l
  else take (length l - Z.to_nat (- n)) l.

(** ** float64

    [float(n)] for the length [n] of a list: the conversion of a machine
    integer (a Python list holds fewer than [2^63] items), rounded to the
    nearest float and exact below [2^53]. *)
Definition py_float (n : nat) : float :=
  PrimFloat.of_uint63 (Uint63.of_Z (Z.of_nat n)).

(** [int(round(x))], Python 2. [round] gives the whole number nearest to
    the exact value of [x], halves going away from zero, and [int] refuses
    what is not a number: [ValueError] for a NaN, [OverflowError] for an
    infinity. The exact value of a finite float is [m * 2^e]. *)
Definition py_int_round (x : float) : outcome Z :=
  match Prim2SF x with
  | S754_zero _ => Ok 0%Z
  | S754_finite s m e =>
      let n := if (0 <=? e)%Z then (Z.pos m * 2 ^ e)%Z
               else ((2 * Z.pos m + 2 ^ (- e)) / 2 ^ (1 - e))%Z in
      Ok (if s then (- n)%Z else n)
  | S754_infinity _ => Raise OverflowError
  | S754_nan => Raise ValueError
  end.

(** ** [max] and [index] on a list of scores

    The items of a list are objects. [max] returns one of the items, the
    object itself, and [index] looks for the first item that is its argument
    or equals it ([is] before [==]): the maximum is found even when it is a
    NaN, which equals nothing. An item of a list is identified here by its
    position. *)

(** The scan of [max]: [m], held at position [p], is the item kept so far,
    and [i] is the position of the head of [l]. An item replaces [m] only
    when [item > m]. *)
Fixpoint max_scan (p : nat) (m : float) (i : nat) (l : list float) : nat * float :=
  match l with
  | [] => (p, m)
  | y :: ys =>
      if (m <? y)%float then max_scan i y (S i) ys else max_scan p m (S i) ys
  end.

(** [max(l)]: the position and the value of the item returned. *)
Definition py_max (l : list float) : outcome (nat * float) :=
  match l with
  | [] => Raise ValueError
  | x :: xs => Ok (max_scan 0 x 1 xs)
  end.

(** [l.index(x)] for the item [x] of [l]: the first position whose item is
    [x] or equals it; [i] is the position of the head of [l]. *)
Fixpoint py_index (x : nat * float) (i : nat) (l : list float) : outcome nat :=
  match l with
  | [] => Raise ValueError
  | y :: ys =>
      if bool_decide (i = x.1) || (y =? x.2)%float then Ok i
      else py_index x (S i) ys
  end.

(** ** numpy on 1-D arrays *)

Definition vec : Type := list float.

Record matrix : Type := Matrix { ncols : nat; rows : list vec }.

(** [alpha * a] for a scalar [alpha]. *)
Definition np_scale (alpha : float) (a : vec) : vec := PrimFloat.mul alpha <$> a.

(** [a - b], with broadcasting of a length-1 operand. *)
Definition np_sub (a b : vec) : outcome vec :=
  if decide (length a = length b) then Ok (zip_with PrimFloat.sub a b)
  else match a, b with
       | [x], _ => Ok ((fun y => x - y)%float <$> b)
       | _, [y] => Ok ((fun x => x - y)%float <$> a)
       | _, _ => Raise ValueError
       end.

(** [w += d], in place: the result has the shape of [w]. *)
Definition np_iadd (w d : vec) : outcome vec :=
  if decide (length w = length d) then Ok (zip_with PrimFloat.add w d)
  else match d with
       | [y] => Ok ((fun x => x + y)%float <$> w)
       | _ => Raise ValueError
       end.

(** [np.ones(n)]. *)
Definition np_ones (n : nat) : vec := replicate n 1%float.

(** ** External collaborators

    Trees, dialogue acts, the feature extractor and the two fitted
    transformers are consumed through their interfaces only. [Tree]'s
    decidable equality stands for the [!=] of tree objects. [np_dot_sum] is
    the float that [np.dot] returns for two arrays of one length. *)

Class Collaborators : Type := {
  Tree : Type;
  Tree_eq_dec :: EqDecision Tree;
  DA : Type;
  FeatDict : Type;
  DictVectorizer : Type;
  StandardScaler : Type;
  (** [Features(feats).get_features(ttree, {'da': da})] *)
  get_features : list string -> Tree -> DA -> FeatDict;
  vectorizer_fit_transform : list FeatDict -> DictVectorizer * matrix;
  vectorizer_transform : DictVectorizer -> list FeatDict -> matrix;
  normalizer_fit_transform : matrix -> StandardScaler * matrix;
  normalizer_transform : StandardScaler -> matrix -> matrix;
  np_dot_sum : vec -> vec -> float;
  (** Both transformers work row by row: one output row per input row. *)
  vectorizer_transform_rows :
    forall vz X, length (rows (vectorizer_transform vz X)) = length X;
  normalizer_transform_rows :
    forall nz m, length (rows (normalizer_transform nz m)) = length (rows m);
}.

(** The objects built by [_init_training] from the candidate-generation
    model, each with the configuration it is given (the key ['langugage']
    is spelt as in the source); what they compute is supplied by an [oracle]
    below. The ['ranker': self] entry of the search planner is the ranker
    that the state monad threads. *)
Record RandomCandidateGenerator : Type := { cg_model : string }.
Record SamplingPlanner : Type :=
  { sp_langugage : string; sp_selector : string; sp_candgen : RandomCandidateGenerator }.
Record ASearchPlanner : Type :=
  { ap_candgen : RandomCandidateGenerator; ap_language : string; ap_selector : string }.

(** [np.dot(a, b)] for 1-D operands. *)
Definition np_dot `{Collaborators} (a b : vec) : outcome float :=
  if decide (length a = length b) then Ok (np_dot_sum a b) else Raise ValueError.

(** ** The configuration dictionary

    [cfg] as read by [PerceptronRanker.__init__]: each key is present or
    absent. *)
Record Config : Type := {
  cfg_alpha : option float;
  cfg_passes : option nat;
  cfg_rival_number : option nat;
  cfg_language : option string;
  cfg_selector : option string;
  cfg_rival_gen_strategy : option (list string);
  cfg_rival_gen_max_iter : option nat;
  cfg_rival_gen_max_defic_iter : option nat;
  cfg_rival_gen_beam_size : option nat;
  cfg_candgen_model : option string;
  cfg_features : option (list string);
}.

(** [cfg.get(key, dflt)] *)
Definition cfg_get {A} (v : option A) (dflt : A) : A := default dflt v.

(** The keys of src/bagel-data/config/percrank.py that the ranker reads. *)
Definition percrank_config : Config := {|
  cfg_alpha := Some 0.1%float;
  cfg_passes := Some 100;
  cfg_rival_number := Some 1;
  cfg_language := None;
  cfg_selector := None;
  cfg_rival_gen_strategy := Some ["gen_cur_weights"%string];
  cfg_rival_gen_max_iter := Some 100;
  cfg_rival_gen_max_defic_iter := Some 10;
  cfg_rival_gen_beam_size := None;
  cfg_candgen_model := None;
  cfg_features := Some [
    "depth: depth"; "nodes-per-dai: nodes_per_dai";
    "rep-nodes-per-rep-dai: rep_nodes_per_rep_dai"; "tree-size: tree_size";
    "lemma: presence t_lemma"; "formeme: presence formeme";
    "lemma-formeme: presence t_lemma formeme";
    "formeme-numc: presence formeme num_children";
    "lemma-formeme-numc: presence t_lemma formeme num_children";
    "dai: dai_presence"; "slot: slot_presence"; "slot^2: combine slot slot";
    "lemma-formeme+slot^2: combine lemma-formeme slot^2";
    "lemma+slot^2: combine lemma slot^2"; "lemma+dai: combine lemma dai";
    "formeme+dai: combine formeme dai";
    "lemma-formeme+dai: combine lemma-formeme dai";
    "formeme-numc+dai: combine formeme-numc dai";
    "lemma-formeme-numc+dai: combine lemma-formeme-numc dai";
    "max-children: max_children"; "rep-nodes: rep_nodes";
    "dep-lemma: dependency t_lemma"; "dep-formeme: dependency formeme";
    "dep-lemma-formeme: dependency t_lemma formeme";
    "dirdep-lemma: dir_dependency t_lemma";
    "dirdep-formeme: dir_dependency formeme";
    "dirdep-lemma-formeme: dir_dependency t_lemma formeme";
    "dirdep-lemma-formeme+dai: combine dirdep-lemma-formeme dai";
    "slot-lemma: combine slot lemma"; "rep-lemma: repeated t_lemma";
    "rep-lemma-formeme: repeated t_lemma formeme"; "rep-slot: slot_repeated";
    "not-rep-slot: set_difference slot rep-slot";
    "rep-lemma+not-slot: combine rep-lemma not-rep-slot";
    "siblings-lemma: siblings t_lemma"; "siblings-formeme: siblings formeme";
    "siblings-lemma-formeme: siblings t_lemma formeme";
    "siblings-lemma-formeme+dai: combine siblings-lemma-formeme dai";
    "bigrams-lemma: bigrams t_lemma"; "bigrams-formeme: bigrams formeme";
    "bigrams-lemma-formeme: bigrams t_lemma formeme";
    "bigrams-lemma-formeme+dai: combine bigrams-lemma-formeme dai"
  ]%string;
|}.

(** ** What the stochastic and search collaborators return

    One [oracle] holds the answers the outside world gives during one call
    of [_get_rival_candidates]: the draw of [random.sample], the successive
    trees of [sampling_planner.generate_tree] and the lists returned by
    [asearch_planner.run]. Theorems quantify over every oracle.

    Modelled from the spec: the type of the search planner's lists, which
    src/ does not declare: each holds [(tree, cost)] entries and the closed
    list is popped from its end. *)
Definition cand_list `{Collaborators} : Type := list (Tree * float).

Record oracle `{Collaborators} : Type := {
  sample_draw : list nat;
  planner_draw : nat -> Tree;
  search_draw : cand_list * cand_list;
}.

(** [random.sample(xrange(n), k)]: a sample larger than the population is
    an error. *)
Definition random_sample `{Collaborators} (o : oracle) (n k : nat) : outcome (list nat) :=
  if decide (k <= n) then Ok (sample_draw o) else Raise ValueError.

(** The contract of [random.sample(xrange(n), k)]: [k] pairwise distinct
    members of the population. *)
Definition is_sample (n k : nat) (l : list nat) : Prop :=
  length l = k /\ NoDup l /\ Forall (fun i => i < n) l.

(** [l.pop()] on a non-empty list: the last item and what remains. *)
Definition py_pop {A} (l : list A) : option (A * list A) :=
  match reverse l with
  | [] => None
  | x :: r => Some (x, reverse r)
  end.

(** ** The ranker object *)

Section Ranker.
Context `{Collaborators}.

(** The attributes of a [PerceptronRanker]. [w], [vectorizer] and
    [normalizer] are [None] until training starts. [candgen],
    [sampling_planner] and [asearch_planner] are created by
    [_init_training] only under some configurations: an outer [None] stands
    for an attribute the object does not have. For [candgen], whose value
    the source tests against Python's [None], [Some None] is an attribute
    that holds [None]. The remaining training attributes are read only after
    [_init_training] has set them. *)
Record PerceptronRanker : Type := {
  w : option vec;
  feats : list string;
  vectorizer : option DictVectorizer;
  normalizer : option StandardScaler;
  alpha : float;
  passes : nat;
  rival_number : nat;
  language : string;
  selector : string;
  rival_gen_strategy : list string;
  rival_gen_max_iter : nat;
  rival_gen_max_defic_iter : nat;
  rival_gen_beam_size : option nat;
  candgen_model : option string;
  train_sents : list string;
  train_trees : list Tree;
  train_das : list DA;
  train_feats : matrix;
  candgen : option (option RandomCandidateGenerator);
  sampling_planner : option SamplingPlanner;
  asearch_planner : option ASearchPlanner;
  lists_analyzer : list (Tree * cand_list * cand_list);
  evaluator : list (Tree * Tree);
}.

(** [PerceptronRanker.__init__(cfg)] *)
Definition __init__ (cfg : Config) : PerceptronRanker := {|
  w := None;
  feats := "bias: bias"%string :: cfg_get (cfg_features cfg) [];
  vectorizer := None;
  normalizer := None;
  alpha := cfg_get (cfg_alpha cfg) 1%float;
  passes := cfg_get (cfg_passes cfg) 5;
  rival_number := cfg_get (cfg_rival_number cfg) 10;
  language := cfg_get (cfg_language cfg) "en"%string;
  selector := cfg_get (cfg_selector cfg) ""%string;
  rival_gen_strategy := cfg_get (cfg_rival_gen_strategy cfg) ["other_inst"%string];
  rival_gen_max_iter := cfg_get (cfg_rival_gen_max_iter cfg) 50;
  rival_gen_max_defic_iter := cfg_get (cfg_rival_gen_max_defic_iter cfg) 3;
  rival_gen_beam_size := cfg_rival_gen_beam_size cfg;
  candgen_model := cfg_candgen_model cfg;
  train_sents := [];
  train_trees := [];
  train_das := [];
  train_feats := Matrix 0 [];
  candgen := None;
  sampling_planner := None;
  asearch_planner := None;
  lists_analyzer := [];
  evaluator := [];
|}.

(** Attribute assignments, by the group of statements that makes them. *)

Definition set_w (r : PerceptronRanker) (v : vec) : PerceptronRanker := {|
  w := Some v;
  feats := feats r; vectorizer := vectorizer r; normalizer := normalizer r;
  alpha := alpha r; passes := passes r; rival_number := rival_number r;
  language := language r; selector := selector r;
  rival_gen_strategy := rival_gen_strategy r;
  rival_gen_max_iter := rival_gen_max_iter r;
  rival_gen_max_defic_iter := rival_gen_max_defic_iter r;
  rival_gen_beam_size := rival_gen_beam_size r;
  candgen_model := candgen_model r;
  train_sents := train_sents r; train_trees := train_trees r;
  train_das := train_das r; train_feats := train_feats r;
  candgen := candgen r; sampling_planner := sampling_planner r;
  asearch_planner := asearch_planner r;
  lists_analyzer := lists_analyzer r; evaluator := evaluator r;
|}.

Definition set_lists_analyzer (r : PerceptronRanker)
    (la : list (Tree * cand_list * cand_list)) : PerceptronRanker := {|
  w := w r;
  feats := feats r; vectorizer := vectorizer r; normalizer := normalizer r;
  alpha := alpha r; passes := passes r; rival_number := rival_number r;
  language := language r; selector := selector r;
  rival_gen_strategy := rival_gen_strategy r;
  rival_gen_max_iter := rival_gen_max_iter r;
  rival_gen_max_defic_iter := rival_gen_max_defic_iter r;
  rival_gen_beam_size := rival_gen_beam_size r;
  candgen_model := candgen_model r;
  train_sents := train_sents r; train_trees := train_trees r;
  train_das := train_das r; train_feats := train_feats r;
  candgen := candgen r; sampling_planner := sampling_planner r;
  asearch_planner := asearch_planner r;
  lists_analyzer := la; evaluator := evaluator r;
|}.

Definition set_evaluator (r : PerceptronRanker)
    (ev : list (Tree * Tree)) : PerceptronRanker := {|
  w := w r;
  feats := feats r; vectorizer := vectorizer r; normalizer := normalizer r;
  alpha := alpha r; passes := passes r; rival_number := rival_number r;
  language := language r; selector := selector r;
  rival_gen_strategy := rival_gen_strategy r;
  rival_gen_max_iter := rival_gen_max_iter r;
  rival_gen_max_defic_iter := rival_gen_max_defic_iter r;
  rival_gen_beam_size := rival_gen_beam_size r;
  candgen_model := candgen_model r;
  train_sents := train_sents r; train_trees := train_trees r;
  train_das := train_das r; train_feats := train_feats r;
  candgen := candgen r; sampling_planner := sampling_planner r;
  asearch_planner := asearch_planner r;
  lists_analyzer := lists_analyzer r; evaluator := ev;
|}.

(** Line 96 of [_init_training]: the sentences. *)
Definition set_train_sents (r : PerceptronRanker) (sents : list string)
    : PerceptronRanker := {|
  w := w r;
  feats := feats r; vectorizer := vectorizer r; normalizer := normalizer r;
  alpha := alpha r; passes := passes r; rival_number := rival_number r;
  language := language r; selector := selector r;
  rival_gen_strategy := rival_gen_strategy r;
  rival_gen_max_iter := rival_gen_max_iter r;
  rival_gen_max_defic_iter := rival_gen_max_defic_iter r;
  rival_gen_beam_size := rival_gen_beam_size r;
  candgen_model := candgen_model r;
  train_sents := sents; train_trees := train_trees r;
  train_das := train_das r; train_feats := train_feats r;
  candgen := candgen r; sampling_planner := sampling_planner r;
  asearch_planner := asearch_planner r;
  lists_analyzer := lists_analyzer r; evaluator := evaluator r;
|}.

(** Lines 101-112 of [_init_training]: the training data and the fitted
    transformers. *)
Definition set_training_data (r : PerceptronRanker)
    (trees : list Tree) (das : list DA) (vz : DictVectorizer)
    (nz : StandardScaler) (tf : matrix) : PerceptronRanker := {|
  w := w r;
  feats := feats r; vectorizer := Some vz; normalizer := Some nz;
  alpha := alpha r; passes := passes r; rival_number := rival_number r;
  language := language r; selector := selector r;
  rival_gen_strategy := rival_gen_strategy r;
  rival_gen_max_iter := rival_gen_max_iter r;
  rival_gen_max_defic_iter := rival_gen_max_defic_iter r;
  rival_gen_beam_size := rival_gen_beam_size r;
  candgen_model := candgen_model r;
  train_sents := train_sents r; train_trees := trees;
  train_das := das; train_feats := tf;
  candgen := candgen r; sampling_planner := sampling_planner r;
  asearch_planner := asearch_planner r;
  lists_analyzer := lists_analyzer r; evaluator := evaluator r;
|}.

(** Lines 116-120: the candidate generator and the sampling planner. *)
Definition set_candgen (r : PerceptronRanker) (cg : RandomCandidateGenerator)
    (sp : SamplingPlanner) : PerceptronRanker := {|
  w := w r;
  feats := feats r; vectorizer := vectorizer r; normalizer := normalizer r;
  alpha := alpha r; passes := passes r; rival_number := rival_number r;
  language := language r; selector := selector r;
  rival_gen_strategy := rival_gen_strategy r;
  rival_gen_max_iter := rival_gen_max_iter r;
  rival_gen_max_defic_iter := rival_gen_max_defic_iter r;
  rival_gen_beam_size := rival_gen_beam_size r;
  candgen_model := candgen_model r;
  train_sents := train_sents r; train_trees := train_trees r;
  train_das := train_das r; train_feats := train_feats r;
  candgen := Some (Some cg); sampling_planner := Some sp;
  asearch_planner := asearch_planner r;
  lists_analyzer := lists_analyzer r; evaluator := evaluator r;
|}.

(** Lines 123-126: the A*-search planner. *)
Definition set_asearch_planner (r : PerceptronRanker)
    (ap : ASearchPlanner) : PerceptronRanker := {|
  w := w r;
  feats := feats r; vectorizer := vectorizer r; normalizer := normalizer r;
  alpha := alpha r; passes := passes r; rival_number := rival_number r;
  language := language r; selector := selector r;
  rival_gen_strategy := rival_gen_strategy r;
  rival_gen_max_iter := rival_gen_max_iter r;
  rival_gen_max_defic_iter := rival_gen_max_defic_iter r;
  rival_gen_beam_size := rival_gen_beam_size r;
  candgen_model := candgen_model r;
  train_sents := train_sents r; train_trees := train_trees r;
  train_das := train_das r; train_feats := train_feats r;
  candgen := candgen r; sampling_planner := sampling_planner r;
  asearch_planner := Some ap;
  lists_analyzer := lists_analyzer r; evaluator := evaluator r;
|}.

(** ** The state monad of methods that assign attributes *)

Definition M (A : Type) : Type := PerceptronRanker -> PerceptronRanker * outcome A.

#[global] Instance M_ret : MRet M := fun _ a r => (r, Ok a).
#[global] Instance M_bind : MBind M := fun _ _ f m r =>
  match m r with
  | (r', Ok a) => f a r'
  | (r', Raise e) => (r', Raise e)
  | (r', Diverge) => (r', Diverge)
  end.

(** A computation that only reads [self]. *)
Definition reads {A} (f : PerceptronRanker -> outcome A) : M A := fun r => (r, f r).
(** An assignment to attributes of [self]. *)
Definition assigns (f : PerceptronRanker -> PerceptronRanker) : M unit :=
  fun r => (f r, Ok tt).

(** [for x in l: acc = body(x, acc)] *)
Fixpoint for_each {A B} (l : list A) (body : A -> B -> M B) (acc : B) : M B :=
  match l with
  | [] => mret acc
  | x :: l' => acc' ← body x acc; for_each l' body acc'
  end.

(** ** Scoring *)

(** [self.normalizer.transform(self.vectorizer.transform([...]))[0]] *)
Definition _extract_feats (r : PerceptronRanker) (ttree : Tree) (da : DA) : outcome vec :=
  match vectorizer r, normalizer r with
  | Some vz, Some nz =>
      py_getitem
        (rows (normalizer_transform nz
                 (vectorizer_transform vz [get_features (feats r) ttree da])))
        0
  | _, _ => Raise AttributeError
  end.

(** [np.dot(self.w, cand_feats)] *)
Definition _score (r : PerceptronRanker) (cand_feats : vec) : outcome float :=
  match w r with
  | Some wv => np_dot wv cand_feats
  | None => Raise TypeError
  end.


(** ** Rival generation *)

(** The [other_inst] strategy (lines 216-222): gold trees of other training
    instances, with features computed against the current [da]. *)
Definition other_inst_rivals (r : PerceptronRanker) (o : oracle) (tree_no : nat)
    (da : DA) : outcome (list Tree * list vec) :=
  let n := length (train_trees r) in
  draw ← random_sample o (n - 1) (rival_number r);
  let rival_idxs := (fun idx => if decide (idx = tree_no) then n - 1 else idx) <$> draw in
  other_inst_trees ← mapM (py_getitem (train_trees r)) rival_idxs;
  fs ← mapM (fun tree => _extract_feats r tree da) other_inst_trees;
  Ok (other_inst_trees, fs).

(** The loop of the [random] strategy (lines 227-230). The source puts no
    bound on it; [fuel] bounds the number of iterations of the model and
    [calls] counts the calls of [generate_tree] made so far. *)
Fixpoint random_loop (r : PerceptronRanker) (o : oracle) (tree_no : nat)
    (fuel calls : nat) (random_trees : list Tree) : outcome (list Tree) :=
  if decide (length random_trees < rival_number r) then
    match fuel with
    | 0 => Diverge
    | S fuel' =>
        match sampling_planner r with
        | None => Raise AttributeError
        | Some _ =>
            let tree := planner_draw o calls in
            gold ← py_getitem (train_trees r) tree_no;
            if decide (tree <> gold)
            then random_loop r o tree_no fuel' (S calls) (random_trees ++ [tree])
            else random_loop r o tree_no fuel' (S calls) random_trees
        end
    end
  else Ok random_trees.

(** The [random] strategy (lines 225-232). *)
Definition random_rivals (r : PerceptronRanker) (o : oracle) (fuel tree_no : nat)
    (da : DA) : outcome (list Tree * list vec) :=
  random_trees ← random_loop r o tree_no fuel 0 [];
  fs ← mapM (fun tree => _extract_feats r tree da) random_trees;
  Ok (random_trees, fs).

(** The loop of the [gen_cur_weights] strategy (lines 244-247). Every
    iteration pops one entry, so the length of the closed list is fuel
    enough. *)
Fixpoint gen_loop (r : PerceptronRanker) (tree_no : nat) (fuel : nat)
    (close_list : cand_list) (gen_trees : list Tree) : outcome (list Tree) :=
  if bool_decide (close_list <> []) && bool_decide (length gen_trees < rival_number r) then
    match fuel with
    | 0 => Diverge
    | S fuel' =>
        match py_pop close_list with
        | None => Raise IndexError
        | Some ((tree, _), close_list') =>
            gold ← py_getitem (train_trees r) tree_no;
            if decide (tree <> gold)
            then gen_loop r tree_no fuel' close_list' (gen_trees ++ [tree])
            else gen_loop r tree_no fuel' close_list' gen_trees
        end
    end
  else Ok gen_trees.

(** The [gen_cur_weights] strategy (lines 237-250). The analyzer receives
    the lists as the planner returned them, before any entry is popped. *)
Definition gen_cur_weights_rivals (o : oracle) (tree_no : nat) (da : DA)
    : M (list Tree * list vec) :=
  _ ← reads (fun r => match asearch_planner r with
                      | Some ap => Ok ap
                      | None => Raise AttributeError
                      end);
  let '(open_list, close_list) := search_draw o in
  gold ← reads (fun r => py_getitem (train_trees r) tree_no);
  _ ← assigns (fun r =>
        set_lists_analyzer r (lists_analyzer r ++ [(gold, open_list, close_list)]));
  reads (fun r =>
    gen_trees ← gen_loop r tree_no (length close_list) close_list [];
    let rivals := py_slice_to gen_trees (Z.of_nat (rival_number r)) in
    fs ← mapM (fun tree => _extract_feats r tree da) rivals;
    Ok (rivals, fs)).

(** [rival_trees.extend(ts); rival_feats.extend(fs)] *)
Definition extend2 (acc new : list Tree * list vec) : list Tree * list vec :=
  (acc.1 ++ new.1, acc.2 ++ new.2).

(** [if name in self.rival_gen_strategy: <block>], the block's trees and
    features being appended to those collected so far. *)
Definition if_strategy (name : string) (rivals : list Tree * list vec)
    (block : M (list Tree * list vec)) : M (list Tree * list vec) :=
  fun r =>
    if decide (name ∈ rival_gen_strategy r)
    then (new ← block; mret (extend2 rivals new)) r
    else (r, Ok rivals).

Definition _get_rival_candidates (o : oracle) (fuel tree_no : nat)
    : M (list Tree * list vec) :=
  da ← reads (fun r => py_getitem (train_das r) tree_no);
  let rivals := ([], []) in
  rivals ← if_strategy "other_inst" rivals
             (reads (fun r => other_inst_rivals r o tree_no da));
  rivals ← if_strategy "random" rivals
             (reads (fun r => random_rivals r o fuel tree_no da));
  rivals ← if_strategy "gen_cur_weights" rivals
             (gen_cur_weights_rivals o tree_no da);
  mret rivals.

(** ** Training *)

(** [scores.index(max(scores))] *)
Definition index_of_max (scores : list float) : outcome nat :=
  m ← py_max scores; py_index m 0 scores.

(** The body of the loop of [_training_iter] (lines 150-178) for the
    instance [tree_no]; [iter_errs] is the error count so far and the
    result is the error count after this instance. *)
Definition training_instance (o : oracle) (fuel tree_no iter_errs : nat) : M nat :=
  gold_ttree ← reads (fun r => py_getitem (train_trees r) tree_no);
  gold_feats ← reads (fun r => py_getitem (rows (train_feats r)) tree_no);
  '(rival_ttrees, rival_feats) ← _get_rival_candidates o fuel tree_no;
  let cands := gold_feats :: rival_feats in
  scores ← reads (fun r => mapM (_score r) cands);
  top_cand_idx ← reads (fun _ => index_of_max scores);
  best_rival ← reads (fun _ =>
    i ← index_of_max (drop 1 scores); py_getitem rival_ttrees i);
  _ ← assigns (fun r => set_evaluator r (evaluator r ++ [(gold_ttree, best_rival)]));
  if decide (top_cand_idx <> 0) then
    w' ← reads (fun r =>
      top_cand ← py_getitem cands top_cand_idx;
      d ← np_sub (np_scale (alpha r) gold_feats) (np_scale (alpha r) top_cand);
      match w r with
      | Some wv => np_iadd wv d
      | None => Raise TypeError
      end);
    _ ← assigns (fun r => set_w r w');
    mret (iter_errs + 1)
  else mret iter_errs.

(** [1.0 - (iter_errs / float(n))] *)
Definition iter_accuracy (iter_errs n : nat) : outcome Q :=
  if decide (n = 0) then Raise ZeroDivisionError
  else Ok (1 - inject_Z (Z.of_nat iter_errs) / inject_Z (Z.of_nat n))%Q.

(** [_training_iter(iter_no)]; [os tree_no] is the oracle of instance
    [tree_no] in this pass. The result is the tree-level accuracy that the
    source reports. *)
Definition _training_iter (os : nat -> oracle) (fuel iter_no : nat) : M Q :=
  _ ← assigns (fun r => set_evaluator r []);
  _ ← assigns (fun r => set_lists_analyzer r []);
  n ← reads (fun r => Ok (length (train_trees r)));
  iter_errs ← for_each (seq 0 n)
                 (fun tree_no => training_instance (os tree_no) fuel tree_no) 0;
  reads (fun r => iter_accuracy iter_errs (length (train_trees r))).

(** Line 100: [train_size = int(round(data_portion * len(ttrees)))], the
    product being the float64 one. *)
Definition train_size (data_portion : float) (ttrees : list Tree) : outcome Z :=
  py_int_round (data_portion * py_float (length ttrees))%float.

(** [_init_training]; [das], [train_sents0] and [ttrees] are what
    [read_das], [sentences_from_doc] and [trees_from_doc] returned. *)
Definition _init_training (das : list DA) (train_sents0 : list string)
    (ttrees : list Tree) (data_portion : float) : M unit :=
  _ ← assigns (fun r => set_train_sents r train_sents0);
  train_size ← reads (fun _ => train_size data_portion ttrees);
  _ ← assigns (fun r =>
        let trees := py_slice_to ttrees train_size in
        let tdas := py_slice_to das train_size in
        let X := zip_with (fun da tree => get_features (feats r) tree da) tdas trees in
        let '(vz, vectorized) := vectorizer_fit_transform X in
        let '(nz, tf) := normalizer_fit_transform vectorized in
        set_training_data r trees tdas vz nz tf);
  _ ← assigns (fun r =>
        match candgen_model r with
        | Some model =>
            let cg := {| cg_model := model |} in
            set_candgen r cg
              {| sp_langugage := language r; sp_selector := selector r; sp_candgen := cg |}
        | None => r
        end);
  _ ← (fun r =>
        if decide ("gen_cur_weights"%string ∈ rival_gen_strategy r) then
          (* assert self.candgen is not None *)
          match candgen r with
          | None => (r, Raise AttributeError)
          | Some None => (r, Raise AssertionError)
          | Some (Some cg) =>
              (set_asearch_planner r
                 {| ap_candgen := cg; ap_language := language r;
                    ap_selector := selector r |}, Ok tt)
          end
        else (r, Ok tt));
  _ ← assigns (fun r => set_evaluator (set_lists_analyzer r []) []);
  assigns (fun r => set_w r (np_ones (ncols (train_feats r)))).

(** [train]; [os iter_no tree_no] is the oracle of instance [tree_no] in
    pass [iter_no]. *)
Definition train (os : nat -> nat -> oracle) (fuel : nat) (das : list DA)
    (train_sents0 : list string) (ttrees : list Tree) (data_portion : float) : M unit :=
  _ ← _init_training das train_sents0 ttrees data_portion;
  n ← reads (fun r => Ok (passes r));
  for_each (seq 1 n)
    (fun iter_no _ => _ ← _training_iter (os iter_no) fuel iter_no; mret tt) tt.

(** *** The stages of [_init_training], named for the statements below *)

(** [_init_training] up to the test of line 121, for the training size
    that line 100 computed: the training data are assigned and, with a
    model configured, the generator and its planner. *)
Definition init_data (das : list DA) (train_sents0 : list string)
    (ttrees : list Tree) (train_size : Z) (r : PerceptronRanker) : PerceptronRanker :=
  let trees := py_slice_to ttrees train_size in
  let tdas := py_slice_to das train_size in
  let X := zip_with (fun da tree => get_features (feats r) tree da) tdas trees in
  let r1 := set_training_data (set_train_sents r train_sents0) trees tdas
              (vectorizer_fit_transform X).1
              (normalizer_fit_transform (vectorizer_fit_transform X).2).1
              (normalizer_fit_transform (vectorizer_fit_transform X).2).2 in
  match candgen_model r with
  | Some model =>
      set_candgen r1 {| cg_model := model |}
        {| sp_langugage := language r; sp_selector := selector r;
           sp_candgen := {| cg_model := model |} |}
  | None => r1
  end.

(** The last two assignments of [_init_training]. *)
Definition init_weights (r : PerceptronRanker) : PerceptronRanker :=
  set_w (set_evaluator (set_lists_analyzer r []) [])
        (np_ones (ncols (train_feats r))).

End Ranker.

(** ** Printing the weights

    [_feat_val_str(vec, sep, nonzero)]: one line per feature name and
    weight, zero weights left out on request. [names] is what
    [self.vectorizer.get_feature_names()] returned and [fmt name weight]
    stands for ['%s: %.3f' % (name, weight)]. *)

(** The list that is joined: the comprehension over [zip(names, vec)]. *)
Definition feat_val_lines (fmt : string -> float -> string) (names : list string)
    (v : vec) (nonzero : bool) : list string :=
  (fun nw => fmt nw.1 nw.2)
    <$> filter (fun nw : string * float => negb nonzero || negb (nw.2 =? 0)%float)
          (zip names v).

Definition _feat_val_str (fmt : string -> float -> string) (names : list string)
    (v : vec) (sep : string) (nonzero : bool) : string :=
  String.concat sep (feat_val_lines fmt names v nonzero).

(** ** Persistence

    [pickle] and the file store are outside the repository: a pickler turns
    a ranker into a blob and back, and the files are a finite map from
    names to blobs. *)


Section Persistence.
Context `{Pickler}.



End Persistence.

(** ** Predicates used in the statements *)

(** [i] is the first position of [scores] that holds the greatest score:
    no score is greater than the one at [i], and no score before [i] equals
    it. *)
Definition is_first_argmax (scores : list float) (i : nat) : Prop :=
  exists s, scores !! i = Some s
    /\ (forall j t, scores !! j = Some t -> (s <? t)%float = false)
    /\ (forall j t, j < i -> scores !! j = Some t -> (t =? s)%float = false).

(** The weights after the update of lines 172-173 against the candidate
    [top_cand]: [w + (alpha * gold_feats - alpha * top_cand)], each operation
    applied item by item and rounded on its own. *)
Definition updated (alpha : float) (wv gold_feats top_cand : vec) : vec :=
  zip_with PrimFloat.add wv
    (zip_with PrimFloat.sub (np_scale alpha gold_feats) (np_scale alpha top_cand)).

(** What the strategy [name] contributes when [run] is its block: the
    block's result if the strategy is configured, nothing otherwise. *)
Definition strategy_part `{Collaborators} (r : PerceptronRanker) (name : string)
    (run : outcome (list Tree * list vec)) (p : list Tree * list vec) : Prop :=
  if decide (name ∈ rival_gen_strategy r) then run = Ok p else p = ([], []).

(** [r1] is [r] up to the entries of the analyzer: what rival generation
    may change. *)
Definition same_model `{Collaborators} (r r1 : PerceptronRanker) : Prop :=
  exists la, r1 = set_lists_analyzer r la.

(** Everything of a ranker except its weights and its two diagnostics:
    the configuration, the fitted transformers, the training data and the
    planners. *)
Definition frozen `{Collaborators} (r : PerceptronRanker) :=
  (feats r, vectorizer r, normalizer r, alpha r, passes r, rival_number r,
   language r, selector r, rival_gen_strategy r, rival_gen_max_iter r,
   rival_gen_max_defic_iter r, rival_gen_beam_size r, candgen_model r,
   train_sents r, train_trees r, train_das r, train_feats r,
   candgen r, sampling_planner r, asearch_planner r).

(** The number of coefficients of the weight vector, if there is one. *)
Definition weights_shape `{Collaborators} (r : PerceptronRanker) : option nat :=
  length <$> w r.

(** [r'] differs from [r] at most in the weights, whose number is the
    same, and in the two diagnostics. *)
Definition trains_from `{Collaborators} (r r' : PerceptronRanker) : Prop :=
  frozen r' = frozen r /\ weights_shape r' = weights_shape r.

(** The method [m] changes a ranker in that way only, however it ends. *)
Definition keeps `{Collaborators} {A} (m : M A) : Prop :=
  forall r, trains_from r (m r).1.


(** The transformers have been fitted: [_init_training] got past line 112. *)
Definition fitted `{Collaborators} (r : PerceptronRanker) : Prop :=
  is_Some (vectorizer r) /\ is_Some (normalizer r).

(** ** A small concrete world

    Trees and dialogue acts are numbers, a feature dictionary is already a
    vector [bias; tree; da] and the two transformers leave it as it is.
    [np.dot] adds the products up from left to right, starting from zero.
    With unit weights the score of [(tree, da)] is [1 + tree + da]. *)

Module Toy.

Definition toy_features (_ : list string) (t d : nat) : vec :=
  [1%float; py_float t; py_float d].

Definition toy_dot (a b : vec) : float :=
  foldl (fun acc xy => (acc + xy.1 * xy.2)%float) 0%float (zip a b).

Definition world : Collaborators := {|
  Tree := nat;
  DA := nat;
  FeatDict := vec;
  DictVectorizer := unit;
  StandardScaler := unit;
  get_features := toy_features;
  vectorizer_fit_transform X := (tt, Matrix 3 X);
  vectorizer_transform _ X := Matrix 3 X;
  normalizer_fit_transform m := (tt, m);
  normalizer_transform _ m := m;
  np_dot_sum := toy_dot;
  vectorizer_transform_rows _ _ := eq_refl;
  normalizer_transform_rows _ _ := eq_refl;
|}.


(** An oracle: the draw of [random.sample], the stream of planner trees
    and the closed list of the search (the open list is empty). *)
Definition mk_oracle (draw : list nat) (stream : nat -> nat)
    (closed : list (nat * float)) : @oracle world :=
  @Build_oracle world draw stream ([], closed).

(** Three instances: trees 5, 3, 7 with dialogue acts 0, 1, 2. *)
Definition corpus_trees : list nat := [5; 3; 7].
Definition corpus_das : list nat := [0; 1; 2].
Definition corpus_sents : list string := ["a"; "b"; "c"]%string.

Definition cfg_other_inst : Config := {|
  cfg_alpha := Some 0.1%float;
  cfg_passes := Some 1;
  cfg_rival_number := Some 1;
  cfg_language := None;
  cfg_selector := None;
  cfg_rival_gen_strategy := Some ["other_inst"%string];
  cfg_rival_gen_max_iter := None;
  cfg_rival_gen_max_defic_iter := None;
  cfg_rival_gen_beam_size := None;
  cfg_candgen_model := None;
  cfg_features := None;
|}.

(** The same configuration with other strategies, and a candidate
    generation model when [model] says so. *)
Definition cfg_with (strategy : list string) (model : option string) : Config := {|
  cfg_alpha := Some 0.1%float;
  cfg_passes := Some 1;
  cfg_rival_number := Some 1;
  cfg_language := None;
  cfg_selector := None;
  cfg_rival_gen_strategy := Some strategy;
  cfg_rival_gen_max_iter := None;
  cfg_rival_gen_max_defic_iter := None;
  cfg_rival_gen_beam_size := None;
  cfg_candgen_model := model;
  cfg_features := None;
|}.

(** The ranker of a configuration after [_init_training] on the corpus. *)
Definition trained (cfg : Config) : @PerceptronRanker world :=
  (_init_training (H := world) corpus_das corpus_sents corpus_trees 1%float
     (__init__ cfg)).1.

Definition trained0 : @PerceptronRanker world := trained cfg_other_inst.
Definition trained_random : @PerceptronRanker world :=
  trained (cfg_with ["random"%string] (Some "candgen.pickle"%string)).
Definition trained_search : @PerceptronRanker world :=
  trained (cfg_with ["gen_cur_weights"%string] (Some "candgen.pickle"%string)).
Definition trained_no_strategy : @PerceptronRanker world :=
  trained (cfg_with [] None).

(** [random.sample] draws index 0; the planner alternates between the
    trees 5 and 6; the search closed the trees 5, 9 and 8, in this order. *)
Definition oracle0 : @oracle world :=
  mk_oracle [0] (fun n => 5 + n mod 2) [(5, 1%float); (9, 2%float); (8, 3%float)].

(** The empty configuration [{}]: every default applies. *)
Definition cfg_default : Config := {|
  cfg_alpha := None;
  cfg_passes := None;
  cfg_rival_number := None;
  cfg_language := None;
  cfg_selector := None;
  cfg_rival_gen_strategy := None;
  cfg_rival_gen_max_iter := None;
  cfg_rival_gen_max_defic_iter := None;
  cfg_rival_gen_beam_size := None;
  cfg_candgen_model := None;
  cfg_features := None;
|}.

(** A corpus that lost two of its three dialogue acts. *)
Definition trained_misaligned : @PerceptronRanker world :=
  (_init_training (H := world) [0] corpus_sents corpus_trees 1%float
     (__init__ cfg_other_inst)).1.

(** A search that closed the gold tree of instance 0 and nothing else. *)
Definition oracle_only_gold : @oracle world :=
  mk_oracle [0] (fun n => 5 + n mod 2) [(5, 1%float)].

End Toy.

(** * Verification *)

(** ** The outcome monad *)

Lemma bind_Ok {A B} (m : outcome A) (f : A -> outcome B) (b : B) :
  (m ≫= f) = Ok b <-> exists a, m = Ok a /\ f a = Ok b.
Proof.
  destruct m as [a| |]; simpl; split; try (intros [? [? ?]]); try discriminate.
  - eauto.
  - congruence.
Qed.

Lemma mapM_Ok {A B} (f : A -> outcome B) (l : list A) (k : list B) :
  mapM f l = Ok k <-> Forall2 (fun x y => f x = Ok y) l k.
Proof.
  revert k. induction l as [|x l IH]; intros k; simpl.
  - split.
    + intros [= <-]. constructor.
    + intros Hk. inversion Hk. reflexivity.
  - split.
    + intros Hk. apply bind_Ok in Hk as (y & Hy & Hk).
      apply bind_Ok in Hk as (k' & Hk' & [= <-]).
      constructor; [exact Hy | apply IH, Hk'].
    + intros Hk. inversion Hk as [|? y ? k' Hy Hk']; subst.
      apply IH in Hk'. unfold mbind at 1. simpl. rewrite Hy. simpl.
      change (mapM f l ≫= (fun k0 => mret (y :: k0)) = Ok (y :: k')).
      rewrite Hk'. reflexivity.
Qed.

Lemma mapM_Ok_length {A B} (f : A -> outcome B) (l : list A) (k : list B) :
  mapM f l = Ok k -> length k = length l.
Proof. intros Hk. apply mapM_Ok, Forall2_length in Hk. congruence. Qed.

Lemma mapM_total {A B} (f : A -> outcome B) (l : list A) :
  Forall (fun x => is_Ok (f x)) l -> is_Ok (mapM f l).
Proof.
  induction 1 as [|x l [y Hy] _ [k Hk]].
  - exists []. reflexivity.
  - exists (y :: k). apply mapM_Ok. constructor; [exact Hy | apply mapM_Ok, Hk].
Qed.

Lemma mapM_ext {A B} (f g : A -> outcome B) (l : list A) :
  (forall x, f x = g x) -> mapM f l = mapM g l.
Proof.
  intros Hfg. induction l as [|x l IH]; [reflexivity|].
  cbn [mapM]. rewrite Hfg, IH. reflexivity.
Qed.

Lemma py_getitem_Ok {A} (l : list A) (i : nat) (x : A) :
  py_getitem l i = Ok x <-> l !! i = Some x.
Proof. unfold py_getitem. destruct (l !! i); split; congruence. Qed.

(** ** The order of float64

    [<?] is a strict order that [=?] respects, NaN or not: this is read off
    the comparison of the IEEE specification, to which the primitive
    comparisons are equal. *)

Lemma SFcompare_Lt_trans (a b c : spec_float) :
  SFcompare a b = Some Lt -> SFcompare b c = Some Lt -> SFcompare a c = Some Lt.
Proof.
  destruct a as [sa|sa| |sa ma ea], b as [sb|sb| |sb mb eb], c as [sc|sc| |sc mc ec];
    simpl; try discriminate;
    try destruct sa; try destruct sb; try destruct sc; simpl;
    try discriminate; try reflexivity.
  all: rewrite ?Pos.compare_cont_spec; simpl.
  all: destruct (Z.compare_spec ea eb), (Z.compare_spec eb ec), (Z.compare_spec ea ec);
    try discriminate; try reflexivity; try lia; subst.
  all: destruct (Pos.compare_spec ma mb), (Pos.compare_spec mb mc),
         (Pos.compare_spec ma mc); simpl; try discriminate; try reflexivity; try lia.
Qed.

Lemma SFcompare_Eq_l (a b c : spec_float) :
  SFcompare a b = Some Eq -> SFcompare a c = SFcompare b c.
Proof.
  destruct a as [sa|sa| |sa ma ea], b as [sb|sb| |sb mb eb], c as [sc|sc| |sc mc ec];
    simpl; try discriminate;
    try destruct sa; try destruct sb; try destruct sc; simpl;
    try discriminate; try reflexivity.
  all: rewrite ?Pos.compare_cont_spec; simpl.
  all: destruct (Z.compare_spec ea eb); try discriminate; subst.
  all: destruct (Pos.compare_spec ma mb); simpl; try discriminate; subst; reflexivity.
Qed.

Lemma SFcompare_Eq_r (a b c : spec_float) :
  SFcompare a b = Some Eq -> SFcompare c a = SFcompare c b.
Proof.
  destruct a as [sa|sa| |sa ma ea], b as [sb|sb| |sb mb eb], c as [sc|sc| |sc mc ec];
    simpl; try discriminate;
    try destruct sa; try destruct sb; try destruct sc; simpl;
    try discriminate; try reflexivity.
  all: rewrite ?Pos.compare_cont_spec; simpl.
  all: destruct (Z.compare_spec ea eb); try discriminate; subst.
  all: destruct (Pos.compare_spec ma mb); simpl; try discriminate; subst; reflexivity.
Qed.

Lemma SFcompare_irrefl (a : spec_float) : SFcompare a a <> Some Lt.
Proof.
  destruct a as [sa|sa| |sa ma ea]; simpl; try discriminate;
    try destruct sa; try discriminate.
  all: rewrite ?Pos.compare_cont_spec, Z.compare_refl, Pos.compare_refl; discriminate.
Qed.

Lemma float_ltb_irrefl (x : float) : (x <? x)%float = false.
Proof.
  rewrite FloatAxioms.ltb_spec. unfold SFltb.
  pose proof (SFcompare_irrefl (Prim2SF x)) as Hx.
  destruct (SFcompare (Prim2SF x) (Prim2SF x)) as [[]|]; congruence.
Qed.

Lemma float_ltb_trans (x y z : float) :
  (x <? y)%float = true -> (y <? z)%float = true -> (x <? z)%float = true.
Proof.
  rewrite !FloatAxioms.ltb_spec. unfold SFltb. intros Hxy Hyz.
  rewrite (SFcompare_Lt_trans (Prim2SF x) (Prim2SF y) (Prim2SF z)); [reflexivity| |].
  - destruct (SFcompare (Prim2SF x) (Prim2SF y)) as [[]|]; congruence.
  - destruct (SFcompare (Prim2SF y) (Prim2SF z)) as [[]|]; congruence.
Qed.

Lemma float_ltb_asym (x y : float) : (x <? y)%float = true -> (y <? x)%float = false.
Proof.
  intros Hxy. destruct (y <? x)%float eqn:Hyx; [|reflexivity].
  pose proof (float_ltb_trans _ _ _ Hxy Hyx) as Hxx.
  rewrite float_ltb_irrefl in Hxx. discriminate Hxx.
Qed.

Lemma float_eqb_Eq (x y : float) :
  (x =? y)%float = true -> SFcompare (Prim2SF x) (Prim2SF y) = Some Eq.
Proof.
  rewrite FloatAxioms.eqb_spec. unfold SFeqb.
  destruct (SFcompare (Prim2SF x) (Prim2SF y)) as [[]|]; congruence.
Qed.

(** Equal floats compare alike with every float. *)
Lemma float_eqb_ltb_l (x y t : float) :
  (x =? y)%float = true -> (x <? t)%float = (y <? t)%float.
Proof.
  intros Heq. rewrite !FloatAxioms.ltb_spec. unfold SFltb.
  rewrite (SFcompare_Eq_l _ _ (Prim2SF t) (float_eqb_Eq _ _ Heq)). reflexivity.
Qed.

Lemma float_eqb_ltb_r (x y t : float) :
  (x =? y)%float = true -> (t <? x)%float = (t <? y)%float.
Proof.
  intros Heq. rewrite !FloatAxioms.ltb_spec. unfold SFltb.
  rewrite (SFcompare_Eq_r _ _ (Prim2SF t) (float_eqb_Eq _ _ Heq)). reflexivity.
Qed.

Lemma float_eqb_eqb_r (x y t : float) :
  (x =? y)%float = true -> (t =? x)%float = (t =? y)%float.
Proof.
  intros Heq. rewrite !FloatAxioms.eqb_spec. unfold SFeqb.
  rewrite (SFcompare_Eq_r _ _ (Prim2SF t) (float_eqb_Eq _ _ Heq)). reflexivity.
Qed.

(** ** [max] and [index] *)

Lemma max_scan_spec (l : list float) (p : nat) (m : float) (i p' : nat) (m' : float) :
  max_scan p m i l = (p', m') ->
  ((p' = p /\ m' = m)
   \/ (i <= p' /\ l !! (p' - i) = Some m' /\ (m <? m')%float = true))
  /\ (forall t, t ∈ l -> (m' <? t)%float = false).
Proof.
  revert p m i. induction l as [|y ys IH]; intros p m i Hscan; simpl in Hscan.
  - injection Hscan as <- <-. split; [left; auto|]. intros t Ht. inversion Ht.
  - destruct (m <? y)%float eqn:Hmy.
    + destruct (IH _ _ _ Hscan) as [HA HB]. split.
      * right. destruct HA as [[-> ->]|(Hle & Hlook & Hlt)].
        -- split; [lia|]. rewrite Nat.sub_diag. split; [reflexivity | exact Hmy].
        -- split; [lia|]. replace (p' - i) with (S (p' - S i)) by lia.
           split; [exact Hlook | exact (float_ltb_trans _ _ _ Hmy Hlt)].
      * intros t Ht. apply elem_of_cons in Ht as [->|Ht]; [|exact (HB t Ht)].
        destruct HA as [[_ ->]|(_ & _ & Hlt)];
          [apply float_ltb_irrefl | exact (float_ltb_asym _ _ Hlt)].
    + destruct (IH _ _ _ Hscan) as [HA HB]. split.
      * destruct HA as [[-> ->]|(Hle & Hlook & Hlt)]; [left; auto|].
        right. split; [lia|]. replace (p' - i) with (S (p' - S i)) by lia.
        split; [exact Hlook | exact Hlt].
      * intros t Ht. apply elem_of_cons in Ht as [->|Ht]; [|exact (HB t Ht)].
        destruct HA as [[_ ->]|(_ & _ & Hlt)]; [exact Hmy|].
        destruct (m' <? y)%float eqn:Hm'y; [|reflexivity].
        rewrite (float_ltb_trans _ _ _ Hlt Hm'y) in Hmy. discriminate Hmy.
Qed.

(** The first item stays the maximum when no item is greater than it. *)
Lemma max_scan_stays (l : list float) (p : nat) (m : float) (i : nat) :
  (forall t, t ∈ l -> (m <? t)%float = false) -> max_scan p m i l = (p, m).
Proof.
  revert i. induction l as [|y ys IH]; intros i Hall; simpl; [reflexivity|].
  rewrite (Hall y) by left. apply IH. intros t Ht. apply Hall. right. exact Ht.
Qed.

(** What [max] returns: an item of the list, with its position, than which
    no item is greater; when it is not the first item, it is greater than
    the first. *)
Lemma py_max_spec (l : list float) (p : nat) (m : float) :
  py_max l = Ok (p, m) ->
  l !! p = Some m
  /\ (forall j t, l !! j = Some t -> (m <? t)%float = false)
  /\ (forall x, l !! 0 = Some x -> p <> 0 -> (x <? m)%float = true).
Proof.
  destruct l as [|x xs]; simpl; [discriminate|]. intros [= Hscan].
  destruct (max_scan_spec _ _ _ _ _ _ Hscan) as [HA HB].
  split; [|split].
  - destruct HA as [[-> ->]|(Hle & Hlook & _)]; [reflexivity|].
    destruct p as [|p]; [lia|]. replace (S p - 1) with p in Hlook by lia.
    exact Hlook.
  - intros [|j] t Ht; simpl in Ht.
    + injection Ht as <-.
      destruct HA as [[_ ->]|(_ & _ & Hlt)];
        [apply float_ltb_irrefl | exact (float_ltb_asym _ _ Hlt)].
    + apply HB. eapply list_elem_of_lookup_2, Ht.
  - intros x' [= <-] Hp. destruct HA as [[-> _]|(_ & _ & Hlt)]; [contradiction|].
    exact Hlt.
Qed.

Lemma py_max_nonempty (l : list float) : l <> [] -> is_Ok (py_max l).
Proof. destruct l; [congruence|]. intros _. eexists. reflexivity. Qed.

Lemma py_index_spec (x : nat * float) (l : list float) (i k : nat) :
  py_index x i l = Ok k ->
  i <= k
  /\ (exists y, l !! (k - i) = Some y /\ (k = x.1 \/ (y =? x.2)%float = true))
  /\ (forall j z, j < k - i -> l !! j = Some z ->
        i + j <> x.1 /\ (z =? x.2)%float = false).
Proof.
  revert i. induction l as [|y l IH]; intros i; simpl; [discriminate|].
  destruct (bool_decide (i = x.1) || (y =? x.2)%float) eqn:E.
  - intros [= <-]. rewrite Nat.sub_diag. split; [lia|]. split.
    + exists y. split; [reflexivity|].
      apply orb_true_iff in E as [E|E]; [left; apply bool_decide_eq_true in E; exact E|].
      right. exact E.
    + intros j z Hj. lia.
  - intros Hk. destruct (IH _ Hk) as (Hle & (y' & Hy' & Hmatch) & Hfirst).
    apply orb_false_iff in E as [E1 E2]. apply bool_decide_eq_false in E1.
    split; [lia|]. split.
    + exists y'. replace (k - i) with (S (k - S i)) by lia. split; assumption.
    + intros [|j] z Hj Hz; simpl in Hz.
      * injection Hz as <-. split; [lia | exact E2].
      * destruct (Hfirst j z) as [Hne Heq]; [lia | exact Hz|].
        split; [lia | exact Heq].
Qed.

(** [index] finds an item that is in the list. *)
Lemma py_index_total (x : nat * float) (l : list float) (i : nat) :
  i <= x.1 < i + length l -> is_Ok (py_index x i l).
Proof.
  revert i. induction l as [|y l IH]; intros i Hx; simpl in *; [lia|].
  destruct (bool_decide (i = x.1) || (y =? x.2)%float) eqn:E;
    [eexists; reflexivity|].
  apply orb_false_iff in E as [E1 _]. apply bool_decide_eq_false in E1.
  apply IH. lia.
Qed.

Lemma index_of_max_inv (scores : list float) (i : nat) :
  index_of_max scores = Ok i ->
  exists p m s,
    py_max scores = Ok (p, m) /\ scores !! i = Some s /\ i <= p
    /\ (s = m \/ (s =? m)%float = true)
    /\ (forall j t, j < i -> scores !! j = Some t -> (t =? m)%float = false).
Proof.
  unfold index_of_max. intros Hi. apply bind_Ok in Hi as ([p m] & Hm & Hi).
  pose proof (py_max_spec _ _ _ Hm) as (Hp & _ & _).
  apply py_index_spec in Hi as (_ & (s & Hs & Hmatch) & Hfirst).
  rewrite Nat.sub_0_r in Hs, Hfirst. simpl in Hmatch, Hfirst.
  exists p, m, s. split; [exact Hm|]. split; [exact Hs|]. split; [|split].
  - destruct (decide (i <= p)) as [?|Hgt]; [assumption|].
    destruct (Hfirst p m) as [Hne _]; [lia | exact Hp | lia].
  - destruct Hmatch as [->|Heq]; [left; congruence | right; exact Heq].
  - intros j t Hj Ht. apply (Hfirst j t Hj Ht).
Qed.

Lemma index_of_max_spec (scores : list float) (i : nat) :
  index_of_max scores = Ok i -> is_first_argmax scores i.
Proof.
  intros Hi. destruct (index_of_max_inv _ _ Hi)
    as (p & m & s & Hm & Hs & _ & Hsm & Hfirst).
  apply py_max_spec in Hm as (_ & Hmax & _).
  exists s. split; [exact Hs|]. split.
  - intros j t Ht. destruct Hsm as [->|Heq]; [exact (Hmax j t Ht)|].
    rewrite (float_eqb_ltb_l _ _ t Heq). exact (Hmax j t Ht).
  - intros j t Hj Ht. destruct Hsm as [->|Heq]; [exact (Hfirst j t Hj Ht)|].
    rewrite (float_eqb_eqb_r _ _ t Heq). exact (Hfirst j t Hj Ht).
Qed.

Lemma index_of_max_nonempty (scores : list float) :
  scores <> [] -> is_Ok (index_of_max scores).
Proof.
  intros Hne. destruct (py_max_nonempty scores Hne) as [[p m] Hm].
  destruct (py_max_spec _ _ _ Hm) as (Hp & _).
  apply lookup_lt_Some in Hp.
  destruct (py_index_total (p, m) scores 0) as [i Hi]; [simpl; lia|].
  exists i. unfold index_of_max. rewrite Hm. exact Hi.
Qed.

Lemma is_first_argmax_lt (scores : list float) (i : nat) :
  is_first_argmax scores i -> i < length scores.
Proof. intros (s & Hs & _). apply lookup_lt_Some in Hs. exact Hs. Qed.

(** The maximum of one score is that score, whatever it is. *)
Lemma index_of_max_singleton (s : float) : index_of_max [s] = Ok 0.
Proof. reflexivity. Qed.

(** The first item is chosen exactly when no item is greater than it; and
    an item chosen in its place is greater than it. *)
Lemma index_of_max_first (x : float) (xs : list float) (i : nat) :
  index_of_max (x :: xs) = Ok i ->
  (i = 0 <-> forall t, t ∈ xs -> (x <? t)%float = false)
  /\ (i <> 0 -> exists s, (x :: xs) !! i = Some s /\ (x <? s)%float = true).
Proof.
  intros Hi. split; [split|].
  - intros ->. apply index_of_max_spec in Hi as (s & [= <-] & Hmax & _).
    intros t Ht. apply list_elem_of_lookup_1 in Ht as [j Hj].
    apply (Hmax (S j) t). exact Hj.
  - intros Hall. unfold index_of_max in Hi. simpl in Hi.
    rewrite (max_scan_stays xs 0 x 1 Hall) in Hi. simpl in Hi. congruence.
  - intros Hnz. destruct (index_of_max_inv _ _ Hi)
      as (p & m & s & Hm & Hs & Hle & Hsm & _).
    apply py_max_spec in Hm as (_ & _ & Hgt).
    exists s. split; [exact Hs|].
    specialize (Hgt x eq_refl ltac:(lia)).
    destruct Hsm as [->|Heq]; [exact Hgt|].
    rewrite (float_eqb_ltb_r _ _ x Heq). exact Hgt.
Qed.

(** ** The size of the training set *)

(** A number: a zero or a finite float whose exponent is at most [b]. *)
Definition finite_below (b : Z) (x : spec_float) : Prop :=
  match x with
  | S754_zero _ => True
  | S754_finite _ _ e => (e <= b)%Z
  | _ => False
  end.

Definition finite_or_zero (x : spec_float) : Prop :=
  match x with
  | S754_zero _ | S754_finite _ _ _ => True
  | _ => False
  end.

Lemma finite_below_finite (b : Z) (x : spec_float) :
  finite_below b x -> finite_or_zero x.
Proof. destruct x; simpl; auto. Qed.

Lemma digits2_pos_bound (p : positive) (k : Z) :
  (0 <= k)%Z -> (Z.pos p < 2 ^ k)%Z -> (Z.pos (digits2_pos p) <= k)%Z.
Proof.
  revert k. induction p as [p IH|p IH|]; intros k Hk Hp; simpl.
  - assert (k <> 0)%Z by (intros ->; simpl in Hp; lia).
    replace k with (Z.succ (k - 1))%Z in Hp by lia.
    rewrite Z.pow_succ_r in Hp by lia.
    specialize (IH (k - 1)%Z ltac:(lia) ltac:(lia)). lia.
  - assert (k <> 0)%Z by (intros ->; simpl in Hp; lia).
    replace k with (Z.succ (k - 1))%Z in Hp by lia.
    rewrite Z.pow_succ_r in Hp by lia.
    specialize (IH (k - 1)%Z ltac:(lia) ltac:(lia)). lia.
  - assert (k <> 0)%Z by (intros ->; simpl in Hp; lia). lia.
Qed.

Lemma digits2_pos_lt (p : positive) : (Z.pos p < 2 ^ Z.pos (digits2_pos p))%Z.
Proof.
  induction p as [p IH|p IH|]; simpl; [| |reflexivity].
  - rewrite Pos2Z.inj_succ, Z.pow_succ_r by lia. lia.
  - rewrite Pos2Z.inj_succ, Z.pow_succ_r by lia. lia.
Qed.

Lemma Zdigits2_bound (m k : Z) :
  (0 <= k)%Z -> (0 <= m < 2 ^ k)%Z -> (0 <= Zdigits2 m <= k)%Z.
Proof.
  intros Hk [H0 Hm]. destruct m as [|p|p]; simpl; [lia| |lia].
  split; [lia|]. apply digits2_pos_bound; assumption.
Qed.

Lemma shr_1_bound (mrs : shr_record) :
  (0 <= shr_m mrs)%Z -> (0 <= shr_m (shr_1 mrs) <= shr_m mrs)%Z.
Proof.
  destruct mrs as [m r s]. simpl. intros Hm.
  destruct m as [|[p|p|]|p]; simpl; lia.
Qed.

Lemma iter_pos_shr_1_bound (p : positive) (mrs : shr_record) :
  (0 <= shr_m mrs)%Z -> (0 <= shr_m (SpecFloat.iter_pos shr_1 p mrs) <= shr_m mrs)%Z.
Proof.
  revert mrs. induction p as [p IH|p IH|]; intros mrs Hm; simpl.
  - pose proof (shr_1_bound mrs Hm) as H1.
    pose proof (IH _ (proj1 H1)) as H2.
    pose proof (IH _ (proj1 H2)) as H3. lia.
  - pose proof (IH _ Hm) as H2.
    pose proof (IH _ (proj1 H2)) as H3. lia.
  - apply shr_1_bound, Hm.
Qed.

Lemma shr_m_record_of_loc (m : Z) (l : location) : shr_m (shr_record_of_loc m l) = m.
Proof. destruct l as [|[]]; reflexivity. Qed.

(** One shift to the format: the mantissa does not grow and the exponent
    stays small. *)
Lemma shr_fexp_bound (m e : Z) (l : location) (k b : Z) :
  (0 <= k)%Z -> (0 <= m < 2 ^ k)%Z -> (e <= b)%Z -> (0 <= b)%Z ->
  let '(mrs, e') := shr_fexp prec emax m e l in
  (0 <= shr_m mrs <= m)%Z /\ (e' <= b + k)%Z.
Proof.
  intros Hk Hm He Hb. unfold shr_fexp, shr.
  pose proof (Zdigits2_bound m k Hk Hm) as Hd.
  assert (Hf : (fexp prec emax (Zdigits2 m + e) <= b + k)%Z).
  { unfold fexp, emin, prec, emax. lia. }
  destruct (fexp _ _ _ - e)%Z as [|p|p] eqn:E.
  - rewrite shr_m_record_of_loc. lia.
  - pose proof (iter_pos_shr_1_bound p (shr_record_of_loc m l)) as Hit.
    rewrite shr_m_record_of_loc in Hit. split; [apply Hit; lia | lia].
  - rewrite shr_m_record_of_loc. lia.
Qed.

Lemma round_nearest_even_bound (m : Z) (l : location) :
  (0 <= m)%Z -> (0 <= round_nearest_even m l <= m + 1)%Z.
Proof.
  intros Hm. destruct l as [|[]]; simpl; try lia. destruct (Z.even m); lia.
Qed.

(** Rounding to the format gives a number when the mantissa has at most
    [k] digits and the exponent is at most [b], both far from the largest
    exponent of the format. *)
Lemma binary_round_aux_finite (sx : bool) (mx ex : Z) (lx : location) (k b : Z) :
  (0 <= k)%Z -> (0 <= b)%Z -> (b + 2 * k + 1 <= 971)%Z ->
  (0 <= mx < 2 ^ k)%Z -> (ex <= b)%Z ->
  finite_below (b + 2 * k + 1) (binary_round_aux prec emax sx mx ex lx).
Proof.
  intros Hk Hb Hsmall Hm He. unfold binary_round_aux.
  pose proof (shr_fexp_bound mx ex lx k b Hk Hm He Hb) as H1.
  destruct (shr_fexp _ _ mx ex lx) as [mrs' e'].
  destruct H1 as [Hm' He'].
  pose proof (round_nearest_even_bound (shr_m mrs') (loc_of_shr_record mrs')
                ltac:(lia)) as Hr.
  set (m1 := round_nearest_even _ _) in *.
  assert (Hm1 : (0 <= m1 < 2 ^ (k + 1))%Z).
  { split; [lia|]. rewrite Z.pow_add_r by lia. change (2 ^ 1)%Z with 2%Z. lia. }
  pose proof (shr_fexp_bound m1 e' loc_Exact (k + 1) (b + k) ltac:(lia) Hm1
                ltac:(lia) ltac:(lia)) as H2.
  destruct (shr_fexp _ _ m1 e' loc_Exact) as [mrs'' e''].
  destruct H2 as [Hm'' He''].
  destruct (shr_m mrs'') as [|p|p]; [exact I| |lia].
  destruct (Z.leb_spec e'' (emax - prec)) as [_|Hgt]; [simpl; lia|].
  unfold emax, prec in Hgt. lia.
Qed.

Lemma iter_xO_value (m d : positive) :
  Z.pos (Pos.iter xO m d) = (Z.pos m * 2 ^ Z.pos d)%Z.
Proof.
  induction d as [|d IH] using Pos.peano_ind.
  - simpl. lia.
  - rewrite Pos.iter_succ, Pos2Z.inj_succ, Z.pow_succ_r by lia.
    rewrite Pos2Z.inj_xO, IH. lia.
Qed.

(** The conversion of a machine integer is a number. *)
Lemma of_uint63_finite (k : PrimInt63.int) :
  finite_below 193 (Prim2SF (PrimFloat.of_uint63 k)).
Proof.
  rewrite FloatAxioms.of_uint63_spec.
  pose proof (Uint63.to_Z_bounded k) as Hk.
  destruct (Uint63.to_Z k) as [|m|m]; simpl; [exact I| |lia].
  unfold binary_round, shl_align.
  assert (Hm : (Z.pos m < 2 ^ 63)%Z) by (change (2 ^ 63)%Z with Uint63.wB; lia).
  pose proof (digits2_pos_bound m 63 ltac:(lia) Hm) as Hd.
  pose proof (digits2_pos_lt m) as Hlt.
  set (d := digits2_pos m) in *.
  assert (Hf : fexp prec emax (Z.pos d + 0) = (Z.pos d - 53)%Z).
  { unfold fexp, emin, prec, emax. lia. }
  rewrite Hf.
  assert (Hmz : forall mz ez : Z, (0 <= mz < 2 ^ 63)%Z -> (ez <= 0)%Z ->
    finite_below 193 (binary_round_aux prec emax false mz ez loc_Exact)).
  { intros mz ez Hmz Hez.
    apply (binary_round_aux_finite false mz ez loc_Exact 64 64); lia. }
  destruct (Z.pos d - 53 - 0)%Z as [|p|p] eqn:E.
  - apply Hmz; lia.
  - apply Hmz; lia.
  - apply Hmz; [|lia]. split; [lia|].
    rewrite iter_xO_value.
    assert (Hp : (Z.pos p = 53 - Z.pos d)%Z) by lia.
    rewrite Hp.
    apply Z.lt_le_trans with (2 ^ Z.pos d * 2 ^ (53 - Z.pos d))%Z.
    + apply Z.mul_lt_mono_pos_r; [apply Z.pow_pos_nonneg; lia | exact Hlt].
    + rewrite <- Z.pow_add_r by lia.
      apply Z.pow_le_mono_r; lia.
Qed.

(** The mantissa of a float has at most 53 digits. *)
Lemma float_mantissa_bound (x : float) (s : bool) (m : positive) (e : Z) :
  Prim2SF x = S754_finite s m e -> (Z.pos m < 2 ^ 53)%Z.
Proof.
  intros Hx. pose proof (FloatAxioms.Prim2SF_valid x) as Hvalid.
  rewrite Hx in Hvalid. simpl in Hvalid.
  unfold bounded, canonical_mantissa in Hvalid.
  apply andb_true_iff in Hvalid as [Hcanon _]. apply Z.eqb_eq in Hcanon.
  unfold fexp, emin, prec, emax in Hcanon.
  pose proof (digits2_pos_lt m) as Hlt.
  apply Z.lt_le_trans with (2 ^ Z.pos (digits2_pos m))%Z; [exact Hlt|].
  apply Z.pow_le_mono_r; lia.
Qed.

(** [0.0 * len(ttrees)] is a zero, whatever the length. *)
Lemma py_int_round_zero (n : nat) : py_int_round (0 * py_float n)%float = Ok 0%Z.
Proof.
  unfold py_int_round, py_float. rewrite FloatAxioms.mul_spec.
  pose proof (of_uint63_finite (Uint63.of_Z (Z.of_nat n))) as Hfin.
  change (Prim2SF 0%float) with (S754_zero false).
  destruct (Prim2SF (PrimFloat.of_uint63 _)) as [s|s| |s m e];
    simpl in Hfin |- *; try contradiction; reflexivity.
Qed.

(** A float between 0 and 1 times the length of a list is a number. *)
Lemma portion_times_length_finite (data_portion : float) (n : nat) :
  (0 <=? data_portion)%float = true -> (data_portion <=? 1)%float = true ->
  finite_or_zero (Prim2SF (data_portion * py_float n)%float).
Proof.
  rewrite !FloatAxioms.leb_spec, FloatAxioms.mul_spec. unfold SFleb, py_float.
  pose proof (of_uint63_finite (Uint63.of_Z (Z.of_nat n))) as Hfin.
  change (Prim2SF 0%float) with (S754_zero false).
  change (Prim2SF 1%float) with (S754_finite false 4503599627370496 (-52)).
  pose proof (float_mantissa_bound data_portion) as Hmd.
  pose proof (float_mantissa_bound (PrimFloat.of_uint63 (Uint63.of_Z (Z.of_nat n))))
    as Hmx.
  destruct (Prim2SF data_portion) as [sd|sd| |sd md ed];
    destruct (Prim2SF (PrimFloat.of_uint63 _)) as [sx|sx| |sx mx ex];
    cbv [finite_below] in Hfin; cbv [SF64mul SFmul SFcompare];
    try contradiction; try (intros; exact I); try (intros; discriminate);
    try (destruct sd; intros; discriminate).
  destruct sd; [intros Hneg; discriminate Hneg|]. intros _ Hle.
  assert (Hed : (ed <= -52)%Z).
  { destruct (Z.compare_spec ed (-52)) as [?|?|?]; lia || discriminate Hle. }
  specialize (Hmd _ _ _ eq_refl). specialize (Hmx _ _ _ eq_refl).
  apply (finite_below_finite (141 + 2 * 106 + 1)).
  apply binary_round_aux_finite; try lia.
  rewrite Pos2Z.inj_mul. split; [lia|].
  change (2 ^ 106)%Z with (2 ^ 53 * 2 ^ 53)%Z. nia.
Qed.

(** [int(round(x))] is defined for every float but the infinities and NaN. *)
Lemma py_int_round_Ok (x : float) :
  is_Ok (py_int_round x) <-> finite_or_zero (Prim2SF x).
Proof.
  unfold py_int_round, is_Ok.
  destruct (Prim2SF x) as [s|s| |s m e]; simpl; split;
    first [ intros _; exact I
          | intros _; eexists; reflexivity
          | intros [? [=]]
          | intros [] ].
Qed.

(** ** Feature extraction and rival generation *)

Section Proofs.
Context `{Collaborators}.

Lemma extract_feats_fitted (r : PerceptronRanker) (t : Tree) (da : DA) :
  fitted r -> is_Ok (_extract_feats r t da).
Proof.
  intros [[vz Hvz] [nz Hnz]]. unfold _extract_feats. rewrite Hvz, Hnz.
  unfold py_getitem.
  destruct (lookup_lt_is_Some_2
    (rows (normalizer_transform nz
       (vectorizer_transform vz [get_features (feats r) t da]))) 0) as [x Hx].
  - rewrite normalizer_transform_rows, vectorizer_transform_rows. simpl. lia.
  - rewrite Hx. eexists. reflexivity.
Qed.

Lemma extract_all_fitted (r : PerceptronRanker) (da : DA) (trees : list Tree) :
  fitted r ->
  exists fs, mapM (fun tree => _extract_feats r tree da) trees = Ok fs
    /\ Forall2 (fun t f => _extract_feats r t da = Ok f) trees fs.
Proof.
  intros Hfit.
  destruct (mapM_total (fun tree => _extract_feats r tree da) trees) as [fs Hfs].
  - apply Forall_forall. intros t _. apply extract_feats_fitted, Hfit.
  - exists fs. split; [exact Hfs | apply mapM_Ok, Hfs].
Qed.

(** Appending to the analyzer leaves every attribute that scoring and
    rival generation read as it was. *)
Lemma extract_feats_set_lists_analyzer (r : PerceptronRanker) la t da :
  _extract_feats (set_lists_analyzer r la) t da = _extract_feats r t da.
Proof. reflexivity. Qed.

(** *** The substituted sample of [other_inst] *)

Lemma substituted_sample_NoDup (n tree_no : nat) (draw : list nat) :
  NoDup draw -> Forall (fun i => i < n - 1) draw ->
  NoDup ((fun idx => if decide (idx = tree_no) then n - 1 else idx) <$> draw).
Proof.
  intros Hnd Hlt. apply NoDup_fmap_2_strong; [|exact Hnd].
  rewrite Forall_forall in Hlt.
  intros x y Hx Hy. apply Hlt in Hx, Hy. simpl in Hx, Hy.
  repeat case_decide; intros Heq; lia.
Qed.

Lemma substituted_sample_avoids (n tree_no : nat) (draw : list nat) :
  Forall (fun i => i < n - 1) draw ->
  tree_no ∉ (fun idx => if decide (idx = tree_no) then n - 1 else idx) <$> draw.
Proof.
  intros Hlt Hin. rewrite Forall_forall in Hlt.
  apply list_elem_of_fmap in Hin as (x & Hx & Hin). apply Hlt in Hin.
  simpl in Hin. case_decide; lia.
Qed.

Lemma substituted_sample_in_range (n tree_no : nat) (draw : list nat) :
  Forall (fun i => i < n - 1) draw ->
  Forall (fun i => i < n)
    ((fun idx => if decide (idx = tree_no) then n - 1 else idx) <$> draw).
Proof.
  intros Hlt. apply Forall_fmap. eapply Forall_impl; [exact Hlt|].
  intros x Hx. unfold compose. simpl in *. case_decide; lia.
Qed.

Lemma getitems_in_range {A} (l : list A) (idxs : list nat) :
  Forall (fun i => i < length l) idxs ->
  exists xs, mapM (py_getitem l) idxs = Ok xs
    /\ Forall2 (fun i x => l !! i = Some x) idxs xs.
Proof.
  intros Hlt.
  destruct (mapM_total (py_getitem l) idxs) as [xs Hxs].
  - eapply Forall_impl; [exact Hlt|]. intros i Hi. simpl in Hi.
    destruct (lookup_lt_is_Some_2 l i Hi) as [x Hx].
    exists x. apply py_getitem_Ok, Hx.
  - exists xs. split; [exact Hxs|]. apply mapM_Ok in Hxs.
    eapply Forall2_impl; [exact Hxs|]. intros i x. apply py_getitem_Ok.
Qed.

(** C3. Under [other_inst], when the training set has more than
    [rival_number + 1] instances and [random.sample] keeps its contract, the
    strategy returns exactly [rival_number] trees, taken at pairwise
    distinct indices of the training set that all differ from [tree_no]
    (a drawn [tree_no] being replaced by the last index), each with the
    features extracted against the current [da]. *)
Theorem other_inst_rivals_spec (r : PerceptronRanker) (o : oracle)
    (tree_no : nat) (da : DA) :
  rival_number r + 1 < length (train_trees r) ->
  tree_no < length (train_trees r) ->
  is_sample (length (train_trees r) - 1) (rival_number r) (sample_draw o) ->
  fitted r ->
  exists idxs trees fs,
    other_inst_rivals r o tree_no da = Ok (trees, fs)
    /\ idxs = (fun idx => if decide (idx = tree_no)
                          then length (train_trees r) - 1 else idx) <$> sample_draw o
    /\ length trees = rival_number r /\ length fs = rival_number r
    /\ NoDup idxs /\ (tree_no ∉ idxs)
    /\ Forall2 (fun i t => train_trees r !! i = Some t) idxs trees
    /\ Forall2 (fun t f => _extract_feats r t da = Ok f) trees fs.
Proof.
  intros HN Hno (Hlen & Hnd & Hrange) Hfit.
  set (n := length (train_trees r)) in *.
  set (idxs := (fun idx => if decide (idx = tree_no) then n - 1 else idx)
                 <$> sample_draw o).
  destruct (getitems_in_range (train_trees r) idxs) as (trees & Htrees & Hlook).
  { apply substituted_sample_in_range, Hrange. }
  destruct (extract_all_fitted r da trees Hfit) as (fs & Hfs & Hext).
  exists idxs, trees, fs.
  assert (Hlt : length trees = rival_number r).
  { apply Forall2_length in Hlook. rewrite <- Hlook. unfold idxs.
    rewrite length_fmap. exact Hlen. }
  repeat split.
  - unfold other_inst_rivals, random_sample. fold n.
    destruct (decide (rival_number r <= n - 1)) as [_|Hbad]; [|lia].
    simpl. fold idxs. rewrite Htrees. simpl. rewrite Hfs. reflexivity.
  - exact Hlt.
  - apply Forall2_length in Hext. congruence.
  - apply substituted_sample_NoDup; assumption.
  - apply substituted_sample_avoids, Hrange.
  - exact Hlook.
  - exact Hext.
Qed.

(** *** The unbounded loop of [random] *)

Lemma random_loop_done (r : PerceptronRanker) (o : oracle) (tree_no fuel calls : nat)
    (acc : list Tree) :
  rival_number r <= length acc -> random_loop r o tree_no fuel calls acc = Ok acc.
Proof.
  intros Hk. destruct fuel; simpl; case_decide; try lia; reflexivity.
Qed.

Lemma random_loop_spec (r : PerceptronRanker) (o : oracle) (tree_no : nat)
    (gold : Tree) :
  train_trees r !! tree_no = Some gold ->
  is_Some (sampling_planner r) ->
  forall m fuel calls acc,
    m <= fuel ->
    rival_number r - length acc
      <= length (filter (fun t => t <> gold) (planner_draw o <$> seq calls m)) ->
    random_loop r o tree_no fuel calls acc
    = Ok (acc ++ take (rival_number r - length acc)
                   (filter (fun t => t <> gold) (planner_draw o <$> seq calls m))).
Proof.
  intros Hgold [sp Hsp]. induction m as [|m IH]; intros fuel calls acc Hfuel Hk.
  - simpl in Hk. rewrite random_loop_done by lia.
    replace (rival_number r - length acc) with 0 by lia.
    rewrite take_0, app_nil_r. reflexivity.
  - destruct (decide (length acc < rival_number r)) as [Hlt|Hge].
    + destruct fuel as [|fuel]; [lia|].
      cbn [seq] in Hk |- *. rewrite fmap_cons in Hk |- *.
      cbn [random_loop].
      destruct (decide (length acc < rival_number r)) as [_|?]; [|lia].
      rewrite Hsp. unfold py_getitem. rewrite Hgold. cbn [mbind outcome_bind].
      destruct (decide (planner_draw o calls <> gold)) as [Hne|Heq].
      * rewrite filter_cons_True in Hk |- * by exact Hne. simpl in Hk.
        rewrite IH by (rewrite ?length_app; simpl; lia).
        rewrite length_app. simpl.
        replace (rival_number r - length acc)
          with (S (rival_number r - (length acc + 1))) by lia.
        simpl. rewrite <- app_assoc. reflexivity.
      * rewrite filter_cons_False in Hk |- * by exact Heq.
        apply IH; [lia | exact Hk].
    + rewrite random_loop_done by lia.
      replace (rival_number r - length acc) with 0 by lia.
      rewrite take_0, app_nil_r. reflexivity.
Qed.

Lemma random_loop_starves (r : PerceptronRanker) (o : oracle) (tree_no : nat)
    (gold : Tree) :
  train_trees r !! tree_no = Some gold ->
  is_Some (sampling_planner r) ->
  (forall n, planner_draw o n = gold) ->
  forall fuel calls acc,
    length acc < rival_number r ->
    random_loop r o tree_no fuel calls acc = Diverge.
Proof.
  intros Hgold [sp Hsp] Hall. induction fuel as [|fuel IH]; intros calls acc Hlt.
  - simpl. case_decide; [reflexivity | lia].
  - simpl. case_decide; [|lia].
    rewrite Hsp. unfold py_getitem. rewrite Hgold. simpl.
    destruct (decide (planner_draw o calls <> gold)) as [Hne|_].
    + exfalso. apply Hne, Hall.
    + apply IH, Hlt.
Qed.

(** C4. Under [random], with a planner in place: if the first [m] trees of
    the planner hold [rival_number] trees that differ from the gold tree,
    the loop ends within [m] iterations and the strategy contributes exactly
    [rival_number] trees, none of them the gold tree (the first such trees
    in the order drawn). Nothing caps the attempts: against a planner that
    only ever returns the gold tree the loop outlasts every fuel. *)
Theorem random_rivals_spec (r : PerceptronRanker) (o : oracle)
    (tree_no : nat) (da : DA) (gold : Tree) :
  train_trees r !! tree_no = Some gold ->
  is_Some (sampling_planner r) ->
  fitted r ->
  (forall m,
     rival_number r
       <= length (filter (fun t => t <> gold) (planner_draw o <$> seq 0 m)) ->
     exists trees fs,
       (forall fuel, m <= fuel ->
          random_rivals r o fuel tree_no da = Ok (trees, fs))
       /\ trees = take (rival_number r)
                    (filter (fun t => t <> gold) (planner_draw o <$> seq 0 m))
       /\ length trees = rival_number r
       /\ Forall (fun t => t <> gold) trees
       /\ Forall2 (fun t f => _extract_feats r t da = Ok f) trees fs)
  /\ ((forall n, planner_draw o n = gold) -> 0 < rival_number r ->
      forall fuel, random_rivals r o fuel tree_no da = Diverge).
Proof.
  intros Hgold Hsp Hfit. split.
  - intros m Hm.
    set (trees := take (rival_number r)
                    (filter (fun t => t <> gold) (planner_draw o <$> seq 0 m))).
    destruct (extract_all_fitted r da trees Hfit) as (fs & Hfs & Hext).
    exists trees, fs. repeat split.
    + intros fuel Hfuel. unfold random_rivals.
      rewrite (random_loop_spec r o tree_no gold Hgold Hsp m fuel 0 [])
        by (simpl; lia).
      simpl. rewrite Nat.sub_0_r. fold trees. rewrite Hfs. reflexivity.
    + unfold trees. rewrite length_take. lia.
    + unfold trees. apply Forall_take, Forall_forall.
      intros t Ht. apply list_elem_of_filter in Ht as [Ht _]. exact Ht.
    + exact Hext.
  - intros Hall Hk fuel. unfold random_rivals.
    rewrite (random_loop_starves r o tree_no gold Hgold Hsp Hall) by (simpl; lia).
    reflexivity.
Qed.

(** *** The draining loop of [gen_cur_weights] *)

Lemma py_pop_snoc {A} (l : list A) (x : A) : py_pop (l ++ [x]) = Some (x, l).
Proof. unfold py_pop. rewrite reverse_snoc, reverse_involutive. reflexivity. Qed.

Lemma gen_loop_spec (r : PerceptronRanker) (tree_no : nat) (gold : Tree) :
  train_trees r !! tree_no = Some gold ->
  forall fuel close_list acc,
    length close_list <= fuel ->
    gen_loop r tree_no fuel close_list acc
    = Ok (acc ++ take (rival_number r - length acc)
                   (filter (fun t => t <> gold) (reverse close_list).*1)).
Proof.
  intros Hgold. induction fuel as [|fuel IH]; intros close_list acc Hfuel.
  - destruct close_list; [|simpl in Hfuel; lia]. simpl.
    rewrite filter_nil, take_nil, app_nil_r. reflexivity.
  - destruct close_list as [|[tree c] l _] using rev_ind.
    + simpl. rewrite filter_nil, take_nil, app_nil_r. reflexivity.
    + cbn [gen_loop]. rewrite py_pop_snoc.
      rewrite bool_decide_eq_true_2 by (intros E; destruct l; discriminate E).
      rewrite reverse_snoc, fmap_cons. cbn [fst andb].
      rewrite length_app in Hfuel. simpl in Hfuel.
      case_bool_decide as Hlt.
      * unfold py_getitem. rewrite Hgold. cbn [mbind outcome_bind].
        destruct (decide (tree <> gold)) as [Hne|Heq].
        -- rewrite filter_cons_True by exact Hne.
           rewrite IH by lia. rewrite length_app. simpl.
           replace (rival_number r - length acc)
             with (S (rival_number r - (length acc + 1))) by lia.
           simpl. rewrite <- app_assoc. reflexivity.
        -- rewrite filter_cons_False by exact Heq. apply IH. lia.
      * replace (rival_number r - length acc) with 0 by lia.
        rewrite take_0, app_nil_r. reflexivity.
Qed.

Lemma py_slice_to_nat {A} (l : list A) (n : nat) :
  py_slice_to l (Z.of_nat n) = take n l.
Proof.
  unfold py_slice_to. destruct (Z.leb_spec 0 (Z.of_nat n)); [|lia].
  rewrite Nat2Z.id. reflexivity.
Qed.

(** C5. Under [gen_cur_weights], whatever lists the search returns: the
    gold tree and both lists are appended to the analyzer, whatever happens
    afterwards; the strategy contributes the first [rival_number] non-gold
    trees met when the closed list is read from its end, hence at most
    [rival_number] of them, and fewer only when the closed list runs out. *)
Theorem gen_cur_weights_rivals_spec (r : PerceptronRanker) (o : oracle)
    (tree_no : nat) (da : DA) (gold : Tree) (ap : ASearchPlanner)
    (open_list close_list : cand_list) :
  asearch_planner r = Some ap ->
  search_draw o = (open_list, close_list) ->
  train_trees r !! tree_no = Some gold ->
  let r1 := set_lists_analyzer r
              (lists_analyzer r ++ [(gold, open_list, close_list)]) in
  let non_gold := filter (fun t => t <> gold) (reverse close_list).*1 in
  let trees := take (rival_number r) non_gold in
  (gen_cur_weights_rivals o tree_no da r).1 = r1
  /\ length trees <= rival_number r
  /\ length trees = rival_number r `min` length non_gold
  /\ Forall (fun t => t <> gold) trees
  /\ (fitted r ->
      exists fs, gen_cur_weights_rivals o tree_no da r = (r1, Ok (trees, fs))
        /\ Forall2 (fun t f => _extract_feats r t da = Ok f) trees fs).
Proof.
  intros Hap Hdraw Hgold r1 non_gold trees.
  assert (Hrun : gen_cur_weights_rivals o tree_no da r
    = (r1, fs ← mapM (fun tree => _extract_feats r tree da) trees;
           Ok (trees, fs))).
  { unfold gen_cur_weights_rivals, mbind at 1 2 3, M_bind, reads, assigns.
    rewrite Hap, Hdraw. unfold py_getitem at 1. rewrite Hgold. fold r1.
    f_equal.
    rewrite (gen_loop_spec r1 tree_no gold Hgold) by lia.
    cbn [mbind outcome_bind app length]. rewrite Nat.sub_0_r.
    rewrite py_slice_to_nat.
    change (rival_number r1) with (rival_number r).
    rewrite take_take, Nat.min_id. reflexivity. }
  repeat split.
  - rewrite Hrun. reflexivity.
  - unfold trees. rewrite length_take. lia.
  - unfold trees. rewrite length_take. reflexivity.
  - unfold trees. apply Forall_take, Forall_forall.
    intros t Ht. apply list_elem_of_filter in Ht as [Ht _]. exact Ht.
  - intros Hfit. destruct (extract_all_fitted r da trees Hfit) as (fs & Hfs & Hext).
    exists fs. split; [|exact Hext]. rewrite Hrun, Hfs. reflexivity.
Qed.

(** *** The state monad *)

Lemma M_bind_Ok {A B} (m : M A) (f : A -> M B) (r r2 : PerceptronRanker) (b : B) :
  (m ≫= f) r = (r2, Ok b) <-> exists a r1, m r = (r1, Ok a) /\ f a r1 = (r2, Ok b).
Proof.
  unfold mbind, M_bind. destruct (m r) as [r1 [a|e|]]; split.
  - intros Hf. exists a, r1. split; [reflexivity | exact Hf].
  - intros (a' & r1' & [= <- <-] & Hf). exact Hf.
  - discriminate.
  - intros (? & ? & [=] & _).
  - discriminate.
  - intros (? & ? & [=] & _).
Qed.

Lemma same_model_refl (r : PerceptronRanker) : same_model r r.
Proof. exists (lists_analyzer r). destruct r. reflexivity. Qed.

Lemma same_model_trans (r r1 r2 : PerceptronRanker) :
  same_model r r1 -> same_model r1 r2 -> same_model r r2.
Proof. intros [la ->] [la' ->]. exists la'. reflexivity. Qed.

(** *** What each strategy returns *)

Lemma other_inst_rivals_feats (r : PerceptronRanker) (o : oracle) (tree_no : nat)
    (da : DA) (ts : list Tree) (fs : list vec) :
  other_inst_rivals r o tree_no da = Ok (ts, fs) ->
  Forall2 (fun t f => _extract_feats r t da = Ok f) ts fs.
Proof.
  unfold other_inst_rivals. intros Hrun.
  apply bind_Ok in Hrun as (draw & _ & Hrun).
  apply bind_Ok in Hrun as (ts' & _ & Hrun).
  apply bind_Ok in Hrun as (fs' & Hfs & [= <- <-]).
  apply mapM_Ok, Hfs.
Qed.

Lemma random_rivals_feats (r : PerceptronRanker) (o : oracle) (fuel tree_no : nat)
    (da : DA) (ts : list Tree) (fs : list vec) :
  random_rivals r o fuel tree_no da = Ok (ts, fs) ->
  Forall2 (fun t f => _extract_feats r t da = Ok f) ts fs.
Proof.
  unfold random_rivals. intros Hrun.
  apply bind_Ok in Hrun as (ts' & _ & Hrun).
  apply bind_Ok in Hrun as (fs' & Hfs & [= <- <-]).
  apply mapM_Ok, Hfs.
Qed.

Lemma gen_cur_weights_rivals_inv (o : oracle) (tree_no : nat) (da : DA)
    (r r1 : PerceptronRanker) (ts : list Tree) (fs : list vec) :
  gen_cur_weights_rivals o tree_no da r = (r1, Ok (ts, fs)) ->
  same_model r r1 /\ Forall2 (fun t f => _extract_feats r t da = Ok f) ts fs.
Proof.
  unfold gen_cur_weights_rivals. intros Hrun.
  apply M_bind_Ok in Hrun as (ap & r' & Hap & Hrun).
  unfold reads in Hap. injection Hap as <- _.
  destruct (search_draw o) as [open_list close_list].
  apply M_bind_Ok in Hrun as (gold & r' & Hgold & Hrun).
  unfold reads in Hgold. injection Hgold as <- _.
  apply M_bind_Ok in Hrun as ([] & r' & Hset & Hrun).
  unfold assigns in Hset. injection Hset as <-.
  unfold reads in Hrun. injection Hrun as <- Hrun.
  split; [eexists; reflexivity|].
  apply bind_Ok in Hrun as (gen_trees & _ & Hrun).
  apply bind_Ok in Hrun as (fs' & Hfs & [= <- <-]).
  apply mapM_Ok in Hfs. exact Hfs.
Qed.

Lemma if_strategy_inv (name : string) (acc p : list Tree * list vec)
    (block : M (list Tree * list vec)) (r r1 : PerceptronRanker) :
  if_strategy name acc block r = (r1, Ok p) ->
  exists new, p = extend2 acc new
    /\ if decide (name ∈ rival_gen_strategy r)
       then block r = (r1, Ok new) else r1 = r /\ new = ([], []).
Proof.
  unfold if_strategy. destruct (decide (name ∈ rival_gen_strategy r)).
  - intros Hrun. apply M_bind_Ok in Hrun as (new & r' & Hblock & [= <- <-]).
    exists new. split; [reflexivity | exact Hblock].
  - intros [= <- <-]. exists ([], []). split; [|split; reflexivity].
    destruct acc as [ts fs]. unfold extend2. simpl. rewrite !app_nil_r. reflexivity.
Qed.

Lemma extend2_feats (r : PerceptronRanker) (da : DA)
    (acc new : list Tree * list vec) :
  Forall2 (fun t f => _extract_feats r t da = Ok f) acc.1 acc.2 ->
  Forall2 (fun t f => _extract_feats r t da = Ok f) new.1 new.2 ->
  Forall2 (fun t f => _extract_feats r t da = Ok f)
    (extend2 acc new).1 (extend2 acc new).2.
Proof. intros Hacc Hnew. unfold extend2. simpl. apply Forall2_app; assumption. Qed.

(** Whatever [_get_rival_candidates] returns, it returns a tree list and
    the list of their features against the instance's [da], and it has
    touched nothing but the analyzer. *)
Lemma get_rival_candidates_inv (o : oracle) (fuel tree_no : nat)
    (r r1 : PerceptronRanker) (rts : list Tree) (rfs : list vec) :
  _get_rival_candidates o fuel tree_no r = (r1, Ok (rts, rfs)) ->
  exists da, train_das r !! tree_no = Some da
    /\ same_model r r1
    /\ Forall2 (fun t f => _extract_feats r t da = Ok f) rts rfs.
Proof.
  unfold _get_rival_candidates. intros Hrun.
  apply M_bind_Ok in Hrun as (da & r' & Hda & Hrun).
  unfold reads in Hda. injection Hda as <- Hda. apply py_getitem_Ok in Hda.
  exists da. split; [exact Hda|].
  apply M_bind_Ok in Hrun as (p1 & ra & H1 & Hrun).
  apply M_bind_Ok in Hrun as (p2 & rb & H2 & Hrun).
  apply M_bind_Ok in Hrun as (p3 & rc & H3 & [= <- Hp3]).
  apply if_strategy_inv in H1 as (n1 & -> & H1).
  apply if_strategy_inv in H2 as (n2 & -> & H2).
  apply if_strategy_inv in H3 as (n3 & Hn3 & H3).
  assert (Hrts : rts = (extend2 (extend2 (extend2 ([],[]) n1) n2) n3).1)
    by (rewrite <- Hn3, Hp3; reflexivity).
  assert (Hrfs : rfs = (extend2 (extend2 (extend2 ([],[]) n1) n2) n3).2)
    by (rewrite <- Hn3, Hp3; reflexivity).
  clear Hp3 Hn3. subst rts rfs.
  assert (Hra : ra = r /\ Forall2 (fun t f => _extract_feats r t da = Ok f) n1.1 n1.2).
  { destruct (decide ("other_inst"%string ∈ rival_gen_strategy r)).
    - unfold reads in H1. injection H1 as <- H1. split; [reflexivity|].
      destruct n1. eapply other_inst_rivals_feats, H1.
    - destruct H1 as [-> ->]. split; [reflexivity | constructor]. }
  destruct Hra as [-> Hn1].
  assert (Hrb : rb = r /\ Forall2 (fun t f => _extract_feats r t da = Ok f) n2.1 n2.2).
  { destruct (decide ("random"%string ∈ rival_gen_strategy r)).
    - unfold reads in H2. injection H2 as <- H2. split; [reflexivity|].
      destruct n2. eapply random_rivals_feats, H2.
    - destruct H2 as [-> ->]. split; [reflexivity | constructor]. }
  destruct Hrb as [-> Hn2].
  assert (Hrc : same_model r rc
                /\ Forall2 (fun t f => _extract_feats r t da = Ok f) n3.1 n3.2).
  { destruct (decide ("gen_cur_weights"%string ∈ rival_gen_strategy r)).
    - destruct n3. eapply gen_cur_weights_rivals_inv, H3.
    - destruct H3 as [-> ->]. split; [apply same_model_refl | constructor]. }
  destruct Hrc as [Hrc Hn3].
  split; [exact Hrc|].
  repeat apply extend2_feats; try assumption. constructor.
Qed.

Lemma extend2_nil (acc : list Tree * list vec) : extend2 acc ([], []) = acc.
Proof. destruct acc. unfold extend2. simpl. rewrite !app_nil_r. reflexivity. Qed.

Lemma if_strategy_run (name : string) (acc new : list Tree * list vec)
    (block : M (list Tree * list vec)) (r r1 : PerceptronRanker) :
  (if decide (name ∈ rival_gen_strategy r)
   then block r = (r1, Ok new) else r1 = r /\ new = ([], [])) ->
  if_strategy name acc block r = (r1, Ok (extend2 acc new)).
Proof.
  unfold if_strategy. destruct (decide (name ∈ rival_gen_strategy r)).
  - intros Hblock. apply M_bind_Ok. exists new, r1. split; [exact Hblock | reflexivity].
  - intros [-> ->]. rewrite extend2_nil. reflexivity.
Qed.

Lemma if_strategy_reads (name : string) (acc new : list Tree * list vec)
    (f : PerceptronRanker -> outcome (list Tree * list vec)) (r : PerceptronRanker) :
  strategy_part r name (f r) new ->
  if_strategy name acc (reads f) r = (r, Ok (extend2 acc new)).
Proof.
  unfold strategy_part. intros Hpart. apply if_strategy_run.
  destruct (decide (name ∈ rival_gen_strategy r)).
  - unfold reads. rewrite Hpart. reflexivity.
  - split; [reflexivity | exact Hpart].
Qed.

(** C10. [_get_rival_candidates] returns the trees, and the features, of
    the configured strategies concatenated in the order [other_inst],
    [random], [gen_cur_weights]; the two lists have one length and the i-th
    feature vector is the extraction of the i-th tree against the
    instance's [da]. *)
Theorem get_rival_candidates_spec (o : oracle) (fuel tree_no : nat)
    (r r1 : PerceptronRanker) (da : DA) (p1 p2 p3 : list Tree * list vec) :
  train_das r !! tree_no = Some da ->
  strategy_part r "other_inst" (other_inst_rivals r o tree_no da) p1 ->
  strategy_part r "random" (random_rivals r o fuel tree_no da) p2 ->
  (if decide ("gen_cur_weights"%string ∈ rival_gen_strategy r)
   then gen_cur_weights_rivals o tree_no da r = (r1, Ok p3)
   else r1 = r /\ p3 = ([], [])) ->
  exists trees fs,
    _get_rival_candidates o fuel tree_no r = (r1, Ok (trees, fs))
    /\ trees = p1.1 ++ p2.1 ++ p3.1
    /\ fs = p1.2 ++ p2.2 ++ p3.2
    /\ length trees = length fs
    /\ Forall2 (fun t f => _extract_feats r t da = Ok f) trees fs.
Proof.
  intros Hda H1 H2 H3.
  assert (Hrun : _get_rival_candidates o fuel tree_no r
                 = (r1, Ok (p1.1 ++ p2.1 ++ p3.1, p1.2 ++ p2.2 ++ p3.2))).
  { unfold _get_rival_candidates.
    apply M_bind_Ok. exists da, r. split.
    { unfold reads. apply py_getitem_Ok in Hda. rewrite Hda. reflexivity. }
    apply M_bind_Ok. eexists _, r. split.
    { apply (if_strategy_reads _ _ p1
               (fun r => other_inst_rivals r o tree_no da)), H1. }
    apply M_bind_Ok. eexists _, r. split.
    { apply (if_strategy_reads _ _ p2
               (fun r => random_rivals r o fuel tree_no da)), H2. }
    apply M_bind_Ok. eexists _, r1. split.
    { apply (if_strategy_run _ _ p3), H3. }
    unfold extend2. simpl. rewrite <- !app_assoc. reflexivity. }
  exists (p1.1 ++ p2.1 ++ p3.1), (p1.2 ++ p2.2 ++ p3.2).
  split; [exact Hrun|]. split; [reflexivity|]. split; [reflexivity|].
  destruct (get_rival_candidates_inv _ _ _ _ _ _ _ Hrun) as (da' & Hda' & _ & Hext).
  assert (da' = da) as -> by congruence.
  split; [eapply Forall2_length, Hext | exact Hext].
Qed.

(** ** One training instance *)

Lemma M_bind_step {A B} (m : M A) (f : A -> M B) (r r1 : PerceptronRanker) (a : A) :
  m r = (r1, Ok a) -> (m ≫= f) r = f a r1.
Proof. unfold mbind, M_bind. intros ->. reflexivity. Qed.

Lemma M_bind_raise {A B} (m : M A) (f : A -> M B) (r r1 : PerceptronRanker) (e : exn) :
  m r = (r1, Raise e) -> (m ≫= f) r = (r1, Raise e).
Proof. unfold mbind, M_bind. intros ->. reflexivity. Qed.

Lemma reads_Ok {A} (f : PerceptronRanker -> outcome A) (r : PerceptronRanker) (a : A) :
  f r = Ok a -> reads f r = (r, Ok a).
Proof. unfold reads. intros ->. reflexivity. Qed.

Lemma score_Ok_inv (r : PerceptronRanker) (c : vec) (s : float) :
  _score r c = Ok s -> exists wv, w r = Some wv /\ length wv = length c.
Proof.
  unfold _score, np_dot. destruct (w r) as [wv|]; [|discriminate].
  case_decide; [|discriminate]. intros _. exists wv. split; [reflexivity | assumption].
Qed.

Lemma np_sub_same_length (a b : vec) :
  length a = length b -> np_sub a b = Ok (zip_with PrimFloat.sub a b).
Proof. intros Hlen. unfold np_sub. case_decide; [reflexivity | contradiction]. Qed.

Lemma np_iadd_same_length (wv d : vec) :
  length wv = length d -> np_iadd wv d = Ok (zip_with PrimFloat.add wv d).
Proof. intros Hlen. unfold np_iadd. case_decide; [reflexivity | contradiction]. Qed.

Lemma same_model_w (r r1 : PerceptronRanker) : same_model r r1 -> w r1 = w r.
Proof. intros [la ->]. reflexivity. Qed.

Lemma same_model_alpha (r r1 : PerceptronRanker) : same_model r r1 -> alpha r1 = alpha r.
Proof. intros [la ->]. reflexivity. Qed.

(** The weights after the update of lines 172-173. *)
Lemma updated_weights_run (r : PerceptronRanker) (wv gold_feats top_cand : vec)
    (cands : list vec) (top : nat) :
  w r = Some wv -> cands !! top = Some top_cand ->
  length wv = length gold_feats -> length wv = length top_cand ->
  (top_cand ← py_getitem cands top;
   d ← np_sub (np_scale (alpha r) gold_feats) (np_scale (alpha r) top_cand);
   match w r with
   | Some wv => np_iadd wv d
   | None => Raise TypeError
   end)
  = Ok (updated (alpha r) wv gold_feats top_cand).
Proof.
  intros Hw Htop Hg Hc. apply py_getitem_Ok in Htop. rewrite Htop.
  cbn [mbind outcome_bind].
  rewrite np_sub_same_length by (unfold np_scale; rewrite !length_fmap; congruence).
  cbn [mbind outcome_bind]. rewrite Hw.
  apply np_iadd_same_length.
  rewrite length_zip_with. unfold np_scale. rewrite !length_fmap. lia.
Qed.

(** The instance step up to the choice of the top candidate. *)
Lemma training_instance_prefix (o : oracle) (fuel tree_no iter_errs : nat)
    (r r1 : PerceptronRanker) (gold_ttree : Tree) (gold_feats : vec)
    (rts : list Tree) (rfs : list vec) (scores : list float) (top : nat) :
  train_trees r !! tree_no = Some gold_ttree ->
  rows (train_feats r) !! tree_no = Some gold_feats ->
  _get_rival_candidates o fuel tree_no r = (r1, Ok (rts, rfs)) ->
  mapM (_score r1) (gold_feats :: rfs) = Ok scores ->
  index_of_max scores = Ok top ->
  training_instance o fuel tree_no iter_errs r
  = (best_rival ← reads (fun _ =>
       i ← index_of_max (drop 1 scores); py_getitem rts i);
     _ ← assigns (fun r => set_evaluator r (evaluator r ++ [(gold_ttree, best_rival)]));
     if decide (top <> 0) then
       w' ← reads (fun r =>
         top_cand ← py_getitem (gold_feats :: rfs) top;
         d ← np_sub (np_scale (alpha r) gold_feats) (np_scale (alpha r) top_cand);
         match w r with
         | Some wv => np_iadd wv d
         | None => Raise TypeError
         end);
       _ ← assigns (fun r => set_w r w');
       mret (iter_errs + 1)
     else mret iter_errs) r1.
Proof.
  intros Hgt Hgf Hriv Hsc Htop. unfold training_instance.
  rewrite (M_bind_step _ _ r r gold_ttree)
    by (apply reads_Ok, py_getitem_Ok, Hgt).
  rewrite (M_bind_step _ _ r r gold_feats)
    by (apply reads_Ok, py_getitem_Ok, Hgf).
  rewrite (M_bind_step _ _ r r1 (rts, rfs)) by exact Hriv.
  rewrite (M_bind_step _ _ r1 r1 scores) by (apply reads_Ok, Hsc).
  rewrite (M_bind_step _ _ r1 r1 top) by (apply reads_Ok, Htop).
  reflexivity.
Qed.

(** The whole instance step, once the rivals (at least one) are there and
    every candidate could be scored. *)
Lemma training_instance_run (o : oracle) (fuel tree_no iter_errs : nat)
    (r r1 : PerceptronRanker) (gold_ttree : Tree) (gold_feats : vec)
    (rts : list Tree) (rfs : list vec) (scores : list float) :
  train_trees r !! tree_no = Some gold_ttree ->
  rows (train_feats r) !! tree_no = Some gold_feats ->
  _get_rival_candidates o fuel tree_no r = (r1, Ok (rts, rfs)) ->
  rfs <> [] ->
  mapM (_score r1) (gold_feats :: rfs) = Ok scores ->
  exists top i best wv top_cand,
    index_of_max scores = Ok top
    /\ index_of_max (drop 1 scores) = Ok i
    /\ rts !! i = Some best
    /\ w r = Some wv
    /\ (gold_feats :: rfs) !! top = Some top_cand
    /\ training_instance o fuel tree_no iter_errs r
       = let r2 := set_evaluator r1 (evaluator r1 ++ [(gold_ttree, best)]) in
         if decide (top = 0) then (r2, Ok iter_errs)
         else (set_w r2 (updated (alpha r) wv gold_feats top_cand),
               Ok (iter_errs + 1)).
Proof.
  intros Hgt Hgf Hriv Hne Hsc.
  destruct (get_rival_candidates_inv _ _ _ _ _ _ _ Hriv) as (da & _ & Hsame & Hext).
  apply Forall2_length in Hext.
  pose proof (proj1 (mapM_Ok _ _ _) Hsc) as Hall.
  pose proof (Forall2_length _ _ _ Hall) as Hlen. simpl in Hlen.
  (* the top candidate *)
  destruct (index_of_max_nonempty scores) as [top Htop].
  { intros ->. discriminate Hlen. }
  pose proof (is_first_argmax_lt _ _ (index_of_max_spec _ _ Htop)) as Htop_lt.
  destruct (lookup_lt_is_Some_2 (gold_feats :: rfs) top) as [top_cand Hcand];
    [simpl; lia|].
  destruct (Forall2_lookup_l _ _ _ _ _ Hall Hcand) as (st & _ & Hst).
  destruct (score_Ok_inv _ _ _ Hst) as (wv & Hw1 & Hwc).
  destruct (Forall2_lookup_l _ _ _ 0 gold_feats Hall eq_refl) as (s0 & _ & Hs0).
  destruct (score_Ok_inv _ _ _ Hs0) as (wv' & Hw1' & Hwg).
  assert (wv' = wv) as -> by congruence.
  (* the best rival *)
  destruct (index_of_max_nonempty (drop 1 scores)) as [i Hi].
  { intros Hnil. apply (f_equal length) in Hnil. rewrite length_drop in Hnil.
    simpl in Hnil. destruct rfs; [congruence | simpl in Hlen; lia]. }
  pose proof (is_first_argmax_lt _ _ (index_of_max_spec _ _ Hi)) as Hi_lt.
  rewrite length_drop in Hi_lt.
  destruct (lookup_lt_is_Some_2 rts i) as [best Hbest]; [lia|].
  exists top, i, best, wv, top_cand.
  split; [exact Htop|]. split; [exact Hi|]. split; [exact Hbest|].
  split; [rewrite <- (same_model_w _ _ Hsame); exact Hw1|].
  split; [exact Hcand|].
  rewrite (training_instance_prefix o fuel tree_no iter_errs r r1 gold_ttree
             gold_feats rts rfs scores top) by assumption.
  rewrite (M_bind_step _ _ r1 r1 best).
  2:{ apply reads_Ok. rewrite Hi. cbn [mbind outcome_bind].
      apply py_getitem_Ok, Hbest. }
  rewrite (M_bind_step _ _ r1
             (set_evaluator r1 (evaluator r1 ++ [(gold_ttree, best)])) tt)
    by reflexivity.
  cbv zeta. destruct (decide (top = 0)) as [Hz|Hnz].
  - destruct (decide (top <> 0)) as [?|_]; [contradiction|]. reflexivity.
  - destruct (decide (top <> 0)) as [_|?]; [|contradiction].
    erewrite M_bind_step.
    2:{ apply reads_Ok.
        apply (updated_weights_run _ wv gold_feats top_cand);
          [exact Hw1 | exact Hcand | exact Hwg | exact Hwc]. }
    cbn [alpha set_evaluator]. rewrite (same_model_alpha _ _ Hsame).
    reflexivity.
Qed.

Lemma scores_of_rivals_nonempty (r1 : PerceptronRanker) (gold_feats : vec)
    (rfs : list vec) (scores : list float) (top : nat) :
  mapM (_score r1) (gold_feats :: rfs) = Ok scores ->
  index_of_max scores = Ok top -> top <> 0 -> rfs <> [].
Proof.
  intros Hsc Htop Hnz ->.
  apply mapM_Ok_length in Hsc. simpl in Hsc.
  apply index_of_max_spec, is_first_argmax_lt in Htop. lia.
Qed.

Lemma updated_length (alpha : float) (wv gold_feats top_cand : vec) :
  length wv = length gold_feats -> length wv = length top_cand ->
  length (updated alpha wv gold_feats top_cand) = length wv.
Proof.
  intros Hg Hc. unfold updated, np_scale.
  rewrite !length_zip_with, !length_fmap. lia.
Qed.

Lemma updated_lookup (alpha : float) (wv gold_feats top_cand : vec) (j : nat)
    (wj gj cj : float) :
  wv !! j = Some wj -> gold_feats !! j = Some gj -> top_cand !! j = Some cj ->
  updated alpha wv gold_feats top_cand !! j
  = Some (wj + (alpha * gj - alpha * cj))%float.
Proof.
  intros Hwj Hgj Hcj. unfold updated.
  apply lookup_zip_with_Some. exists wj, (alpha * gj - alpha * cj)%float.
  split; [reflexivity|]. split; [exact Hwj|].
  apply lookup_zip_with_Some. exists (alpha * gj)%float, (alpha * cj)%float.
  split; [reflexivity|]. unfold np_scale, vec in *.
  rewrite !list_lookup_fmap, Hgj, Hcj. split; reflexivity.
Qed.

(** C1. When a rival holds the highest score ([top_cand_idx <> 0]), the
    instance step updates the weights once, to
    [w + (alpha * gold_feats - alpha * cands[top_cand_idx])] as numpy
    computes it: item by item, each product, the difference and the sum
    rounded to float64 in this order. The features of no other candidate
    enter it. The error count grows by one. *)
Theorem perceptron_update_rule (o : oracle) (fuel tree_no iter_errs : nat)
    (r r1 : PerceptronRanker) (gold_ttree : Tree) (gold_feats : vec)
    (rts : list Tree) (rfs : list vec) (scores : list float) (top_cand_idx : nat) :
  train_trees r !! tree_no = Some gold_ttree ->
  rows (train_feats r) !! tree_no = Some gold_feats ->
  _get_rival_candidates o fuel tree_no r = (r1, Ok (rts, rfs)) ->
  mapM (_score r1) (gold_feats :: rfs) = Ok scores ->
  index_of_max scores = Ok top_cand_idx ->
  top_cand_idx <> 0 ->
  exists wv top_cand w_new r',
    w r = Some wv
    /\ (gold_feats :: rfs) !! top_cand_idx = Some top_cand
    /\ training_instance o fuel tree_no iter_errs r = (r', Ok (iter_errs + 1))
    /\ w r' = Some w_new
    /\ w_new = zip_with PrimFloat.add wv
                 (zip_with PrimFloat.sub (np_scale (alpha r) gold_feats)
                                         (np_scale (alpha r) top_cand))
    /\ length w_new = length wv
    /\ forall j wj gj cj,
         wv !! j = Some wj -> gold_feats !! j = Some gj ->
         top_cand !! j = Some cj ->
         w_new !! j = Some (wj + (alpha r * gj - alpha r * cj))%float.
Proof.
  intros Hgt Hgf Hriv Hsc Htop Hnz.
  pose proof (scores_of_rivals_nonempty _ _ _ _ _ Hsc Htop Hnz) as Hne.
  destruct (training_instance_run o fuel tree_no iter_errs r r1 gold_ttree
              gold_feats rts rfs scores Hgt Hgf Hriv Hne Hsc)
    as (top & i & best & wv & top_cand & Htop' & _ & _ & Hw & Hcand & Hrun).
  assert (top = top_cand_idx) as -> by congruence.
  cbv zeta in Hrun. destruct (decide (top_cand_idx = 0)) as [?|_]; [contradiction|].
  (* the shapes agree, because both candidates were scored against [w] *)
  destruct (get_rival_candidates_inv _ _ _ _ _ _ _ Hriv) as (_ & _ & Hsame & _).
  pose proof (proj1 (mapM_Ok _ _ _) Hsc) as Hall.
  destruct (Forall2_lookup_l _ _ _ _ _ Hall Hcand) as (st & _ & Hst).
  destruct (score_Ok_inv _ _ _ Hst) as (wv1 & Hw1 & Hwc).
  destruct (Forall2_lookup_l _ _ _ 0 gold_feats Hall eq_refl) as (s0 & _ & Hs0).
  destruct (score_Ok_inv _ _ _ Hs0) as (wv2 & Hw2 & Hwg).
  rewrite (same_model_w _ _ Hsame) in Hw1, Hw2.
  assert (wv1 = wv) as -> by congruence.
  assert (wv2 = wv) as -> by congruence.
  eexists wv, top_cand, _, _.
  split; [exact Hw|]. split; [exact Hcand|]. split; [exact Hrun|].
  split; [reflexivity|]. split; [reflexivity|]. split.
  - apply updated_length; assumption.
  - intros j wj gj cj. apply updated_lookup.
Qed.

(** C2. The gold candidate is scored at index 0; [top_cand_idx] is the
    first index that holds the greatest score; the weights are updated (and
    an error counted) exactly when [top_cand_idx <> 0], which is exactly
    when some candidate scores strictly higher than the gold one. So when
    no score exceeds the gold one, ties included, nothing is updated. The
    comparisons are those of float64. *)
Theorem update_iff_rival_on_top (o : oracle) (fuel tree_no iter_errs : nat)
    (r r1 : PerceptronRanker) (gold_ttree : Tree) (gold_feats : vec)
    (rts : list Tree) (rfs : list vec) (scores : list float) :
  train_trees r !! tree_no = Some gold_ttree ->
  rows (train_feats r) !! tree_no = Some gold_feats ->
  _get_rival_candidates o fuel tree_no r = (r1, Ok (rts, rfs)) ->
  rfs <> [] ->
  mapM (_score r1) (gold_feats :: rfs) = Ok scores ->
  exists gold_score top_cand_idx r' errs',
    scores !! 0 = Some gold_score
    /\ _score r1 gold_feats = Ok gold_score
    /\ index_of_max scores = Ok top_cand_idx
    /\ is_first_argmax scores top_cand_idx
    /\ training_instance o fuel tree_no iter_errs r = (r', Ok errs')
    /\ ((top_cand_idx = 0 /\ w r' = w r /\ errs' = iter_errs)
        \/ (top_cand_idx <> 0 /\ errs' = iter_errs + 1
            /\ exists wv top_cand,
                 w r = Some wv
                 /\ (gold_feats :: rfs) !! top_cand_idx = Some top_cand
                 /\ w r' = Some (zip_with PrimFloat.add wv
                                   (zip_with PrimFloat.sub
                                      (np_scale (alpha r) gold_feats)
                                      (np_scale (alpha r) top_cand)))))
    /\ (top_cand_idx <> 0
        <-> exists j t, scores !! j = Some t /\ (gold_score <? t)%float = true)
    /\ ((forall j t, scores !! j = Some t -> (gold_score <? t)%float = false) ->
        top_cand_idx = 0 /\ w r' = w r /\ errs' = iter_errs).
Proof.
  intros Hgt Hgf Hriv Hne Hsc.
  destruct (training_instance_run o fuel tree_no iter_errs r r1 gold_ttree
              gold_feats rts rfs scores Hgt Hgf Hriv Hne Hsc)
    as (top & i & best & wv & top_cand & Htop & _ & _ & Hw & Hcand & Hrun).
  destruct (get_rival_candidates_inv _ _ _ _ _ _ _ Hriv) as (_ & _ & Hsame & _).
  pose proof (proj1 (mapM_Ok _ _ _) Hsc) as Hall.
  destruct (Forall2_lookup_l _ _ _ 0 gold_feats Hall eq_refl) as (s0 & Hs0 & Hsc0).
  pose proof (index_of_max_spec _ _ Htop) as Harg.
  cbv zeta in Hrun.
  assert (Hcases :
    (top = 0 /\ w (training_instance o fuel tree_no iter_errs r).1 = w r
       /\ (training_instance o fuel tree_no iter_errs r).2 = Ok iter_errs)
    \/ (top <> 0
        /\ (training_instance o fuel tree_no iter_errs r).2 = Ok (iter_errs + 1)
        /\ w (training_instance o fuel tree_no iter_errs r).1
           = Some (updated (alpha r) wv gold_feats top_cand))).
  { rewrite Hrun. destruct (decide (top = 0)) as [Hz|Hnz].
    - left. split; [exact Hz|]. split; [|reflexivity].
      simpl. apply same_model_w, Hsame.
    - right. split; [exact Hnz|]. split; reflexivity. }
  (* the top candidate against the gold score *)
  assert (Hgold : (top = 0 <-> forall j t, scores !! j = Some t ->
                                 (s0 <? t)%float = false)
                  /\ (top <> 0 -> exists j t, scores !! j = Some t
                                    /\ (s0 <? t)%float = true)).
  { destruct scores as [|x xs]; [discriminate Hs0|]. injection Hs0 as ->.
    destruct (index_of_max_first _ _ _ Htop) as [Hiff Hgt0]. split; [split|].
    - intros Hz [|j] t Ht; simpl in Ht.
      + injection Ht as <-. apply float_ltb_irrefl.
      + apply (proj1 Hiff Hz). eapply list_elem_of_lookup_2, Ht.
    - intros Hall'. apply Hiff. intros t Ht.
      apply list_elem_of_lookup_1 in Ht as [j Hj]. apply (Hall' (S j) t Hj).
    - intros Hnz. destruct (Hgt0 Hnz) as (s & Hs & Hlt). exists top, s. auto. }
  destruct Hgold as [Hzero Hover].
  destruct (training_instance o fuel tree_no iter_errs r) as [r' out] eqn:Hres.
  simpl in Hcases.
  assert (Hout : exists errs', out = Ok errs')
    by (destruct Hcases as [(_ & _ & ->)|(_ & -> & _)]; eexists; reflexivity).
  destruct Hout as [errs' ->].
  exists s0, top, r', errs'.
  split; [exact Hs0|]. split; [exact Hsc0|]. split; [exact Htop|].
  split; [exact Harg|]. split; [reflexivity|]. split; [|split].
  - destruct Hcases as [(Hz & Hw' & [= <-])|(Hnz & [= <-] & Hw')].
    + left. auto.
    + right. split; [exact Hnz|]. split; [reflexivity|].
      exists wv, top_cand. auto.
  - split; [exact Hover|]. intros (j & t & Ht & Hlt) Hz.
    rewrite (proj1 Hzero Hz j t Ht) in Hlt. discriminate Hlt.
  - intros Hmax. destruct Hcases as [(Hz & Hw' & [= <-])|(Hnz & _ & _)]; [auto|].
    exfalso. apply Hnz, Hzero, Hmax.
Qed.

Lemma score_not_Diverge (r : PerceptronRanker) (c : vec) : _score r c <> Diverge.
Proof.
  unfold _score, np_dot. destruct (w r); [case_decide|]; discriminate.
Qed.

(** C9. Without any rival the instance step raises before it updates
    anything: the weights and the evaluator are as rival generation left
    them, no error is counted, and when the gold candidate itself can be
    scored the exception is the [ValueError] of [max] over the empty list
    of rival scores. *)
Theorem no_rival_raises (o : oracle) (fuel tree_no iter_errs : nat)
    (r r1 : PerceptronRanker) (gold_ttree : Tree) (gold_feats : vec) :
  train_trees r !! tree_no = Some gold_ttree ->
  rows (train_feats r) !! tree_no = Some gold_feats ->
  _get_rival_candidates o fuel tree_no r = (r1, Ok ([], [])) ->
  exists e,
    training_instance o fuel tree_no iter_errs r = (r1, Raise e)
    /\ w r1 = w r
    /\ evaluator r1 = evaluator r
    /\ (is_Ok (_score r gold_feats) -> e = ValueError).
Proof.
  intros Hgt Hgf Hriv.
  destruct (get_rival_candidates_inv _ _ _ _ _ _ _ Hriv) as (_ & _ & Hsame & _).
  assert (Hev : evaluator r1 = evaluator r) by (destruct Hsame as [la ->]; reflexivity).
  assert (Hscore : _score r1 gold_feats = _score r gold_feats)
    by (unfold _score; rewrite (same_model_w _ _ Hsame); reflexivity).
  unfold training_instance.
  rewrite (M_bind_step _ _ r r gold_ttree)
    by (apply reads_Ok, py_getitem_Ok, Hgt).
  rewrite (M_bind_step _ _ r r gold_feats)
    by (apply reads_Ok, py_getitem_Ok, Hgf).
  rewrite (M_bind_step _ _ r r1 ([], [])) by exact Hriv.
  destruct (_score r1 gold_feats) as [s0|e|] eqn:Hs0.
  - exists ValueError. split; [|auto using same_model_w].
    rewrite (M_bind_step _ _ r1 r1 [s0]).
    2:{ apply reads_Ok. simpl. rewrite Hs0. reflexivity. }
    rewrite (M_bind_step _ _ r1 r1 0).
    2:{ apply reads_Ok, index_of_max_singleton. }
    apply M_bind_raise. reflexivity.
  - exists e. split.
    + apply M_bind_raise. unfold reads. simpl. rewrite Hs0. reflexivity.
    + split; [apply same_model_w, Hsame|]. split; [exact Hev|].
      intros [s Hs]. congruence.
  - exfalso. exact (score_not_Diverge _ _ Hs0).
Qed.

(** ** Whole passes *)

(** A pass over an empty training set runs no instance and then divides by
    the number of instances. *)
Lemma training_iter_empty (os : nat -> oracle) (fuel iter_no : nat)
    (r : PerceptronRanker) :
  train_trees r = [] ->
  _training_iter os fuel iter_no r
  = (set_lists_analyzer (set_evaluator r []) [], Raise ZeroDivisionError).
Proof.
  intros Hnil. unfold _training_iter, mbind, M_bind, assigns, reads.
  cbn [train_trees set_lists_analyzer set_evaluator]. rewrite Hnil.
  simpl. rewrite Hnil. reflexivity.
Qed.

(** [_init_training] once line 100 has computed the training size. *)
Lemma init_training_run (das : list DA) (train_sents0 : list string)
    (ttrees : list Tree) (data_portion : float) (z : Z) (r : PerceptronRanker) :
  train_size data_portion ttrees = Ok z ->
  _init_training das train_sents0 ttrees data_portion r
  = let r2 := init_data das train_sents0 ttrees z r in
    if decide ("gen_cur_weights"%string ∈ rival_gen_strategy r) then
      match candgen r2 with
      | None => (r2, Raise AttributeError)
      | Some None => (r2, Raise AssertionError)
      | Some (Some cg) =>
          (init_weights
             (set_asearch_planner r2
                {| ap_candgen := cg; ap_language := language r;
                   ap_selector := selector r |}), Ok tt)
      end
    else (init_weights r2, Ok tt).
Proof.
  intros Hz.
  unfold _init_training, init_data, init_weights, mbind, M_bind, assigns, reads.
  rewrite Hz. cbv zeta.
  cbn [feats candgen_model set_train_sents].
  destruct (vectorizer_fit_transform _) as [vz vectorized].
  destruct (normalizer_fit_transform _) as [nz tf].
  destruct (candgen_model r) as [model|] eqn:Hmodel;
    cbn [candgen_model set_training_data set_train_sents set_candgen
           rival_gen_strategy fst snd];
    rewrite ?Hmodel;
    cbn [candgen_model set_training_data set_train_sents set_candgen
           rival_gen_strategy fst snd];
    destruct (decide ("gen_cur_weights"%string ∈ rival_gen_strategy r));
    try reflexivity.
  cbn [candgen set_training_data set_train_sents].
  destruct (candgen r) as [[cg|]|]; reflexivity.
Qed.

(** [_init_training] when line 100 raises: only the sentences have been
    assigned. *)
Lemma init_training_no_size (das : list DA) (train_sents0 : list string)
    (ttrees : list Tree) (data_portion : float) (e : exn) (r : PerceptronRanker) :
  train_size data_portion ttrees = Raise e ->
  _init_training das train_sents0 ttrees data_portion r
  = (set_train_sents r train_sents0, Raise e).
Proof.
  intros Hz. unfold _init_training, mbind, M_bind, assigns, reads.
  rewrite Hz. reflexivity.
Qed.

Lemma train_size_not_Diverge (data_portion : float) (ttrees : list Tree) :
  train_size data_portion ttrees <> Diverge.
Proof.
  unfold train_size, py_int_round. destruct (Prim2SF _); discriminate.
Qed.

Lemma train_size_not_AssertionError (data_portion : float) (ttrees : list Tree) :
  train_size data_portion ttrees <> Raise AssertionError.
Proof.
  unfold train_size, py_int_round. destruct (Prim2SF _); discriminate.
Qed.

Lemma train_size_zero (ttrees : list Tree) : train_size 0 ttrees = Ok 0%Z.
Proof. apply py_int_round_zero. Qed.

(** Line 100 computes a size for every portion between 0 and 1. *)
Lemma train_size_of_portion (data_portion : float) (ttrees : list Tree) :
  (0 <=? data_portion)%float = true -> (data_portion <=? 1)%float = true ->
  is_Ok (train_size data_portion ttrees).
Proof.
  intros H0 H1. apply py_int_round_Ok, portion_times_length_finite; assumption.
Qed.

Lemma init_data_train_trees das train_sents0 ttrees z (r : PerceptronRanker) :
  train_trees (init_data das train_sents0 ttrees z r) = py_slice_to ttrees z.
Proof. unfold init_data. destruct (candgen_model r); reflexivity. Qed.

Lemma init_data_train_das das train_sents0 ttrees z (r : PerceptronRanker) :
  train_das (init_data das train_sents0 ttrees z r) = py_slice_to das z.
Proof. unfold init_data. destruct (candgen_model r); reflexivity. Qed.

Lemma init_data_passes das train_sents0 ttrees z (r : PerceptronRanker) :
  passes (init_data das train_sents0 ttrees z r) = passes r.
Proof. unfold init_data. destruct (candgen_model r); reflexivity. Qed.

Lemma init_data_w das train_sents0 ttrees z (r : PerceptronRanker) :
  w (init_data das train_sents0 ttrees z r) = w r.
Proof. unfold init_data. destruct (candgen_model r); reflexivity. Qed.

Lemma init_data_candgen das train_sents0 ttrees z (r : PerceptronRanker) :
  candgen (init_data das train_sents0 ttrees z r)
  = match candgen_model r with
    | Some model => Some (Some {| cg_model := model |})
    | None => candgen r
    end.
Proof. unfold init_data. destruct (candgen_model r); reflexivity. Qed.

(** The passes of [train] over an empty training set stop in the first. *)
Lemma passes_on_empty (os : nat -> nat -> oracle) (fuel : nat) (r : PerceptronRanker) :
  train_trees r = [] -> 0 < passes r ->
  (n ← reads (fun r => Ok (passes r));
   for_each (seq 1 n)
     (fun iter_no _ => _ ← _training_iter (os iter_no) fuel iter_no; mret tt) tt) r
  = (set_lists_analyzer (set_evaluator r []) [], Raise ZeroDivisionError).
Proof.
  intros Hnil Hpasses.
  rewrite (M_bind_step _ _ r r (passes r)) by reflexivity.
  destruct (passes r) as [|n]; [lia|]. cbn [seq for_each].
  apply M_bind_raise, M_bind_raise, training_iter_empty, Hnil.
Qed.

(** C6 (what the code does). With [data_portion = 0.0] the training set is
    empty, and [train], asked for at least one pass, ends in an exception:
    when initialization succeeds it is the [ZeroDivisionError] of the
    accuracy [1.0 - iter_errs / float(0)] of the first pass, raised with the
    weights still at their initial value. *)
Theorem train_zero_portion_raises (os : nat -> nat -> oracle) (fuel : nat)
    (das : list DA) (train_sents0 : list string) (ttrees : list Tree)
    (r : PerceptronRanker) :
  0 < passes r ->
  exists r' e,
    train os fuel das train_sents0 ttrees 0%float r = (r', Raise e)
    /\ train_trees r' = [] /\ train_das r' = []
    /\ (("gen_cur_weights"%string ∉ rival_gen_strategy r)
          \/ is_Some (candgen_model r) ->
        e = ZeroDivisionError
        /\ w r' = Some (np_ones (ncols (train_feats r')))).
Proof.
  intros Hpasses. unfold train.
  pose proof (init_training_run das train_sents0 ttrees 0%float 0%Z r
                (train_size_zero ttrees)) as Hinit.
  cbv zeta in Hinit.
  pose proof (init_data_train_trees das train_sents0 ttrees 0%Z r) as Htrees.
  pose proof (init_data_train_das das train_sents0 ttrees 0%Z r) as Hdas.
  pose proof (init_data_passes das train_sents0 ttrees 0%Z r) as Hp.
  pose proof (init_data_candgen das train_sents0 ttrees 0%Z r) as Hcg.
  change (py_slice_to ttrees 0) with (@nil Tree) in Htrees.
  change (py_slice_to das 0) with (@nil DA) in Hdas.
  set (r2 := init_data das train_sents0 ttrees 0%Z r) in *.
  destruct (decide ("gen_cur_weights"%string ∈ rival_gen_strategy r)) as [Hin|Hnin].
  - destruct (candgen r2) as [[cg|]|] eqn:Hcg2.
    + rewrite (M_bind_step _ _ r _ tt Hinit).
      rewrite passes_on_empty by (simpl; congruence || lia).
      eexists _, _. split; [reflexivity|].
      split; [exact Htrees|]. split; [exact Hdas|].
      intros _. split; reflexivity.
    + rewrite (M_bind_raise _ _ r _ _ Hinit).
      eexists _, _. split; [reflexivity|].
      split; [exact Htrees|]. split; [exact Hdas|].
      intros [Hnin|[model Hmodel]]; [contradiction|].
      rewrite Hmodel in Hcg. discriminate Hcg.
    + rewrite (M_bind_raise _ _ r _ _ Hinit).
      eexists _, _. split; [reflexivity|].
      split; [exact Htrees|]. split; [exact Hdas|].
      intros [Hnin|[model Hmodel]]; [contradiction|].
      rewrite Hmodel in Hcg. discriminate Hcg.
  - rewrite (M_bind_step _ _ r _ tt Hinit).
    rewrite passes_on_empty by (simpl; congruence || lia).
    eexists _, _. split; [reflexivity|].
    split; [exact Htrees|]. split; [exact Hdas|].
    intros _. split; reflexivity.
Qed.

(** C7 (what the code does). A ranker configured with [gen_cur_weights]
    and no [candgen_model] never gets a [candgen] attribute, so the test
    [assert self.candgen is not None] of [_init_training] ends in an
    [AttributeError], not in an [AssertionError]: initialization stops there,
    the weights are not yet created, and [train] runs no pass. This is so
    for every [data_portion] that line 100 can turn into a size; for the
    others (a NaN, an infinite product) initialization has stopped at that
    line, and never by an [AssertionError] either. *)
Theorem init_training_without_candgen (cfg : Config) (das : list DA)
    (train_sents0 : list string) (ttrees : list Tree) (data_portion : float) :
  "gen_cur_weights"%string ∈ rival_gen_strategy (__init__ cfg) ->
  cfg_candgen_model cfg = None ->
  exists r' e,
    _init_training das train_sents0 ttrees data_portion (__init__ cfg)
      = (r', Raise e)
    /\ e <> AssertionError
    /\ (is_Ok (train_size data_portion ttrees) -> e = AttributeError)
    /\ w r' = None
    /\ asearch_planner r' = None
    /\ forall os fuel,
         train os fuel das train_sents0 ttrees data_portion (__init__ cfg)
         = (r', Raise e).
Proof.
  intros Hin Hmodel.
  destruct (train_size data_portion ttrees) as [z|e|] eqn:Hz.
  - pose proof (init_training_run das train_sents0 ttrees data_portion z
                  (__init__ cfg) Hz) as Hinit.
    cbv zeta in Hinit.
    pose proof (init_data_candgen das train_sents0 ttrees z (__init__ cfg)) as Hcg.
    cbn [candgen_model candgen __init__] in Hcg. rewrite Hmodel in Hcg.
    destruct (decide ("gen_cur_weights"%string ∈ rival_gen_strategy (__init__ cfg)))
      as [_|?]; [|contradiction].
    rewrite Hcg in Hinit.
    exists (init_data das train_sents0 ttrees z (__init__ cfg)), AttributeError.
    split; [exact Hinit|]. split; [discriminate|]. split; [reflexivity|].
    split; [apply init_data_w|]. split.
    + unfold init_data. cbn [candgen_model __init__]. rewrite Hmodel. reflexivity.
    + intros os fuel. unfold train. apply M_bind_raise, Hinit.
  - pose proof (init_training_no_size das train_sents0 ttrees data_portion e
                  (__init__ cfg) Hz) as Hinit.
    exists (set_train_sents (__init__ cfg) train_sents0), e.
    split; [exact Hinit|]. split.
    { intros ->. exact (train_size_not_AssertionError _ _ Hz). }
    split; [intros [z' [=]]|]. split; [reflexivity|]. split; [reflexivity|].
    intros os fuel. unfold train. apply M_bind_raise, Hinit.
  - exfalso. exact (train_size_not_Diverge _ _ Hz).
Qed.

End Proofs.

(** ** Persistence *)

Section PersistenceProofs.
Context `{Pickler}.




End PersistenceProofs.

(** * The model at work *)

Example max_keeps_first_of_ties : index_of_max [3; 5; 5; 4]%float = Ok 1.
Proof. reflexivity. Qed.

Example gold_wins_ties : index_of_max [5; 5; 2]%float = Ok 0.
Proof. reflexivity. Qed.

Example max_of_nothing : index_of_max [] = Raise ValueError.
Proof. reflexivity. Qed.

(** A NaN is never greater and never smaller: in first place it stays the
    maximum, and is found there; elsewhere it is passed over. *)
Example max_with_nan :
  index_of_max [nan; 1]%float = Ok 0 /\ index_of_max [1; nan; 2]%float = Ok 2.
Proof. split; reflexivity. Qed.

Example minus_zero_ties_with_zero : index_of_max [-0; 0]%float = Ok 0.
Proof. reflexivity. Qed.

Example round_half_away_from_zero :
  py_int_round 2.5 = Ok 3%Z /\ py_int_round (-2.5) = Ok (-3)%Z
  /\ py_int_round 1.4 = Ok 1%Z /\ py_int_round (-0.4) = Ok 0%Z.
Proof. repeat split. Qed.

Example round_refuses_nan_and_infinity :
  py_int_round nan = Raise ValueError
  /\ py_int_round infinity = Raise OverflowError.
Proof. split; reflexivity. Qed.

(** Line 100 rounds the float product: [0.15 * 10] is [1.5] and gives 2
    instances, [0.29 * 50] is [14.499999999999998] and gives 14. *)
Example train_size_of_float_product :
  (0.15 * py_float 10 = 1.5)%float
  /\ py_int_round (0.15 * py_float 10) = Ok 2%Z
  /\ (0.29 * py_float 50 = 14.499999999999998)%float
  /\ py_int_round (0.29 * py_float 50) = Ok 14%Z.
Proof. repeat split. Qed.

Example slice_to_negative : py_slice_to [1; 2; 3; 4] (-1) = [1; 2; 3].
Proof. reflexivity. Qed.

Example dot_needs_one_shape `{Collaborators} :
  np_dot [1; 2]%float [1%float] = Raise ValueError.
Proof. reflexivity. Qed.

Example pop_takes_the_last : py_pop [1; 2; 3] = Some (3, [1; 2]).
Proof. reflexivity. Qed.

(** The update of unit weights for the gold features [1; 5; 0] against
    [1; 7; 0] with [alpha = 0.1]: the second weight becomes
    [1.0 + (0.5 - 0.7000000000000001)]. *)
Example update_in_float64 :
  updated 0.1 [1; 1; 1]%float [1; 5; 0]%float [1; 7; 0]%float
  = [1; 0.7999999999999999; 1]%float.
Proof. reflexivity. Qed.

(** One pass over the three instances with [other_inst], one rival each
    and [alpha = 0.1]. The draw 0 stands for tree 7 at instance 0 and for
    tree 5 elsewhere: the rival outscores the gold tree at instances 0 and
    1 and loses at instance 2, so two errors are counted, the weights move
    twice and the accuracy is [1 - 2/3]. *)
Example one_pass_on_the_corpus :
  exists r',
    _training_iter (H := Toy.world) (fun _ => Toy.oracle0) 0 1 Toy.trained0
    = (r', Ok (1 # 3)%Q)
    /\ evaluator r' = [(5, 7); (3, 5); (7, 5)]
    /\ w r' = Some [1; 0.6; 1]%float.
Proof.
  eexists. split; [vm_compute; reflexivity|]. split; reflexivity.
Qed.

(** * The statements at work in the small world *)

Lemma other_inst_rivals_spec_witness :
  exists trees fs,
    other_inst_rivals (H := Toy.world) Toy.trained0 Toy.oracle0 0 0 = Ok (trees, fs)
    /\ length trees = 1.
Proof.
  destruct (other_inst_rivals_spec (H := Toy.world) Toy.trained0 Toy.oracle0 0 0)
    as (idxs & trees & fs & Hrun & _ & Hlen & _).
  - vm_compute. lia.
  - vm_compute. lia.
  - repeat split.
    + apply NoDup_singleton.
    + repeat constructor.
  - split; eexists; reflexivity.
  - exists trees, fs. split; [exact Hrun | exact Hlen].
Defined.

Lemma random_rivals_spec_witness :
  exists trees fs,
    random_rivals (H := Toy.world) Toy.trained_random Toy.oracle0 2 0 0 = Ok (trees, fs)
    /\ trees = [6].
Proof.
  destruct (random_rivals_spec (H := Toy.world) Toy.trained_random Toy.oracle0 0 0 5)
    as [Hends _].
  - reflexivity.
  - eexists. reflexivity.
  - split; eexists; reflexivity.
  - destruct (Hends 2) as (trees & fs & Hrun & Htrees & _).
    + vm_compute. lia.
    + exists trees, fs. split; [apply Hrun; lia | exact Htrees].
Defined.

Lemma gen_cur_weights_rivals_spec_witness :
  (gen_cur_weights_rivals (H := Toy.world) Toy.oracle0 0 0 Toy.trained_search).1
  = set_lists_analyzer Toy.trained_search
      [(5, [], [(5, 1%float); (9, 2%float); (8, 3%float)])].
Proof.
  destruct (gen_cur_weights_rivals_spec (H := Toy.world) Toy.trained_search
              Toy.oracle0 0 0 5
              {| ap_candgen := {| cg_model := "candgen.pickle" |};
                 ap_language := "en"; ap_selector := "" |}
              [] [(5, 1%float); (9, 2%float); (8, 3%float)]) as [Hstate _].
  - reflexivity.
  - reflexivity.
  - reflexivity.
  - exact Hstate.
Defined.

Lemma get_rival_candidates_spec_witness :
  exists trees fs,
    _get_rival_candidates (H := Toy.world) Toy.oracle0 0 0 Toy.trained0
      = (Toy.trained0, Ok (trees, fs))
    /\ length trees = length fs.
Proof.
  destruct (get_rival_candidates_spec (H := Toy.world) Toy.oracle0 0 0
              Toy.trained0 Toy.trained0 0
              ([7], [[1; 7; 0]%float]) ([], []) ([], []))
    as (trees & fs & Hrun & _ & _ & Hlen & _).
  - reflexivity.
  - vm_compute. reflexivity.
  - vm_compute. reflexivity.
  - vm_compute. split; reflexivity.
  - exists trees, fs. split; [exact Hrun | exact Hlen].
Defined.

Lemma perceptron_update_rule_witness :
  exists r',
    training_instance (H := Toy.world) Toy.oracle0 0 0 0 Toy.trained0 = (r', Ok 1)
    /\ w r' = Some [1; 0.7999999999999999; 1]%float.
Proof.
  destruct (perceptron_update_rule (H := Toy.world) Toy.oracle0 0 0 0
              Toy.trained0 Toy.trained0 5 [1; 5; 0]%float
              [7] [[1; 7; 0]%float] [6; 8]%float 1)
    as (wv & top_cand & w_new & r' & Hw & Hcand & Hrun & Hw' & Hnew & _).
  - reflexivity.
  - reflexivity.
  - vm_compute. reflexivity.
  - vm_compute. reflexivity.
  - vm_compute. reflexivity.
  - discriminate.
  - exists r'. split; [exact Hrun|]. rewrite Hw', Hnew.
    injection Hw as <-. injection Hcand as <-. reflexivity.
Defined.

Lemma update_iff_rival_on_top_witness :
  exists top_cand_idx r' errs',
    index_of_max [6; 8]%float = Ok top_cand_idx
    /\ training_instance (H := Toy.world) Toy.oracle0 0 0 0 Toy.trained0 = (r', Ok errs').
Proof.
  destruct (update_iff_rival_on_top (H := Toy.world) Toy.oracle0 0 0 0
              Toy.trained0 Toy.trained0 5 [1; 5; 0]%float
              [7] [[1; 7; 0]%float] [6; 8]%float)
    as (s0 & top & r' & errs' & _ & _ & Htop & _ & Hrun & _).
  - reflexivity.
  - reflexivity.
  - vm_compute. reflexivity.
  - discriminate.
  - vm_compute. reflexivity.
  - exists top, r', errs'. split; [exact Htop | exact Hrun].
Defined.

Lemma no_rival_raises_witness :
  training_instance (H := Toy.world) Toy.oracle0 0 0 0 Toy.trained_no_strategy
  = (Toy.trained_no_strategy, Raise ValueError).
Proof.
  destruct (no_rival_raises (H := Toy.world) Toy.oracle0 0 0 0
              Toy.trained_no_strategy Toy.trained_no_strategy 5 [1; 5; 0]%float)
    as (e & Hrun & _ & _ & He).
  - reflexivity.
  - reflexivity.
  - vm_compute. reflexivity.
  - rewrite Hrun, He; [reflexivity|]. eexists. reflexivity.
Defined.

Lemma train_zero_portion_raises_witness :
  exists r',
    train (H := Toy.world) (fun _ _ => Toy.oracle0) 0
      Toy.corpus_das Toy.corpus_sents Toy.corpus_trees 0%float
      (__init__ Toy.cfg_other_inst)
    = (r', Raise ZeroDivisionError)
    /\ train_trees r' = [].
Proof.
  destruct (train_zero_portion_raises (H := Toy.world) (fun _ _ => Toy.oracle0) 0
              Toy.corpus_das Toy.corpus_sents Toy.corpus_trees
              (__init__ Toy.cfg_other_inst))
    as (r' & e & Hrun & Htrees & _ & He).
  - vm_compute. lia.
  - exists r'. split; [|exact Htrees].
    destruct He as [-> _]; [|exact Hrun].
    left. vm_compute. intros Hin. apply list_elem_of_singleton in Hin. discriminate Hin.
Defined.

Lemma init_training_without_candgen_witness :
  exists r',
    train (H := Toy.world) (fun _ _ => Toy.oracle0) 0
      Toy.corpus_das Toy.corpus_sents Toy.corpus_trees 1%float
      (__init__ percrank_config)
    = (r', Raise AttributeError)
    /\ w r' = None.
Proof.
  destruct (init_training_without_candgen (H := Toy.world) percrank_config
              Toy.corpus_das Toy.corpus_sents Toy.corpus_trees 1%float)
    as (r' & e & _ & _ & He & Hw & _ & Htrain).
  - apply list_elem_of_here.
  - reflexivity.
  - exists r'. split; [|exact Hw].
    rewrite Htrain, He; [reflexivity|]. eexists. reflexivity.
Defined.


(** * Further properties of the ranker *)

Section Further.
Context `{Collaborators}.

(** ** What a completed instance step has done *)

Lemma training_instance_Ok_inv (o : oracle) (fuel tree_no iter_errs errs' : nat)
    (r r' : PerceptronRanker) :
  training_instance o fuel tree_no iter_errs r = (r', Ok errs') ->
  exists gold_ttree gold_feats r1 rts rfs scores top best wv top_cand,
    train_trees r !! tree_no = Some gold_ttree
    /\ rows (train_feats r) !! tree_no = Some gold_feats
    /\ _get_rival_candidates o fuel tree_no r = (r1, Ok (rts, rfs))
    /\ rfs <> []
    /\ mapM (_score r1) (gold_feats :: rfs) = Ok scores
    /\ index_of_max scores = Ok top
    /\ w r = Some wv
    /\ (gold_feats :: rfs) !! top = Some top_cand
    /\ ((top = 0 /\ errs' = iter_errs
         /\ r' = set_evaluator r1 (evaluator r1 ++ [(gold_ttree, best)]))
        \/ (top <> 0 /\ errs' = iter_errs + 1
            /\ r' = set_w (set_evaluator r1 (evaluator r1 ++ [(gold_ttree, best)]))
                      (updated (alpha r) wv gold_feats top_cand))).
Proof.
  intros Hrun. pose proof Hrun as Hinv. unfold training_instance in Hinv.
  apply M_bind_Ok in Hinv as (gold_ttree & ra & Hgt & Hinv).
  unfold reads in Hgt. injection Hgt as <- Hgt. apply py_getitem_Ok in Hgt.
  apply M_bind_Ok in Hinv as (gold_feats & ra & Hgf & Hinv).
  unfold reads in Hgf. injection Hgf as <- Hgf. apply py_getitem_Ok in Hgf.
  apply M_bind_Ok in Hinv as ([rts rfs] & r1 & Hriv & Hinv).
  apply M_bind_Ok in Hinv as (scores & ra & Hsc & Hinv).
  unfold reads in Hsc. injection Hsc as <- Hsc.
  apply M_bind_Ok in Hinv as (top & ra & Htop & Hinv).
  unfold reads in Htop. injection Htop as <- Htop.
  apply M_bind_Ok in Hinv as (best0 & ra & Hbest & _).
  unfold reads in Hbest. injection Hbest as <- Hbest.
  apply bind_Ok in Hbest as (i0 & Hi0 & _).
  assert (Hne : rfs <> []).
  { intros ->. apply (mapM_Ok_length (_score r1) [gold_feats]) in Hsc.
    simpl in Hsc.
    apply index_of_max_spec, is_first_argmax_lt in Hi0.
    rewrite length_drop in Hi0. lia. }
  destruct (training_instance_run o fuel tree_no iter_errs r r1 gold_ttree
              gold_feats rts rfs scores Hgt Hgf Hriv Hne Hsc)
    as (top' & i & best & wv & top_cand & Htop' & _ & _ & Hw & Hcand & Hres).
  assert (top' = top) as -> by congruence.
  exists gold_ttree, gold_feats, r1, rts, rfs, scores, top, best, wv, top_cand.
  do 8 (split; [assumption|]).
  rewrite Hrun in Hres. cbv zeta in Hres.
  destruct (decide (top = 0)) as [Hz|Hnz].
  - left. injection Hres as -> ->. auto.
  - right. injection Hres as -> ->. auto.
Qed.

(** X2. A weight update is only made against a rival that scored
    strictly higher than the gold candidate. A step that counted an error
    had rivals; the candidate [cands[top_cand_idx]] it updated against is
    one of their feature vectors, its score is strictly greater than the
    gold score and no rival scored higher than it (comparisons of float64,
    scores under the weights before the update); the new weights are
    [w + (alpha * gold_feats - alpha * top_cand)] for that candidate. *)
Theorem update_against_higher_rival (o : oracle) (fuel tree_no iter_errs : nat)
    (r r' : PerceptronRanker) :
  training_instance o fuel tree_no iter_errs r = (r', Ok (iter_errs + 1)) ->
  exists gold_feats r1 rts rfs scores k top_cand sg sc wv,
    rows (train_feats r) !! tree_no = Some gold_feats
    /\ _get_rival_candidates o fuel tree_no r = (r1, Ok (rts, rfs))
    /\ mapM (_score r) (gold_feats :: rfs) = Ok scores
    /\ index_of_max scores = Ok (S k)
    /\ rfs !! k = Some top_cand
    /\ _score r gold_feats = Ok sg /\ _score r top_cand = Ok sc
    /\ (sg <? sc)%float = true
    /\ (forall f s, f ∈ rfs -> _score r f = Ok s -> (sc <? s)%float = false)
    /\ w r = Some wv
    /\ w r' = Some (zip_with PrimFloat.add wv
                      (zip_with PrimFloat.sub (np_scale (alpha r) gold_feats)
                                              (np_scale (alpha r) top_cand))).
Proof.
  intros Hrun.
  destruct (training_instance_Ok_inv _ _ _ _ _ _ _ Hrun)
    as (gold_ttree & gold_feats & r1 & rts & rfs & scores & top & best & wv
        & top_cand & _ & Hgf & Hriv & _ & Hsc & Htop & Hw & Hcand & Hcases).
  destruct Hcases as [(_ & Herr & _)|(Hnz & _ & ->)]; [lia|].
  destruct (get_rival_candidates_inv _ _ _ _ _ _ _ Hriv) as (_ & _ & Hsame & _).
  assert (Hscore : forall f, _score r1 f = _score r f)
    by (intros f; unfold _score; rewrite (same_model_w _ _ Hsame); reflexivity).
  rewrite (mapM_ext _ _ _ Hscore) in Hsc.
  pose proof (proj1 (mapM_Ok _ _ _) Hsc) as Hall.
  destruct top as [|k]; [contradiction|]. simpl in Hcand.
  destruct scores as [|s0 rest]; [inversion Hall|].
  destruct (index_of_max_first _ _ _ Htop) as [_ Hgt].
  destruct (Hgt Hnz) as (sc & Hsc' & Hlt).
  destruct (Forall2_lookup_l _ _ _ (S k) top_cand Hall Hcand) as (sc0 & Hsc0 & Hst).
  assert (sc0 = sc) as -> by congruence.
  destruct (Forall2_lookup_l _ _ _ 0 gold_feats Hall eq_refl) as (sg & Hsg & Hsg').
  injection Hsg as <-.
  exists gold_feats, r1, rts, rfs, (s0 :: rest), k, top_cand, s0, sc, wv.
  split; [exact Hgf|]. split; [exact Hriv|]. split; [exact Hsc|].
  split; [exact Htop|]. split; [exact Hcand|]. split; [exact Hsg'|].
  split; [exact Hst|]. split; [exact Hlt|]. split; [|split; [exact Hw | reflexivity]].
  intros f s Hf Hs. apply list_elem_of_lookup_1 in Hf as [j Hj].
  destruct (Forall2_lookup_l _ _ _ (S j) f Hall Hj) as (s' & Hs' & Hfs).
  assert (s' = s) as -> by congruence.
  destruct (index_of_max_spec _ _ Htop) as (sc1 & Hsc1 & Hmax & _).
  assert (sc1 = sc) as -> by congruence.
  exact (Hmax (S j) s Hs').
Qed.

(** ** What training leaves alone *)

Lemma trains_from_refl (r : PerceptronRanker) : trains_from r r.
Proof. split; reflexivity. Qed.

Lemma trains_from_trans (r r1 r2 : PerceptronRanker) :
  trains_from r r1 -> trains_from r1 r2 -> trains_from r r2.
Proof. intros [Hf Hs] [Hf' Hs']. split; congruence. Qed.

Lemma keeps_ret {A} (a : A) : keeps (mret a).
Proof. intros r. apply trains_from_refl. Qed.

Lemma keeps_reads {A} (f : PerceptronRanker -> outcome A) : keeps (reads f).
Proof. intros r. apply trains_from_refl. Qed.

Lemma keeps_assigns (f : PerceptronRanker -> PerceptronRanker) :
  (forall r, trains_from r (f r)) -> keeps (assigns f).
Proof. intros Hf r. apply Hf. Qed.

Lemma keeps_bind {A B} (m : M A) (f : A -> M B) :
  keeps m -> (forall a, keeps (f a)) -> keeps (m ≫= f).
Proof.
  intros Hm Hf r. unfold mbind, M_bind. specialize (Hm r).
  destruct (m r) as [r1 [a|e|]]; simpl in Hm |- *; try exact Hm.
  eapply trains_from_trans; [exact Hm | apply Hf].
Qed.

Lemma keeps_for_each {A B} (l : list A) (body : A -> B -> M B) (acc : B) :
  (forall x b, keeps (body x b)) -> keeps (for_each l body acc).
Proof.
  intros Hbody. revert acc. induction l as [|x l IH]; intros acc; simpl.
  - apply keeps_ret.
  - apply keeps_bind; [apply Hbody | exact IH].
Qed.

Lemma keeps_if_strategy (name : string) (acc : list Tree * list vec)
    (block : M (list Tree * list vec)) :
  keeps block -> keeps (if_strategy name acc block).
Proof.
  intros Hblock r. unfold if_strategy.
  destruct (decide (name ∈ rival_gen_strategy r)); [|apply trains_from_refl].
  apply (keeps_bind block); [exact Hblock | intros a; apply keeps_ret].
Qed.

Lemma keeps_gen_cur_weights_rivals (o : oracle) (tree_no : nat) (da : DA) :
  keeps (gen_cur_weights_rivals o tree_no da).
Proof.
  unfold gen_cur_weights_rivals.
  apply keeps_bind; [apply keeps_reads|]. intros _.
  destruct (search_draw o) as [open_list close_list].
  apply keeps_bind; [apply keeps_reads|]. intros gold.
  apply keeps_bind; [|intros _; apply keeps_reads].
  apply keeps_assigns. intros r. split; reflexivity.
Qed.

Lemma keeps_get_rival_candidates (o : oracle) (fuel tree_no : nat) :
  keeps (_get_rival_candidates o fuel tree_no).
Proof.
  unfold _get_rival_candidates.
  apply keeps_bind; [apply keeps_reads|]. intros da.
  apply keeps_bind; [apply keeps_if_strategy, keeps_reads|]. intros p1.
  apply keeps_bind; [apply keeps_if_strategy, keeps_reads|]. intros p2.
  apply keeps_bind; [apply keeps_if_strategy, keeps_gen_cur_weights_rivals|].
  intros p3. apply keeps_ret.
Qed.

Lemma np_iadd_length (wv d w' : vec) : np_iadd wv d = Ok w' -> length w' = length wv.
Proof.
  unfold np_iadd. case_decide as Hlen.
  - intros [= <-]. rewrite length_zip_with. lia.
  - destruct d as [|y [|? ?]]; try discriminate.
    intros [= <-]. apply length_fmap.
Qed.

Lemma keeps_update {B} (F : PerceptronRanker -> outcome vec) (b : B) :
  (forall r w', F r = Ok w' -> trains_from r (set_w r w')) ->
  keeps (w' ← reads F; _ ← assigns (fun r => set_w r w'); mret b).
Proof.
  intros HF r. unfold mbind, M_bind, reads, assigns.
  destruct (F r) as [w'|e|] eqn:E; simpl; try apply trains_from_refl.
  apply HF, E.
Qed.

Lemma keeps_training_instance (o : oracle) (fuel tree_no iter_errs : nat) :
  keeps (training_instance o fuel tree_no iter_errs).
Proof.
  unfold training_instance.
  apply keeps_bind; [apply keeps_reads|]. intros gold_ttree.
  apply keeps_bind; [apply keeps_reads|]. intros gold_feats.
  apply keeps_bind; [apply keeps_get_rival_candidates|]. intros [rts rfs].
  apply keeps_bind; [apply keeps_reads|]. intros scores.
  apply keeps_bind; [apply keeps_reads|]. intros top.
  apply keeps_bind; [apply keeps_reads|]. intros best.
  apply keeps_bind; [apply keeps_assigns; intros r; split; reflexivity|].
  intros _. destruct (decide (top <> 0)); [|apply keeps_ret].
  apply keeps_update. intros r w' Hw'. split; [reflexivity|].
  apply bind_Ok in Hw' as (top_cand & _ & Hw').
  apply bind_Ok in Hw' as (d & _ & Hw').
  unfold weights_shape. simpl. destruct (w r) as [wv|]; [|discriminate].
  apply np_iadd_length in Hw'. simpl. congruence.
Qed.

(** X3. However a pass ends, it has changed nothing of the ranker but the
    weights and the two diagnostics: the configuration, the training data,
    the fitted vectorizer and normalizer and the planners are the same, and
    the weight vector has as many coefficients as before. *)
Theorem training_iter_keeps_model (os : nat -> oracle) (fuel iter_no : nat)
    (r : PerceptronRanker) :
  let r' := (_training_iter os fuel iter_no r).1 in
  frozen r' = frozen r /\ weights_shape r' = weights_shape r.
Proof.
  cbv zeta. change (trains_from r (_training_iter os fuel iter_no r).1).
  revert r. change (keeps (_training_iter os fuel iter_no)).
  unfold _training_iter.
  apply keeps_bind; [apply keeps_assigns; intros r; split; reflexivity|]. intros _.
  apply keeps_bind; [apply keeps_assigns; intros r; split; reflexivity|]. intros _.
  apply keeps_bind; [apply keeps_reads|]. intros n.
  apply keeps_bind; [|intros errs; apply keeps_reads].
  apply keeps_for_each. intros tree_no errs. apply keeps_training_instance.
Qed.

(** ** Whole passes that complete *)

Lemma for_each_inv {A B} (I : list A -> B -> PerceptronRanker -> Prop)
    (body : A -> B -> M B) :
  (forall done x acc r acc' r',
     I done acc r -> body x acc r = (r', Ok acc') -> I (done ++ [x]) acc' r') ->
  forall l done acc r acc' r',
    I done acc r -> for_each l body acc r = (r', Ok acc') -> I (done ++ l) acc' r'.
Proof.
  intros Hstep. induction l as [|x l IH]; intros done acc r acc' r' HI Hrun.
  - simpl in Hrun. injection Hrun as <- <-. rewrite app_nil_r. exact HI.
  - simpl in Hrun. apply M_bind_Ok in Hrun as (a & r1 & Hx & Hrun).
    replace (done ++ x :: l) with ((done ++ [x]) ++ l)
      by (rewrite <- app_assoc; reflexivity).
    eapply IH; [|exact Hrun]. eapply Hstep; eassumption.
Qed.

Lemma frozen_train_trees (r r' : PerceptronRanker) :
  frozen r' = frozen r -> train_trees r' = train_trees r.
Proof. unfold frozen. intros [= ]. assumption. Qed.

Lemma frozen_train_das (r r' : PerceptronRanker) :
  frozen r' = frozen r -> train_das r' = train_das r.
Proof. unfold frozen. intros [= ]. assumption. Qed.

Lemma frozen_rival_gen_strategy (r r' : PerceptronRanker) :
  frozen r' = frozen r -> rival_gen_strategy r' = rival_gen_strategy r.
Proof. unfold frozen. intros [= ]. assumption. Qed.

Lemma gen_cur_weights_rivals_analyzer (o : oracle) (tree_no : nat) (da : DA)
    (r r1 : PerceptronRanker) (p : list Tree * list vec) :
  gen_cur_weights_rivals o tree_no da r = (r1, Ok p) ->
  length (lists_analyzer r1) = length (lists_analyzer r) + 1
  /\ evaluator r1 = evaluator r.
Proof.
  unfold gen_cur_weights_rivals. intros Hrun.
  apply M_bind_Ok in Hrun as (ap & r' & Hap & Hrun).
  unfold reads in Hap. injection Hap as <- _.
  destruct (search_draw o) as [open_list close_list].
  apply M_bind_Ok in Hrun as (gold & r' & Hgold & Hrun).
  unfold reads in Hgold. injection Hgold as <- _.
  apply M_bind_Ok in Hrun as ([] & r' & Hset & Hrun).
  unfold assigns in Hset. injection Hset as <-.
  unfold reads in Hrun. injection Hrun as <- _.
  simpl. rewrite length_app. split; reflexivity.
Qed.

Lemma get_rival_candidates_analyzer (o : oracle) (fuel tree_no : nat)
    (r r1 : PerceptronRanker) (p : list Tree * list vec) :
  _get_rival_candidates o fuel tree_no r = (r1, Ok p) ->
  length (lists_analyzer r1)
  = length (lists_analyzer r)
    + (if decide ("gen_cur_weights"%string ∈ rival_gen_strategy r) then 1 else 0)
  /\ evaluator r1 = evaluator r.
Proof.
  unfold _get_rival_candidates. intros Hrun.
  apply M_bind_Ok in Hrun as (da & r' & Hda & Hrun).
  unfold reads in Hda. injection Hda as <- _.
  apply M_bind_Ok in Hrun as (p1 & ra & H1 & Hrun).
  apply M_bind_Ok in Hrun as (p2 & rb & H2 & Hrun).
  apply M_bind_Ok in Hrun as (p3 & rc & H3 & [= <- _]).
  apply if_strategy_inv in H1 as (n1 & _ & H1).
  apply if_strategy_inv in H2 as (n2 & _ & H2).
  apply if_strategy_inv in H3 as (n3 & _ & H3).
  assert (ra = r) as ->.
  { destruct (decide ("other_inst"%string ∈ rival_gen_strategy r)).
    - unfold reads in H1. injection H1 as <- _. reflexivity.
    - apply H1. }
  assert (rb = r) as ->.
  { destruct (decide ("random"%string ∈ rival_gen_strategy r)).
    - unfold reads in H2. injection H2 as <- _. reflexivity.
    - apply H2. }
  destruct (decide ("gen_cur_weights"%string ∈ rival_gen_strategy r)).
  - eapply gen_cur_weights_rivals_analyzer, H3.
  - destruct H3 as [-> _]. split; [lia | reflexivity].
Qed.

Lemma firsts_of_indexed {A B} (f : B -> A) (l : list A) (ev : list B) :
  Forall2 (fun i p => l !! i = Some (f p)) (seq 0 (length l)) ev -> f <$> ev = l.
Proof.
  intros Hall. pose proof (Forall2_length _ _ _ Hall) as Hlen.
  rewrite length_seq in Hlen.
  apply list_eq. intros i. rewrite list_lookup_fmap.
  destruct (decide (i < length l)) as [Hlt|Hge].
  - destruct (lookup_lt_is_Some_2 ev i) as [p Hp]; [lia|].
    rewrite Hp. simpl. symmetry.
    apply (Forall2_lookup_lr _ _ _ i i p Hall); [|exact Hp].
    apply lookup_seq_lt. exact Hlt.
  - rewrite (lookup_ge_None_2 ev) by lia. rewrite (lookup_ge_None_2 l) by lia.
    reflexivity.
Qed.

Lemma iter_accuracy_bounds (iter_errs n : nat) (acc : Q) :
  iter_errs <= n -> iter_accuracy iter_errs n = Ok acc ->
  0 < n /\ (0 <= acc)%Q /\ (acc <= 1)%Q /\ ((acc == 1)%Q -> iter_errs = 0).
Proof.
  unfold iter_accuracy. intros Hle Hacc. case_decide as Hn; [discriminate|].
  injection Hacc as <-. split; [lia|].
  assert (Hpos : (0 < inject_Z (Z.of_nat n))%Q)
    by (rewrite <- (Zlt_Qlt 0); lia).
  assert (Hfrac : (0 <= inject_Z (Z.of_nat iter_errs) / inject_Z (Z.of_nat n))%Q).
  { apply Qle_shift_div_l; [exact Hpos|]. rewrite Qmult_0_l.
    rewrite <- (Zle_Qle 0). lia. }
  assert (Hfrac1 : (inject_Z (Z.of_nat iter_errs) / inject_Z (Z.of_nat n) <= 1)%Q).
  { apply Qle_shift_div_r; [exact Hpos|]. rewrite Qmult_1_l.
    rewrite <- Zle_Qle. lia. }
  set (x := (inject_Z (Z.of_nat iter_errs) / inject_Z (Z.of_nat n))%Q) in *.
  split; [|split].
  - unfold Qminus. apply (Qle_minus_iff x 1), Hfrac1.
  - apply Qle_minus_iff.
    assert (E : (1 + - (1 - x) == x)%Q) by ring.
    rewrite E. exact Hfrac.
  - intros Hone. destruct iter_errs as [|e]; [reflexivity|]. exfalso.
    assert (Hgt : (0 < x)%Q).
    { apply Qlt_shift_div_l; [exact Hpos|]. rewrite Qmult_0_l.
      rewrite <- (Zlt_Qlt 0). lia. }
    assert (Hx : (x == 1 - (1 - x))%Q) by ring.
    rewrite Hone in Hx. rewrite Hx in Hgt. vm_compute in Hgt. discriminate Hgt.
Qed.

(** What a completed instance step has added to the diagnostics. *)
Lemma training_instance_bookkeeping (o : oracle) (fuel tree_no iter_errs errs' : nat)
    (r r' : PerceptronRanker) :
  training_instance o fuel tree_no iter_errs r = (r', Ok errs') ->
  frozen r' = frozen r
  /\ (exists gold best,
        train_trees r !! tree_no = Some gold
        /\ evaluator r' = evaluator r ++ [(gold, best)])
  /\ length (lists_analyzer r')
     = length (lists_analyzer r)
       + (if decide ("gen_cur_weights"%string ∈ rival_gen_strategy r) then 1 else 0)
  /\ ((errs' = iter_errs /\ w r' = w r) \/ errs' = iter_errs + 1)
  /\ is_Some (train_das r !! tree_no).
Proof.
  intros Hrun.
  destruct (keeps_training_instance o fuel tree_no iter_errs r) as [Hfrozen _].
  rewrite Hrun in Hfrozen. simpl in Hfrozen.
  destruct (training_instance_Ok_inv _ _ _ _ _ _ _ Hrun)
    as (gold & gold_feats & r1 & rts & rfs & scores & top & best & wv
        & top_cand & Hgt & _ & Hriv & _ & _ & _ & _ & _ & Hcases).
  destruct (get_rival_candidates_analyzer _ _ _ _ _ _ Hriv) as [Hla Hev].
  destruct (get_rival_candidates_inv _ _ _ _ _ _ _ Hriv) as (da & Hda & Hsame & _).
  split; [exact Hfrozen|]. split; [|split; [|split]].
  - exists gold, best. split; [exact Hgt|].
    destruct Hcases as [(_ & _ & ->)|(_ & _ & ->)]; simpl; rewrite Hev; reflexivity.
  - destruct Hcases as [(_ & _ & ->)|(_ & _ & ->)]; simpl; exact Hla.
  - destruct Hcases as [(_ & -> & ->)|(_ & -> & _)]; [left | right; reflexivity].
    split; [reflexivity|]. simpl. apply same_model_w, Hsame.
  - rewrite Hda. eexists. reflexivity.
Qed.

(** X4. A pass that completes has appended to the evaluator one pair per
    training instance, in order, whose first components are the gold trees;
    the analyzer holds one entry per instance when [gen_cur_weights] is
    configured and none otherwise (both start empty, whatever they held);
    the accuracy reported lies between 0 and 1, and an accuracy of 1 means
    that the weights were not touched. A completed pass had at least one
    instance. *)
Theorem completed_pass_bookkeeping (os : nat -> oracle) (fuel iter_no : nat)
    (r r' : PerceptronRanker) (acc : Q) :
  _training_iter os fuel iter_no r = (r', Ok acc) ->
  0 < length (train_trees r)
  /\ (evaluator r').*1 = train_trees r
  /\ length (lists_analyzer r')
     = (if decide ("gen_cur_weights"%string ∈ rival_gen_strategy r)
        then length (train_trees r) else 0)
  /\ (0 <= acc)%Q /\ (acc <= 1)%Q
  /\ ((acc == 1)%Q -> w r' = w r).
Proof.
  unfold _training_iter. intros Hrun.
  apply M_bind_Ok in Hrun as ([] & ra & Ha & Hrun).
  unfold assigns in Ha. injection Ha as <-.
  apply M_bind_Ok in Hrun as ([] & rb & Hb & Hrun).
  unfold assigns in Hb. injection Hb as <-.
  apply M_bind_Ok in Hrun as (n & rc & Hn & Hrun).
  unfold reads in Hn. injection Hn as <- <-.
  apply M_bind_Ok in Hrun as (errs & rd & Hloop & Hacc).
  unfold reads in Hacc. injection Hacc as <- Hacc.
  set (r0 := set_lists_analyzer (set_evaluator r []) []) in *.
  change (train_trees r0) with (train_trees r) in Hloop.
  pose (I := fun (done : list nat) (errs : nat) (rc : PerceptronRanker) =>
    frozen rc = frozen r0
    /\ Forall2 (fun i p => train_trees r !! i = Some p.1) done (evaluator rc)
    /\ errs <= length done
    /\ (errs = 0 -> w rc = w r)
    /\ length (lists_analyzer rc)
       = (if decide ("gen_cur_weights"%string ∈ rival_gen_strategy r)
          then length done else 0)).
  assert (HI : I ([] ++ seq 0 (length (train_trees r))) errs rd).
  { eapply (for_each_inv I); [|
      |exact Hloop].
    - clear. intros done x errs rc errs' rn (Hfr & Hev & Herrs & Hw & Hla) Hstep.
      destruct (training_instance_bookkeeping _ _ _ _ _ _ _ Hstep)
        as (Hfr' & (gold & best & Hgold & Hev') & Hla' & Hcases & _).
      rewrite (frozen_train_trees _ _ Hfr) in Hgold.
      rewrite (frozen_rival_gen_strategy _ _ Hfr) in Hla'.
      change (train_trees r0) with (train_trees r) in Hgold.
      change (rival_gen_strategy r0) with (rival_gen_strategy r) in Hla'.
      split; [congruence|]. split; [|split; [|split]].
      + rewrite Hev'. apply Forall2_app; [exact Hev|].
        constructor; [exact Hgold | constructor].
      + rewrite length_app. simpl. destruct Hcases as [[-> _]| ->]; lia.
      + intros Hz. destruct Hcases as [[-> ->]| ->]; [apply Hw, Hz | lia].
      + rewrite Hla', Hla, length_app. simpl.
        destruct (decide ("gen_cur_weights"%string ∈ rival_gen_strategy r)); lia.
    - split; [reflexivity|]. split; [constructor|]. split; [simpl; lia|].
      split; [reflexivity|].
      destruct (decide ("gen_cur_weights"%string ∈ rival_gen_strategy r));
        reflexivity. }
  destruct HI as (Hfr & Hev & Herrs & Hw & Hla). simpl in Hev, Herrs, Hla.
  rewrite length_seq in Herrs, Hla.
  rewrite (frozen_train_trees _ _ Hfr) in Hacc.
  change (train_trees r0) with (train_trees r) in Hacc.
  destruct (iter_accuracy_bounds _ _ _ Herrs Hacc) as (Hpos & Hlo & Hhi & Hone).
  split; [exact Hpos|]. split; [apply firsts_of_indexed, Hev|].
  split; [exact Hla|]. split; [exact Hlo|]. split; [exact Hhi|].
  intros Hacc1. apply Hw, Hone, Hacc1.
Qed.

(** ** Corpora that are not aligned *)

Lemma instance_without_da_raises (o : oracle) (fuel tree_no iter_errs : nat)
    (r : PerceptronRanker) :
  length (train_das r) <= tree_no ->
  training_instance o fuel tree_no iter_errs r = (r, Raise IndexError).
Proof.
  intros Hlen. unfold training_instance.
  destruct (train_trees r !! tree_no) as [gold|] eqn:Hgt.
  2:{ apply M_bind_raise. unfold reads, py_getitem. rewrite Hgt. reflexivity. }
  rewrite (M_bind_step _ _ r r gold) by (apply reads_Ok, py_getitem_Ok, Hgt).
  destruct (rows (train_feats r) !! tree_no) as [gold_feats|] eqn:Hgf.
  2:{ apply M_bind_raise. unfold reads, py_getitem. rewrite Hgf. reflexivity. }
  rewrite (M_bind_step _ _ r r gold_feats) by (apply reads_Ok, py_getitem_Ok, Hgf).
  apply M_bind_raise. unfold _get_rival_candidates.
  apply M_bind_raise. unfold reads, py_getitem.
  rewrite (lookup_ge_None_2 (train_das r)) by lia. reflexivity.
Qed.

(** X5. With fewer dialogue acts than trees in the training data,
    nothing checks the mismatch: the step of the first tree without a
    dialogue act raises [IndexError] and leaves the ranker as it is, and no
    pass ever completes. *)
Theorem misaligned_corpus_never_completes (r : PerceptronRanker) :
  length (train_das r) < length (train_trees r) ->
  (forall o fuel iter_errs,
     training_instance o fuel (length (train_das r)) iter_errs r
     = (r, Raise IndexError))
  /\ (forall os fuel iter_no r' acc,
        _training_iter os fuel iter_no r <> (r', Ok acc)).
Proof.
  intros Hlen. split.
  - intros o fuel iter_errs. apply instance_without_da_raises. lia.
  - intros os fuel iter_no r' acc Hrun. unfold _training_iter in Hrun.
    apply M_bind_Ok in Hrun as ([] & ra & Ha & Hrun).
    unfold assigns in Ha. injection Ha as <-.
    apply M_bind_Ok in Hrun as ([] & rb & Hb & Hrun).
    unfold assigns in Hb. injection Hb as <-.
    apply M_bind_Ok in Hrun as (n & rc & Hn & Hrun).
    unfold reads in Hn. injection Hn as <- <-.
    apply M_bind_Ok in Hrun as (errs & rd & Hloop & _).
    set (r0 := set_lists_analyzer (set_evaluator r []) []) in *.
    change (train_trees r0) with (train_trees r) in Hloop.
    pose (I := fun (done : list nat) (_ : nat) (rc : PerceptronRanker) =>
      frozen rc = frozen r0 /\ Forall (fun i => i < length (train_das r)) done).
    assert (HI : I ([] ++ seq 0 (length (train_trees r))) errs rd).
    { eapply (for_each_inv I); [| |exact Hloop].
      - clear. intros done x errs rc errs' rn [Hfr Hdone] Hstep.
        destruct (training_instance_bookkeeping _ _ _ _ _ _ _ Hstep)
          as (Hfr' & _ & _ & _ & Hda).
        rewrite (frozen_train_das _ _ Hfr) in Hda.
        change (train_das r0) with (train_das r) in Hda.
        split; [congruence|]. apply Forall_app. split; [exact Hdone|].
        constructor; [|constructor]. apply lookup_lt_is_Some, Hda.
      - split; [reflexivity | constructor]. }
    destruct HI as [_ Hall]. simpl in Hall. rewrite Forall_forall in Hall.
    specialize (Hall (length (train_das r))).
    rewrite elem_of_seq in Hall. lia.
Qed.

(** ** Strategies that cannot deliver *)

Lemma if_strategy_raise (name : string) (acc : list Tree * list vec)
    (block : M (list Tree * list vec)) (r r1 : PerceptronRanker) (e : exn) :
  name ∈ rival_gen_strategy r -> block r = (r1, Raise e) ->
  if_strategy name acc block r = (r1, Raise e).
Proof.
  intros Hin Hblock. unfold if_strategy.
  destruct (decide (name ∈ rival_gen_strategy r)); [|contradiction].
  apply M_bind_raise, Hblock.
Qed.

(** The first instance of a pass decides when it raises. *)
Lemma training_iter_first_raises (os : nat -> oracle) (fuel iter_no : nat)
    (r r1 : PerceptronRanker) (e : exn) :
  0 < length (train_trees r) ->
  training_instance (os 0) fuel 0 0 (set_lists_analyzer (set_evaluator r []) [])
    = (r1, Raise e) ->
  _training_iter os fuel iter_no r = (r1, Raise e).
Proof.
  intros Hn Hfirst. unfold _training_iter.
  rewrite (M_bind_step _ _ r (set_evaluator r []) tt) by reflexivity.
  rewrite (M_bind_step _ _ _ (set_lists_analyzer (set_evaluator r []) []) tt)
    by reflexivity.
  rewrite (M_bind_step _ _ _ (set_lists_analyzer (set_evaluator r []) [])
             (length (train_trees r))) by reflexivity.
  apply M_bind_raise.
  destruct (length (train_trees r)) as [|n]; [lia|].
  cbn [seq for_each]. apply M_bind_raise, Hfirst.
Qed.

(** X6. With [other_inst] configured and [rival_number] greater than the
    number of other training instances, [random.sample] is asked for more
    than its population holds: rival generation raises [ValueError] and
    changes nothing, and so does every pass at its first instance. With the
    defaults ([rival_number = 10]) this is any corpus of at most ten trees. *)
Theorem other_inst_needs_enough_instances (os : nat -> oracle)
    (fuel iter_no : nat) (r : PerceptronRanker) :
  "other_inst"%string ∈ rival_gen_strategy r ->
  length (train_trees r) - 1 < rival_number r ->
  (forall o tree_no,
     is_Some (train_das r !! tree_no) ->
     _get_rival_candidates o fuel tree_no r = (r, Raise ValueError))
  /\ (is_Some (train_trees r !! 0) -> is_Some (rows (train_feats r) !! 0) ->
      is_Some (train_das r !! 0) ->
      _training_iter os fuel iter_no r
      = (set_lists_analyzer (set_evaluator r []) [], Raise ValueError)).
Proof.
  intros Hin Hk.
  assert (Hgen : forall o tree_no (r0 : PerceptronRanker),
    rival_gen_strategy r0 = rival_gen_strategy r ->
    train_trees r0 = train_trees r -> rival_number r0 = rival_number r ->
    is_Some (train_das r0 !! tree_no) ->
    _get_rival_candidates o fuel tree_no r0 = (r0, Raise ValueError)).
  { intros o tree_no r0 Hs Ht Hn [da Hda]. unfold _get_rival_candidates.
    rewrite (M_bind_step _ _ r0 r0 da) by (apply reads_Ok, py_getitem_Ok, Hda).
    apply M_bind_raise, if_strategy_raise; [rewrite Hs; exact Hin|].
    unfold reads, other_inst_rivals, random_sample. rewrite Ht, Hn.
    destruct (decide (rival_number r <= length (train_trees r) - 1)); [lia|].
    reflexivity. }
  split.
  - intros o tree_no Hda. apply Hgen; auto.
  - intros [gold Hgt] [gold_feats Hgf] Hda.
    apply training_iter_first_raises; [apply lookup_lt_Some in Hgt; exact Hgt|].
    set (r0 := set_lists_analyzer (set_evaluator r []) []).
    unfold training_instance.
    rewrite (M_bind_step _ _ r0 r0 gold) by (apply reads_Ok, py_getitem_Ok, Hgt).
    rewrite (M_bind_step _ _ r0 r0 gold_feats)
      by (apply reads_Ok, py_getitem_Ok, Hgf).
    apply M_bind_raise, Hgen; auto.
Qed.

(** X7. A ranker configured with [random] but without [candgen_model]
    passes [_init_training] (only [gen_cur_weights] is checked there; the
    [data_portion] is one that line 100 can turn into a size) and has no
    sampling planner: as soon as a rival is asked of the strategy, rival
    generation raises [AttributeError]. *)
Theorem random_without_planner (cfg : Config) (das : list DA)
    (train_sents0 : list string) (ttrees : list Tree) (data_portion : float) :
  is_Ok (train_size data_portion ttrees) ->
  cfg_candgen_model cfg = None ->
  "random"%string ∈ rival_gen_strategy (__init__ cfg) ->
  "gen_cur_weights"%string ∉ rival_gen_strategy (__init__ cfg) ->
  exists r',
    _init_training das train_sents0 ttrees data_portion (__init__ cfg) = (r', Ok tt)
    /\ sampling_planner r' = None
    /\ forall o fuel tree_no da p1,
         0 < rival_number r' -> 0 < fuel ->
         train_das r' !! tree_no = Some da ->
         strategy_part r' "other_inst" (other_inst_rivals r' o tree_no da) p1 ->
         _get_rival_candidates o fuel tree_no r' = (r', Raise AttributeError).
Proof.
  intros [z Hz] Hmodel Hrandom Hnogen.
  pose proof (init_training_run das train_sents0 ttrees data_portion z
                (__init__ cfg) Hz) as Hinit.
  cbv zeta in Hinit.
  destruct (decide ("gen_cur_weights"%string ∈ rival_gen_strategy (__init__ cfg)))
    as [?|_]; [contradiction|].
  eexists. split; [exact Hinit|].
  assert (Hsp : sampling_planner
            (init_weights (init_data das train_sents0 ttrees z
                             (__init__ cfg))) = None).
  { unfold init_weights, init_data. cbn [candgen_model __init__].
    rewrite Hmodel. reflexivity. }
  split; [exact Hsp|].
  set (r' := init_weights _) in *.
  assert (Hstrategy : rival_gen_strategy r' = rival_gen_strategy (__init__ cfg)).
  { unfold r', init_weights, init_data. cbn [candgen_model __init__].
    rewrite Hmodel. reflexivity. }
  intros o fuel tree_no da p1 Hk Hfuel Hda Hp1. unfold _get_rival_candidates.
  rewrite (M_bind_step _ _ r' r' da) by (apply reads_Ok, py_getitem_Ok, Hda).
  erewrite M_bind_step
    by (apply (if_strategy_reads _ _ p1
                 (fun r => other_inst_rivals r o tree_no da)), Hp1).
  apply M_bind_raise, if_strategy_raise; [rewrite Hstrategy; exact Hrandom|].
  unfold reads, random_rivals. destruct fuel as [|fuel]; [lia|].
  cbn [random_loop]. destruct (decide (length [] < rival_number r')) as [_|Hn].
  - rewrite Hsp. reflexivity.
  - exfalso. apply Hn. exact Hk.
Qed.

Lemma if_strategy_skip (name : string) (acc : list Tree * list vec)
    (block : M (list Tree * list vec)) (r : PerceptronRanker) :
  name ∉ rival_gen_strategy r -> if_strategy name acc block r = (r, Ok acc).
Proof.
  intros Hnin. unfold if_strategy.
  destruct (decide (name ∈ rival_gen_strategy r)); [contradiction | reflexivity].
Qed.

Lemma gen_cur_weights_rivals_run (r : PerceptronRanker) (o : oracle)
    (tree_no : nat) (da : DA) (gold : Tree) (ap : ASearchPlanner)
    (open_list close_list : cand_list) :
  asearch_planner r = Some ap ->
  search_draw o = (open_list, close_list) ->
  train_trees r !! tree_no = Some gold ->
  gen_cur_weights_rivals o tree_no da r
  = (set_lists_analyzer r (lists_analyzer r ++ [(gold, open_list, close_list)]),
     fs ← mapM (fun tree => _extract_feats r tree da)
            (take (rival_number r)
               (filter (fun t => t <> gold) (reverse close_list).*1));
     Ok (take (rival_number r)
           (filter (fun t => t <> gold) (reverse close_list).*1), fs)).
Proof.
  intros Hap Hdraw Hgold.
  unfold gen_cur_weights_rivals, mbind at 1 2 3, M_bind, reads, assigns.
  rewrite Hap, Hdraw. unfold py_getitem at 1. rewrite Hgold.
  set (r1 := set_lists_analyzer r _). f_equal.
  rewrite (gen_loop_spec r1 tree_no gold Hgold) by lia.
  cbn [mbind outcome_bind app length]. rewrite Nat.sub_0_r.
  rewrite py_slice_to_nat.
  change (rival_number r1) with (rival_number r).
  rewrite take_take, Nat.min_id. reflexivity.
Qed.

Lemma only_gold_leaves_nothing (gold : Tree) (close_list : cand_list) :
  Forall (fun e => e.1 = gold) close_list ->
  filter (fun t => t <> gold) (reverse close_list).*1 = [].
Proof.
  intros Hall. apply elem_of_nil_inv. intros t Ht.
  apply list_elem_of_filter in Ht as [Hne Hin].
  apply list_elem_of_fmap in Hin as (e & -> & Hin).
  rewrite elem_of_reverse in Hin. rewrite Forall_forall in Hall.
  apply Hne, Hall, Hin.
Qed.

Lemma training_instance_no_rival (o : oracle) (fuel tree_no iter_errs : nat)
    (r r1 : PerceptronRanker) (gold_ttree : Tree) (gold_feats : vec) (s0 : float) :
  train_trees r !! tree_no = Some gold_ttree ->
  rows (train_feats r) !! tree_no = Some gold_feats ->
  _get_rival_candidates o fuel tree_no r = (r1, Ok ([], [])) ->
  _score r1 gold_feats = Ok s0 ->
  training_instance o fuel tree_no iter_errs r = (r1, Raise ValueError).
Proof.
  intros Hgt Hgf Hriv Hs0. unfold training_instance.
  rewrite (M_bind_step _ _ r r gold_ttree)
    by (apply reads_Ok, py_getitem_Ok, Hgt).
  rewrite (M_bind_step _ _ r r gold_feats)
    by (apply reads_Ok, py_getitem_Ok, Hgf).
  rewrite (M_bind_step _ _ r r1 ([], [])) by exact Hriv.
  rewrite (M_bind_step _ _ r1 r1 [s0]).
  2:{ apply reads_Ok. simpl. rewrite Hs0. reflexivity. }
  rewrite (M_bind_step _ _ r1 r1 0).
  2:{ apply reads_Ok, index_of_max_singleton. }
  apply M_bind_raise. reflexivity.
Qed.

(** X8. With [gen_cur_weights] as the only strategy, a search whose
    closed list holds nothing but the gold tree (or nothing at all) leaves
    the instance without a rival: the lists are logged in the analyzer and
    the step then raises the [ValueError] of [max] over no rival score,
    without touching the weights. *)
Theorem search_closing_only_gold_aborts (o : oracle)
    (fuel tree_no iter_errs : nat) (r : PerceptronRanker) (gold : Tree)
    (gold_feats : vec) (ap : ASearchPlanner) (open_list close_list : cand_list) :
  "other_inst"%string ∉ rival_gen_strategy r ->
  "random"%string ∉ rival_gen_strategy r ->
  "gen_cur_weights"%string ∈ rival_gen_strategy r ->
  asearch_planner r = Some ap ->
  search_draw o = (open_list, close_list) ->
  Forall (fun e => e.1 = gold) close_list ->
  train_trees r !! tree_no = Some gold ->
  rows (train_feats r) !! tree_no = Some gold_feats ->
  is_Some (train_das r !! tree_no) ->
  is_Ok (_score r gold_feats) ->
  training_instance o fuel tree_no iter_errs r
  = (set_lists_analyzer r (lists_analyzer r ++ [(gold, open_list, close_list)]),
     Raise ValueError).
Proof.
  intros Hoi Hrnd Hgen Hap Hdraw Hall Hgt Hgf [da Hda] [s0 Hs0].
  apply (training_instance_no_rival _ _ _ _ _ _ gold gold_feats s0);
    [exact Hgt | exact Hgf | | exact Hs0].
  unfold _get_rival_candidates.
  rewrite (M_bind_step _ _ r r da) by (apply reads_Ok, py_getitem_Ok, Hda).
  rewrite (M_bind_step _ _ r r ([], [])) by (apply if_strategy_skip, Hoi).
  rewrite (M_bind_step _ _ r r ([], [])) by (apply if_strategy_skip, Hrnd).
  erewrite M_bind_step.
  2:{ apply (if_strategy_run _ _ ([], [])).
      destruct (decide ("gen_cur_weights"%string ∈ rival_gen_strategy r));
        [|contradiction].
      rewrite (gen_cur_weights_rivals_run r o tree_no da gold ap open_list
                 close_list Hap Hdraw Hgt).
      rewrite only_gold_leaves_nothing by exact Hall.
      rewrite take_nil. reflexivity. }
  reflexivity.
Qed.

(** ** How many rivals, and which *)

Lemma random_loop_Ok (r : PerceptronRanker) (o : oracle) (tree_no : nat)
    (P : Tree -> Prop) :
  (forall n gold, train_trees r !! tree_no = Some gold ->
     planner_draw o n <> gold -> P (planner_draw o n)) ->
  forall fuel calls acc ts,
    random_loop r o tree_no fuel calls acc = Ok ts ->
    length acc <= rival_number r -> Forall P acc ->
    length ts = rival_number r /\ Forall P ts.
Proof.
  intros HP. induction fuel as [|fuel IH]; intros calls acc ts Hrun Hlen Hacc.
  - simpl in Hrun. case_decide; [discriminate|]. injection Hrun as <-.
    split; [lia | exact Hacc].
  - simpl in Hrun. case_decide as Hlt.
    + destruct (sampling_planner r); [|discriminate].
      apply bind_Ok in Hrun as (gold & Hgold & Hrun).
      apply py_getitem_Ok in Hgold.
      destruct (decide (planner_draw o calls <> gold)) as [Hne|_].
      * apply IH in Hrun; [exact Hrun | rewrite length_app; simpl; lia|].
        apply Forall_app. split; [exact Hacc|].
        constructor; [|constructor]. eapply HP; eassumption.
      * apply IH in Hrun; assumption.
    + injection Hrun as <-. split; [lia | exact Hacc].
Qed.

(** X9. Whenever the [random] strategy returns, whatever the planner did
    and however many calls it took, it returns exactly [rival_number] trees
    with their features; each of them was produced by the planner and none
    of them is the gold tree. *)
Theorem random_rivals_never_gold (r : PerceptronRanker) (o : oracle)
    (fuel tree_no : nat) (da : DA) (ts : list Tree) (fs : list vec) :
  random_rivals r o fuel tree_no da = Ok (ts, fs) ->
  length ts = rival_number r /\ length fs = rival_number r
  /\ Forall (fun t => exists n, t = planner_draw o n) ts
  /\ forall gold, train_trees r !! tree_no = Some gold ->
       Forall (fun t => t <> gold) ts.
Proof.
  unfold random_rivals. intros Hrun.
  apply bind_Ok in Hrun as (ts' & Hloop & Hrun).
  apply bind_Ok in Hrun as (fs' & Hfs & [= <- <-]).
  apply mapM_Ok_length in Hfs.
  destruct (random_loop_Ok r o tree_no (fun t => exists n, t = planner_draw o n))
    with (fuel := fuel) (calls := 0) (acc := @nil Tree) (ts := ts')
    as [Hlen Hdraws]; [eauto | exact Hloop | simpl; lia | constructor |].
  split; [exact Hlen|]. split; [congruence|]. split; [exact Hdraws|].
  intros gold Hgold.
  destruct (random_loop_Ok r o tree_no (fun t => t <> gold))
    with (fuel := fuel) (calls := 0) (acc := @nil Tree) (ts := ts')
    as [_ Hne]; [|exact Hloop | simpl; lia | constructor | exact Hne].
  intros n gold' Hgold' Hne. congruence.
Qed.

Lemma other_inst_rivals_length (r : PerceptronRanker) (o : oracle) (tree_no : nat)
    (da : DA) (p : list Tree * list vec) :
  other_inst_rivals r o tree_no da = Ok p -> length p.1 = length (sample_draw o).
Proof.
  unfold other_inst_rivals, random_sample. intros Hrun.
  apply bind_Ok in Hrun as (draw & Hdraw & Hrun).
  case_decide; [|discriminate]. injection Hdraw as <-.
  apply bind_Ok in Hrun as (ts & Hts & Hrun).
  apply bind_Ok in Hrun as (fs & _ & [= <-]).
  apply mapM_Ok_length in Hts. simpl. rewrite Hts. apply length_fmap.
Qed.

Lemma gen_cur_weights_rivals_length (o : oracle) (tree_no : nat) (da : DA)
    (r r1 : PerceptronRanker) (p : list Tree * list vec) :
  gen_cur_weights_rivals o tree_no da r = (r1, Ok p) ->
  length p.1 <= rival_number r.
Proof.
  unfold gen_cur_weights_rivals. intros Hrun.
  apply M_bind_Ok in Hrun as (ap & r' & Hap & Hrun).
  unfold reads in Hap. injection Hap as <- _.
  destruct (search_draw o) as [open_list close_list].
  apply M_bind_Ok in Hrun as (gold & r' & Hgold & Hrun).
  unfold reads in Hgold. injection Hgold as <- _.
  apply M_bind_Ok in Hrun as ([] & r' & Hset & Hrun).
  unfold assigns in Hset. injection Hset as <-.
  unfold reads in Hrun. injection Hrun as _ Hrun.
  apply bind_Ok in Hrun as (gen_trees & _ & Hrun).
  apply bind_Ok in Hrun as (fs & _ & [= <-]).
  simpl. rewrite py_slice_to_nat, length_take. lia.
Qed.

(** X10. [rival_number] caps every strategy on its own: when rival
    generation returns and [random.sample] gave as many indices as it was
    asked for, [other_inst] and [random] have each contributed exactly
    [rival_number] trees if configured and [gen_cur_weights] at most as
    many, so an instance has at most [3 * rival_number] rivals. *)
Theorem rival_number_caps_each_strategy (o : oracle) (fuel tree_no : nat)
    (r r1 : PerceptronRanker) (rts : list Tree) (rfs : list vec) :
  _get_rival_candidates o fuel tree_no r = (r1, Ok (rts, rfs)) ->
  length (sample_draw o) = rival_number r ->
  exists g,
    g <= rival_number r
    /\ length rts
       = (if decide ("other_inst"%string ∈ rival_gen_strategy r)
          then rival_number r else 0)
         + (if decide ("random"%string ∈ rival_gen_strategy r)
            then rival_number r else 0)
         + (if decide ("gen_cur_weights"%string ∈ rival_gen_strategy r)
            then g else 0)
    /\ length rts <= 3 * rival_number r
    /\ length rfs = length rts.
Proof.
  unfold _get_rival_candidates. intros Hrun Hdraw.
  pose proof Hrun as Hinv. apply get_rival_candidates_inv in Hinv
    as (da0 & _ & _ & Hext). apply Forall2_length in Hext. clear da0.
  apply M_bind_Ok in Hrun as (da & r' & Hda & Hrun).
  unfold reads in Hda. injection Hda as <- _.
  apply M_bind_Ok in Hrun as (p1 & ra & H1 & Hrun).
  apply M_bind_Ok in Hrun as (p2 & rb & H2 & Hrun).
  apply M_bind_Ok in Hrun as (p3 & rc & H3 & [= <- Hp3]).
  apply if_strategy_inv in H1 as (n1 & -> & H1).
  apply if_strategy_inv in H2 as (n2 & -> & H2).
  apply if_strategy_inv in H3 as (n3 & Hn3 & H3).
  assert (Hrts : rts = (n1.1 ++ n2.1) ++ n3.1)
    by (rewrite Hp3 in Hn3; injection Hn3 as Hrts' _; exact Hrts').
  clear Hp3 Hn3.
  assert (Hra : ra = r /\ length n1.1
     = if decide ("other_inst"%string ∈ rival_gen_strategy r)
       then rival_number r else 0).
  { destruct (decide ("other_inst"%string ∈ rival_gen_strategy r)).
    - unfold reads in H1. injection H1 as <- H1. split; [reflexivity|].
      apply other_inst_rivals_length in H1. congruence.
    - destruct H1 as [-> ->]. split; reflexivity. }
  destruct Hra as [-> Hl1].
  assert (Hrb : rb = r /\ length n2.1
     = if decide ("random"%string ∈ rival_gen_strategy r)
       then rival_number r else 0).
  { destruct (decide ("random"%string ∈ rival_gen_strategy r)).
    - unfold reads in H2. injection H2 as <- H2. split; [reflexivity|].
      destruct n2 as [ts fs].
      unfold random_rivals in H2.
      apply bind_Ok in H2 as (ts' & Hloop & H2).
      apply bind_Ok in H2 as (fs' & _ & [= <- <-]).
      eapply (random_loop_Ok r o tree_no (fun _ => True)) in Hloop
        as [Hlen _]; [exact Hlen | auto | simpl; lia | constructor].
    - destruct H2 as [-> ->]. split; reflexivity. }
  destruct Hrb as [-> Hl2].
  exists (length n3.1).
  assert (Hl3 : length n3.1 <= rival_number r
                /\ (("gen_cur_weights"%string ∉ rival_gen_strategy r)
                    -> length n3.1 = 0)).
  { destruct (decide ("gen_cur_weights"%string ∈ rival_gen_strategy r)).
    - split; [eapply gen_cur_weights_rivals_length, H3 | contradiction].
    - destruct H3 as [_ ->]. split; [simpl; lia | reflexivity]. }
  destruct Hl3 as [Hl3 Hl3'].
  split; [exact Hl3|].
  assert (Hlen : length rts = length n1.1 + length n2.1 + length n3.1)
    by (rewrite Hrts, !length_app; reflexivity).
  split; [|split; [|symmetry; exact Hext]].
  - rewrite Hlen, Hl1, Hl2.
    destruct (decide ("gen_cur_weights"%string ∈ rival_gen_strategy r));
      [reflexivity | rewrite Hl3' by assumption; reflexivity].
  - rewrite Hlen, Hl1, Hl2.
    repeat destruct (decide (_ ∈ rival_gen_strategy r)); lia.
Qed.

(** ** Initialization *)

Lemma py_slice_to_prefix {A} (l : list A) (n : Z) :
  exists k, k <= length l /\ py_slice_to l n = take k l
    /\ ((0 <= n)%Z -> k = Z.to_nat n `min` length l)
    /\ ((n < 0)%Z -> k = length l - Z.to_nat (- n)).
Proof.
  unfold py_slice_to. destruct (Z.leb_spec 0 n) as [Hn|Hn].
  - exists (Z.to_nat n `min` length l). split; [lia|]. split; [|split; [auto | lia]].
    destruct (decide (Z.to_nat n <= length l)) as [Hle|Hgt].
    + rewrite Nat.min_l by lia. reflexivity.
    + rewrite Nat.min_r by lia. rewrite !take_ge by lia. reflexivity.
  - exists (length l - Z.to_nat (- n)). split; [lia|].
    split; [reflexivity|]. split; [lia | auto].
Qed.

(** X11. [_init_training] keeps a prefix of the corpus: with
    [train_size = int(round(data_portion * len(ttrees)))], the product and
    its rounding being those of float64, the training trees are
    [ttrees[:train_size]] and the dialogue acts [das[:train_size]]. For a
    size that is not negative these are the first [train_size] trees and the
    first [train_size] acts (all of them when there are fewer); a negative
    size drops that many from the end of each. *)
Theorem data_portion_keeps_a_prefix (das : list DA) (train_sents0 : list string)
    (ttrees : list Tree) (data_portion : float) (r : PerceptronRanker) (z : Z) :
  train_size data_portion ttrees = Ok z ->
  let r' := (_init_training das train_sents0 ttrees data_portion r).1 in
  exists kt kd,
    train_trees r' = take kt ttrees /\ train_das r' = take kd das
    /\ kt <= length ttrees /\ kd <= length das
    /\ ((0 <= z)%Z -> kt = Z.to_nat z `min` length ttrees
                      /\ kd = Z.to_nat z `min` length das)
    /\ ((z < 0)%Z -> kt = length ttrees - Z.to_nat (- z)
                     /\ kd = length das - Z.to_nat (- z))
    /\ train_sents r' = train_sents0.
Proof.
  intros Hz. cbv zeta.
  rewrite (init_training_run das train_sents0 ttrees data_portion z r Hz).
  cbv zeta.
  pose proof (init_data_train_trees das train_sents0 ttrees z r) as Htrees.
  pose proof (init_data_train_das das train_sents0 ttrees z r) as Hdas.
  assert (Hsents : train_sents (init_data das train_sents0 ttrees z r) = train_sents0)
    by (unfold init_data; destruct (candgen_model r); reflexivity).
  destruct (py_slice_to_prefix ttrees z) as (kt & Hkt & Hst & Hpos_t & Hneg_t).
  destruct (py_slice_to_prefix das z) as (kd & Hkd & Hsd & Hpos_d & Hneg_d).
  exists kt, kd.
  assert (Hgoal : forall r2 : PerceptronRanker,
    train_trees r2 = train_trees (init_data das train_sents0 ttrees z r) ->
    train_das r2 = train_das (init_data das train_sents0 ttrees z r) ->
    train_sents r2 = train_sents (init_data das train_sents0 ttrees z r) ->
    train_trees r2 = take kt ttrees /\ train_das r2 = take kd das
    /\ kt <= length ttrees /\ kd <= length das
    /\ ((0 <= z)%Z -> kt = Z.to_nat z `min` length ttrees
                      /\ kd = Z.to_nat z `min` length das)
    /\ ((z < 0)%Z -> kt = length ttrees - Z.to_nat (- z)
                     /\ kd = length das - Z.to_nat (- z))
    /\ train_sents r2 = train_sents0).
  { intros r2 -> -> ->. rewrite Htrees, Hdas, Hst, Hsd. auto 10. }
  destruct (decide ("gen_cur_weights"%string ∈ rival_gen_strategy r));
    [destruct (candgen _) as [[cg|]|]|]; apply Hgoal; reflexivity.
Qed.

(** X12. Initialization of a freshly built ranker succeeds unless
    [gen_cur_weights] is configured without [candgen_model] (the
    [data_portion] being one that line 100 can turn into a size). It leaves
    the transformers fitted, the weights at one coefficient [1] per column of
    the training matrix and both diagnostics empty; the sampling planner
    exists exactly when a model is configured and the search planner exactly
    when [gen_cur_weights] is. *)
Theorem init_training_postcondition (cfg : Config) (das : list DA)
    (train_sents0 : list string) (ttrees : list Tree) (data_portion : float) :
  is_Ok (train_size data_portion ttrees) ->
  "gen_cur_weights"%string ∉ rival_gen_strategy (__init__ cfg)
    \/ is_Some (cfg_candgen_model cfg) ->
  exists r',
    _init_training das train_sents0 ttrees data_portion (__init__ cfg) = (r', Ok tt)
    /\ fitted r'
    /\ (exists wv, w r' = Some wv /\ length wv = ncols (train_feats r')
                   /\ Forall (fun x => x = 1%float) wv)
    /\ evaluator r' = [] /\ lists_analyzer r' = []
    /\ (is_Some (sampling_planner r') <-> is_Some (cfg_candgen_model cfg))
    /\ (is_Some (asearch_planner r')
        <-> "gen_cur_weights"%string ∈ rival_gen_strategy (__init__ cfg)).
Proof.
  intros [z Hz] Hok.
  pose proof (init_training_run das train_sents0 ttrees data_portion z
                (__init__ cfg) Hz) as Hinit.
  cbv zeta in Hinit. unfold init_data in Hinit.
  cbn [candgen_model candgen __init__ set_training_data set_train_sents
         set_candgen] in Hinit.
  assert (Hones : forall n, length (np_ones n) = n
                            /\ Forall (fun x => x = 1%float) (np_ones n)).
  { intros n. unfold np_ones. split; [apply length_replicate|].
    apply Forall_replicate. reflexivity. }
  destruct (cfg_candgen_model cfg) as [model|] eqn:Hmodel;
    destruct (decide ("gen_cur_weights"%string ∈ rival_gen_strategy (__init__ cfg)))
      as [Hin|Hnin];
    cbn [candgen set_training_data set_train_sents set_candgen] in Hinit.
  - eexists. split; [exact Hinit|].
    split; [split; eexists; reflexivity|].
    split; [eexists; split; [reflexivity | apply Hones]|].
    split; [reflexivity|]. split; [reflexivity|].
    split; (split; [intros _ | intros _; eexists; reflexivity]); eauto.
  - eexists. split; [exact Hinit|].
    split; [split; eexists; reflexivity|].
    split; [eexists; split; [reflexivity | apply Hones]|].
    split; [reflexivity|]. split; [reflexivity|]. split.
    + split; [intros _ | intros _; eexists; reflexivity]; eauto.
    + split; [intros [ap Hap]; discriminate Hap | contradiction].
  - destruct Hok as [?|[? [=]]]. contradiction.
  - eexists. split; [exact Hinit|].
    split; [split; eexists; reflexivity|].
    split; [eexists; split; [reflexivity | apply Hones]|].
    split; [reflexivity|]. split; [reflexivity|]. split.
    + split; [intros [sp Hsp]; discriminate Hsp | intros [? [=]]].
    + split; [intros [ap Hap]; discriminate Hap | contradiction].
Qed.

End Further.

(** ** Printing the weights *)

Lemma filter_all {A} (P : A -> Prop) `{!forall x, Decision (P x)} (l : list A) :
  Forall P l -> filter P l = l.
Proof.
  induction 1 as [|x l Hx _ IH]; [reflexivity|].
  rewrite filter_cons_True by exact Hx. rewrite IH. reflexivity.
Qed.

Lemma filter_none {A} (P : A -> Prop) `{!forall x, Decision (P x)} (l : list A) :
  Forall (fun x => ~ P x) l -> filter P l = [].
Proof.
  induction 1 as [|x l Hx _ IH]; [reflexivity|].
  rewrite filter_cons_False by exact Hx. exact IH.
Qed.

(** X13. [_feat_val_str] lists the features in the order of the names,
    as many as there are names and weights in common; with [nonzero] set it
    lists of these exactly the ones whose weight is not zero, in the same
    order, and for a vector of zeros it returns the empty string. *)
Theorem feat_val_str_lists_nonzero (fmt : string -> float -> string)
    (names : list string) (v : vec) (sep : string) :
  length (feat_val_lines fmt names v false) = length names `min` length v
  /\ feat_val_lines fmt names v false
     = (fun nw => fmt nw.1 nw.2) <$> zip names v
  /\ feat_val_lines fmt names v true
     = (fun nw => fmt nw.1 nw.2)
         <$> filter (fun nw : string * float => (nw.2 =? 0)%float = false)
               (zip names v)
  /\ feat_val_lines fmt names v true `sublist_of` feat_val_lines fmt names v false
  /\ (Forall (fun x => (x =? 0)%float = true) v ->
      _feat_val_str fmt names v sep true = ""%string).
Proof.
  assert (Hfalse : feat_val_lines fmt names v false
                   = (fun nw => fmt nw.1 nw.2) <$> zip names v).
  { unfold feat_val_lines. rewrite filter_all; [reflexivity|].
    apply Forall_forall. intros nw _. exact I. }
  assert (Htrue : feat_val_lines fmt names v true
     = (fun nw => fmt nw.1 nw.2)
         <$> filter (fun nw : string * float => (nw.2 =? 0)%float = false)
               (zip names v)).
  { unfold feat_val_lines. f_equal. apply list_filter_iff. intros nw. simpl.
    destruct (nw.2 =? 0)%float; simpl; split;
      (discriminate || contradiction || auto). }
  split; [rewrite Hfalse, length_fmap; apply length_zip_with|].
  split; [exact Hfalse|]. split; [exact Htrue|]. split.
  - rewrite Hfalse, Htrue. apply fmap_sublist, sublist_filter.
  - intros Hzero. unfold _feat_val_str. rewrite Htrue.
    rewrite filter_none; [reflexivity|].
    apply Forall_forall. intros [name x] Hin Hnz.
    apply elem_of_zip_r in Hin. rewrite Forall_forall in Hzero.
    simpl in Hnz. apply Hzero in Hin. congruence.
Qed.

(** ** The rival that is evaluated *)

Section Diagnostics.
Context `{Collaborators}.

(** X14. Whatever candidate wins, a completed instance step hands the
    evaluator the gold tree together with the rival of highest score, the
    first such rival when several tie; the gold score plays no part in
    that choice. *)
Theorem evaluated_rival_is_best (o : oracle) (fuel tree_no iter_errs errs' : nat)
    (r r' : PerceptronRanker) :
  training_instance o fuel tree_no iter_errs r = (r', Ok errs') ->
  exists gold r1 rts rfs rival_scores i best,
    train_trees r !! tree_no = Some gold
    /\ _get_rival_candidates o fuel tree_no r = (r1, Ok (rts, rfs))
    /\ Forall2 (fun f s => _score r f = Ok s) rfs rival_scores
    /\ is_first_argmax rival_scores i
    /\ rts !! i = Some best
    /\ evaluator r' = evaluator r ++ [(gold, best)].
Proof.
  intros Hrun.
  destruct (training_instance_Ok_inv _ _ _ _ _ _ _ Hrun)
    as (gold & gold_feats & r1 & rts & rfs & scores & top & best0 & wv
        & top_cand & Hgt & Hgf & Hriv & Hne & Hsc & _ & _ & _ & _).
  destruct (training_instance_run o fuel tree_no iter_errs r r1 gold
              gold_feats rts rfs scores Hgt Hgf Hriv Hne Hsc)
    as (top' & i & best & wv' & top_cand' & _ & Hi & Hbest & _ & _ & Hres).
  destruct (get_rival_candidates_inv _ _ _ _ _ _ _ Hriv) as (_ & _ & Hsame & _).
  destruct (get_rival_candidates_analyzer _ _ _ _ _ _ Hriv) as [_ Hev].
  apply mapM_Ok in Hsc.
  inversion Hsc as [|? s0 ? rival_scores _ Hrest]; subst.
  exists gold, r1, rts, rfs, rival_scores, i, best.
  split; [exact Hgt|]. split; [exact Hriv|]. split.
  { eapply Forall2_impl; [exact Hrest|]. intros f s Hs. simpl in Hs.
    unfold _score in Hs |- *. rewrite <- (same_model_w _ _ Hsame). exact Hs. }
  split; [apply index_of_max_spec; exact Hi|]. split; [exact Hbest|].
  rewrite Hrun in Hres. cbv zeta in Hres.
  destruct (decide (top' = 0)); injection Hres as -> _; simpl; rewrite Hev;
    reflexivity.
Qed.

End Diagnostics.

(** ** These properties at work in the small world *)

Lemma update_against_higher_rival_witness :
  exists sg sc,
    _score Toy.trained0 [1; 5; 0]%float = Ok sg
    /\ _score Toy.trained0 [1; 7; 0]%float = Ok sc
    /\ (sg <? sc)%float = true.
Proof.
  destruct (update_against_higher_rival (H := Toy.world) Toy.oracle0 0 0 0
              Toy.trained0
              (training_instance (H := Toy.world) Toy.oracle0 0 0 0 Toy.trained0).1)
    as (g & r1 & rts & rfs & scores & k & c & sg & sc & wv
        & Hgf & Hriv & _ & _ & Hc & Hsg & Hsc & Hlt & _).
  - vm_compute. reflexivity.
  - exists sg, sc.
    vm_compute in Hgf. injection Hgf as <-.
    vm_compute in Hriv. injection Hriv as _ _ <-.
    destruct k as [|k]; [|destruct k; discriminate Hc].
    injection Hc as <-. auto.
Defined.

Lemma completed_pass_bookkeeping_witness :
  (evaluator (_training_iter (H := Toy.world) (fun _ => Toy.oracle0) 0 1
                Toy.trained0).1).*1 = [5; 3; 7].
Proof.
  destruct (completed_pass_bookkeeping (H := Toy.world) (fun _ => Toy.oracle0) 0 1
              Toy.trained0
              (_training_iter (H := Toy.world) (fun _ => Toy.oracle0) 0 1
                 Toy.trained0).1 (1 # 3)%Q)
    as (_ & Hev & _).
  - vm_compute. reflexivity.
  - exact Hev.
Defined.

Lemma misaligned_corpus_never_completes_witness :
  training_instance (H := Toy.world) Toy.oracle0 0 1 0 Toy.trained_misaligned
  = (Toy.trained_misaligned, Raise IndexError).
Proof.
  destruct (misaligned_corpus_never_completes (H := Toy.world) Toy.trained_misaligned)
    as [Hstep _].
  - vm_compute. lia.
  - exact (Hstep Toy.oracle0 0 0).
Defined.

Lemma other_inst_needs_enough_instances_witness :
  _get_rival_candidates (H := Toy.world) Toy.oracle0 0 0 (Toy.trained Toy.cfg_default)
  = (Toy.trained Toy.cfg_default, Raise ValueError).
Proof.
  destruct (other_inst_needs_enough_instances (H := Toy.world) (fun _ => Toy.oracle0)
              0 1 (Toy.trained Toy.cfg_default)) as [Hgen _].
  - apply list_elem_of_here.
  - vm_compute. lia.
  - apply Hgen. eexists. reflexivity.
Defined.

Lemma random_without_planner_witness :
  exists r',
    _init_training (H := Toy.world) Toy.corpus_das Toy.corpus_sents
      Toy.corpus_trees 1%float (__init__ (Toy.cfg_with ["random"%string] None))
    = (r', Ok tt)
    /\ _get_rival_candidates (H := Toy.world) Toy.oracle0 1 0 r'
       = (r', Raise AttributeError).
Proof.
  destruct (random_without_planner (H := Toy.world)
              (Toy.cfg_with ["random"%string] None)
              Toy.corpus_das Toy.corpus_sents Toy.corpus_trees 1%float)
    as (r' & Hinit & _ & Hgen).
  - eexists. reflexivity.
  - reflexivity.
  - apply list_elem_of_here.
  - intros Hin. apply list_elem_of_singleton in Hin. discriminate Hin.
  - exists r'. split; [exact Hinit|].
    injection Hinit as <-.
    apply (Hgen Toy.oracle0 1 0 0 ([], [])).
    + vm_compute. lia.
    + lia.
    + reflexivity.
    + vm_compute. reflexivity.
Defined.

Lemma search_closing_only_gold_aborts_witness :
  training_instance (H := Toy.world) Toy.oracle_only_gold 0 0 0 Toy.trained_search
  = (set_lists_analyzer Toy.trained_search [(5, [], [(5, 1%float)])],
     Raise ValueError).
Proof.
  apply (search_closing_only_gold_aborts (H := Toy.world) Toy.oracle_only_gold 0 0 0
           Toy.trained_search 5 [1; 5; 0]%float
           {| ap_candgen := {| cg_model := "candgen.pickle" |};
              ap_language := "en"; ap_selector := "" |}
           [] [(5, 1%float)]).
  - intros Hin. apply list_elem_of_singleton in Hin. discriminate Hin.
  - intros Hin. apply list_elem_of_singleton in Hin. discriminate Hin.
  - apply list_elem_of_here.
  - reflexivity.
  - reflexivity.
  - repeat constructor.
  - reflexivity.
  - reflexivity.
  - eexists. reflexivity.
  - eexists. reflexivity.
Defined.

Lemma random_rivals_never_gold_witness :
  Forall (fun t => t <> 5) [6].
Proof.
  destruct (random_rivals_never_gold (H := Toy.world) Toy.trained_random
              Toy.oracle0 2 0 0 [6] [[1; 6; 0]%float]) as (_ & _ & _ & Hne).
  - vm_compute. reflexivity.
  - apply (Hne 5). reflexivity.
Defined.

Lemma rival_number_caps_each_strategy_witness :
  length [7] <= 3 * rival_number Toy.trained0.
Proof.
  destruct (rival_number_caps_each_strategy (H := Toy.world) Toy.oracle0 0 0
              Toy.trained0 Toy.trained0 [7] [[1; 7; 0]%float])
    as (g & _ & _ & Hcap & _).
  - vm_compute. reflexivity.
  - reflexivity.
  - exact Hcap.
Defined.

Lemma data_portion_keeps_a_prefix_witness :
  train_trees (_init_training (H := Toy.world) (seq 0 10) [] (seq 10 10) 0.15
                 (__init__ Toy.cfg_other_inst)).1
  = [10; 11].
Proof.
  destruct (data_portion_keeps_a_prefix (H := Toy.world) (seq 0 10) []
              (seq 10 10) 0.15 (__init__ Toy.cfg_other_inst) 2)
    as (kt & kd & Htrees & _ & _ & _ & Hpos & _).
  - reflexivity.
  - rewrite Htrees. destruct Hpos as [-> _]; [lia|]. reflexivity.
Defined.

Lemma init_training_postcondition_witness :
  exists r',
    _init_training (H := Toy.world) Toy.corpus_das Toy.corpus_sents
      Toy.corpus_trees 1%float (__init__ Toy.cfg_other_inst) = (r', Ok tt)
    /\ evaluator r' = [].
Proof.
  destruct (init_training_postcondition (H := Toy.world) Toy.cfg_other_inst
              Toy.corpus_das Toy.corpus_sents Toy.corpus_trees 1%float)
    as (r' & Hinit & _ & _ & Hev & _).
  - eexists. reflexivity.
  - left. intros Hin. apply list_elem_of_singleton in Hin. discriminate Hin.
  - exists r'. split; [exact Hinit | exact Hev].
Defined.

Lemma evaluated_rival_is_best_witness :
  evaluator (training_instance (H := Toy.world) Toy.oracle0 0 0 0 Toy.trained0).1
  = [(5, 7)].
Proof.
  destruct (evaluated_rival_is_best (H := Toy.world) Toy.oracle0 0 0 0 1
              Toy.trained0
              (training_instance (H := Toy.world) Toy.oracle0 0 0 0 Toy.trained0).1)
    as (gold & r1 & rts & rfs & rival_scores & i & best & _).
  - vm_compute. reflexivity.
  - reflexivity.
Defined.
